(** * provider-caddy: route identity, translation and reconciliation

    A shallow embedding of the Caddy admin-API client
    ([internal/clients/caddy/client.go]) and of the ProxyRoute controller
    ([internal/controller/proxyroute/proxyroute.go]).

    Go values are modelled as follows.
    - [string] is a byte string ([String.string]); [strings.Join] is
      [String.concat] and ["a" + "b"] is [+:+].
    - A slice is a [list]; the code only ever tests [len(s) > 0] (and the
      JSON encoder's [omitempty] only tests [len(s) == 0]), so [nil] and the
      empty slice are not distinguished.
    - [map[string][]string] is [gmap string (list string)].
    - A pointer field [*T] that is only tested against [nil] and read is
      [option T].
    - [int] is [Z]; no arithmetic is performed on these fields.
    - An [error] is its message ([err.Error()]): the code inspects errors
      only through their text. *)

From Stdlib Require Import String Ascii ZArith List Bool.
From stdpp Require Import base option list strings gmap pretty.

Local Open Scope string_scope.
Local Open Scope Z_scope.

(** ** Go built-ins and [strings] helpers used by the code *)

(** [append(s, x)] on a slice. *)
Definition append {A : Type} (s : list A) (x : A) : list A := (s ++ [x])%list.

(** [strings.Join(elems, sep)]. *)
Definition Join (elems : list string) (sep : string) : string :=
  String.concat sep elems.

(** [strings.HasPrefix(s, prefix)]. *)
Fixpoint HasPrefix (s prefix : string) {struct prefix} : bool :=
  match prefix, s with
  | EmptyString, _ => true
  | String _ _, EmptyString => false
  | String p prefix', String c s' =>
      if Ascii.eqb p c then HasPrefix s' prefix' else false
  end.

(** [strings.Contains(s, substr)]: [substr] occurs at some offset of [s]. *)
Fixpoint Contains (s substr : string) : bool :=
  HasPrefix s substr ||
  match s with
  | EmptyString => false
  | String _ s' => Contains s' substr
  end.

(** [strings.HasSuffix(s, suffix)]: [s] is at least as long as [suffix] and
    its last [len(suffix)] bytes are [suffix]. *)
Definition HasSuffix (s suffix : string) : bool :=
  (String.length suffix <=? String.length s)%nat &&
  String.eqb (String.substring (String.length s - String.length suffix)
                               (String.length suffix) s)
             suffix.

(** [strings.TrimSuffix(s, suffix)]: [s] without the trailing [suffix], or
    [s] itself when it does not end with it. *)
Definition TrimSuffix (s suffix : string) : string :=
  if HasSuffix s suffix
  then String.substring 0 (String.length s - String.length suffix) s
  else s.

(** ** The wire types of the client package *)

Module caddyclient.

(** [MatchSet]: one set of matchers. *)
Record MatchSet : Type := {
  Host : list string;
  Path : list string;
  Method : list string;
  Header : gmap string (list string)
}.

Record Upstream : Type := {
  Dial : string;
  MaxRequests : Z
}.

Record SelectionPolicy : Type := { Policy : string }.

Record LoadBalancing : Type := {
  SelectionPolicy_ : option SelectionPolicy;
  TryDuration : string;
  TryInterval : string
}.

Record HeaderOps : Type := {
  Set_ : gmap string (list string);
  Add : gmap string (list string);
  Delete : list string
}.

Record Headers : Type := {
  Request : option HeaderOps;
  Response : option HeaderOps
}.

Record ActiveHealthCheck : Type := {
  ActivePath : string;
  Interval : string;
  Timeout : string
}.

Record PassiveHealthCheck : Type := {
  MaxFails : Z;
  UnhealthyLatency : string
}.

Record HealthChecks : Type := {
  Active : option ActiveHealthCheck;
  Passive : option PassiveHealthCheck
}.

Record TLSConfig : Type := {
  ServerName : string;
  InsecureSkipVerify : bool
}.

Record Transport : Type := {
  Protocol : string;
  TLS : option TLSConfig
}.

(** [Handler] and [Route] refer to each other. *)
Inductive Handler : Type := Build_Handler {
  Handler_ : string;
  Routes : list Route;
  Upstreams : list Upstream;
  LoadBalancing_ : option LoadBalancing;
  Headers_ : option Headers;
  HealthChecks_ : option HealthChecks;
  Transport_ : option Transport
}
with Route : Type := Build_Route {
  RouteHandle : list Handler
}.

(** [ProxyRoute]: a reverse-proxy route as Caddy stores it. *)
Record ProxyRoute : Type := {
  Match : list MatchSet;
  Handle : list Handler;
  Terminal : bool
}.

Record UpstreamStatus : Type := {
  Address : string;
  Healthy : bool;
  NumRequests : Z
}.

(** [generateRouteID]: the identifier the client computes for a route. *)
Definition generateRouteID (route : ProxyRoute) : string :=
  match Match route with
  | [] => "default"
  | matchSet :: _ =>
      let parts : list string := [] in
      let parts :=
        if (0 <? length (Host matchSet))%nat
        then append parts ("host:" +:+ Join (Host matchSet) ",") else parts in
      let parts :=
        if (0 <? length (Path matchSet))%nat
        then append parts ("path:" +:+ Join (Path matchSet) ",") else parts in
      let parts :=
        if (0 <? length (Method matchSet))%nat
        then append parts ("method:" +:+ Join (Method matchSet) ",") else parts in
      if (length parts =? 0)%nat then "default" else Join parts "|"
  end.

End caddyclient.

(** ** crossplane-runtime: conditions and the external-name annotation

    The controller uses three things of crossplane-runtime: the [Ready]
    conditions, [SetConditions] on the resource status, and the
    external-name annotation of the resource's metadata. *)

Module xpv1.

Inductive ConditionStatus : Type := ConditionTrue | ConditionFalse.

Inductive ConditionReason : Type :=
| ReasonAvailable | ReasonCreating | ReasonDeleting.

(** Only the [Ready] condition type is ever set by this controller. *)
Inductive ConditionType : Type := TypeReady | TypeSynced.

Record Condition : Type := {
  Type_ : ConditionType;
  Status : ConditionStatus;
  Reason : ConditionReason
}.

Definition Available : Condition :=
  {| Type_ := TypeReady; Status := ConditionTrue; Reason := ReasonAvailable |}.
Definition Creating : Condition :=
  {| Type_ := TypeReady; Status := ConditionFalse; Reason := ReasonCreating |}.
Definition Deleting : Condition :=
  {| Type_ := TypeReady; Status := ConditionFalse; Reason := ReasonDeleting |}.

Definition type_eqb (a b : ConditionType) : bool :=
  match a, b with
  | TypeReady, TypeReady | TypeSynced, TypeSynced => true
  | _, _ => false
  end.

(** [ConditionedStatus.SetConditions] with one condition: an existing
    condition of the same type is replaced in place, otherwise the new one
    is appended. *)
Fixpoint SetConditions (cs : list Condition) (c : Condition) : list Condition :=
  match cs with
  | [] => [c]
  | c0 :: cs' =>
      if type_eqb (Type_ c0) (Type_ c) then c :: cs'
      else c0 :: SetConditions cs' c
  end.

(** [ConditionedStatus.GetCondition]. *)
Fixpoint GetCondition (cs : list Condition) (ct : ConditionType) : option Condition :=
  match cs with
  | [] => None
  | c0 :: cs' => if type_eqb (Type_ c0) ct then Some c0 else GetCondition cs' ct
  end.

End xpv1.

(** ** The resource types of the API package *)

Module v1alpha1.

Record RouteMatch : Type := {
  Host : list string;
  Path : list string;
  Method : list string;
  Headers : gmap string (list string)
}.

Record Upstream : Type := {
  Dial : string;
  MaxRequests : option Z
}.

Record LoadBalancing : Type := {
  Policy : option string;
  TryDuration : option string;
  TryInterval : option string
}.

Record HeaderManipulation : Type := {
  Set_ : gmap string (list string);
  Add : gmap string (list string);
  Delete : list string
}.

Record HeaderOps : Type := {
  Request : option HeaderManipulation;
  Response : option HeaderManipulation
}.

Record ActiveHealthCheck : Type := {
  ActivePath : option string;
  Interval : option string;
  Timeout : option string
}.

Record PassiveHealthCheck : Type := {
  MaxFails : option Z;
  UnhealthyLatency : option string
}.

Record HealthChecks : Type := {
  Active : option ActiveHealthCheck;
  Passive : option PassiveHealthCheck
}.

Record UpstreamTLS : Type := {
  Enabled : option bool;
  TLSServerName : option string;
  InsecureSkipVerify : option bool
}.

Record ProxyRouteParameters : Type := {
  CaddyEndpoint : string;
  ServerName : option string;
  Match : option RouteMatch;
  Upstreams : list Upstream;
  LoadBalancing_ : option LoadBalancing;
  Headers_ : option HeaderOps;
  HealthChecks_ : option HealthChecks;
  TLS : option UpstreamTLS
}.

Record UpstreamStatus : Type := {
  Address : string;
  Healthy : bool;
  NumRequests : Z
}.

Record ProxyRouteObservation : Type := {
  RouteID : string;
  UpstreamStatuses : list UpstreamStatus
}.

Record ProxyRouteSpec : Type := { ForProvider : ProxyRouteParameters }.

Record ProxyRouteStatus : Type := {
  Conditions : list xpv1.Condition;
  AtProvider : ProxyRouteObservation
}.

(** The managed resource: metadata annotations, spec and status. *)
Record ProxyRoute : Type := {
  Annotations : gmap string string;
  Spec : ProxyRouteSpec;
  Status : ProxyRouteStatus
}.

(** [mg.SetConditions(c)]. *)
Definition SetConditions (mg : ProxyRoute) (c : xpv1.Condition) : ProxyRoute :=
  {| Annotations := Annotations mg;
     Spec := Spec mg;
     Status := {| Conditions := xpv1.SetConditions (Conditions (Status mg)) c;
                  AtProvider := AtProvider (Status mg) |} |}.

(** [mg.GetCondition(ct)]. *)
Definition GetCondition (mg : ProxyRoute) (ct : xpv1.ConditionType) : option xpv1.Condition :=
  xpv1.GetCondition (Conditions (Status mg)) ct.

(** The assignment [cr.Status.AtProvider.RouteID = id]. *)
Definition set_RouteID (cr : ProxyRoute) (id : string) : ProxyRoute :=
  {| Annotations := Annotations cr;
     Spec := Spec cr;
     Status := {| Conditions := Conditions (Status cr);
                  AtProvider := {| RouteID := id;
                                   UpstreamStatuses :=
                                     UpstreamStatuses (AtProvider (Status cr)) |} |} |}.

(** The assignment [cr.Status.AtProvider.UpstreamStatuses = l]. *)
Definition set_UpstreamStatuses (cr : ProxyRoute) (l : list UpstreamStatus) : ProxyRoute :=
  {| Annotations := Annotations cr;
     Spec := Spec cr;
     Status := {| Conditions := Conditions (Status cr);
                  AtProvider := {| RouteID := RouteID (AtProvider (Status cr));
                                   UpstreamStatuses := l |} |} |}.

End v1alpha1.

Module meta.

Definition AnnotationKeyExternalName : string := "crossplane.io/external-name".

(** [meta.GetExternalName(o)]: the annotation, or [""] when it is absent. *)
Definition GetExternalName (o : v1alpha1.ProxyRoute) : string :=
  default "" (v1alpha1.Annotations o !! AnnotationKeyExternalName).

(** [meta.SetExternalName(o, name)]. *)
Definition SetExternalName (o : v1alpha1.ProxyRoute) (name : string) : v1alpha1.ProxyRoute :=
  {| v1alpha1.Annotations := <[AnnotationKeyExternalName := name]> (v1alpha1.Annotations o);
     v1alpha1.Spec := v1alpha1.Spec o;
     v1alpha1.Status := v1alpha1.Status o |}.

End meta.

(** ** Errors and results

    A Go function returning [(T, error)] returns a [result T]; a function
    returning only [error] returns an [error], [None] being [nil]. *)

Inductive result (A : Type) : Type :=
| Ok (a : A)
| Err (msg : string).
Arguments Ok {A} a.
Arguments Err {A} msg.

Definition error : Type := option string.

(** [errors.Wrap(err, message)] of github.com/pkg/errors: the text becomes
    [message: err]. *)
Definition Wrap (err : string) (message : string) : string :=
  message +:+ ": " +:+ err.

(** ** HTTP exchanges

    A client operation is a program that issues HTTP requests one after the
    other and continues with each reply. [Do] is [httpClient.Do]: its reply
    is either a transport error (with its text) or a response. *)

Module http.

Inductive Verb : Type := MethodGet | MethodPost | MethodDelete.

Record Request : Type := {
  ReqMethod : Verb;
  URL : string;
  ReqBody : option string;
  Header : gmap string string
}.

Record Response : Type := {
  StatusCode : Z;
  Body : string
}.

Definition StatusNotFound : Z := 404.

Definition Reply : Type := (string + Response)%type.

(** [req.Header.Set(key, value)]. *)
Definition Header_Set (req : Request) (key value : string) : Request :=
  {| ReqMethod := ReqMethod req; URL := URL req; ReqBody := ReqBody req;
     Header := <[key := value]> (Header req) |}.

End http.

Inductive Prog (A : Type) : Type :=
| Ret (a : A)
| Do (req : http.Request) (k : http.Reply -> Prog A).
Arguments Ret {A} a.
Arguments Do {A} req k.

Fixpoint bind {A B : Type} (p : Prog A) (f : A -> Prog B) : Prog B :=
  match p with
  | Ret a => f a
  | Do req k => Do req (fun reply => bind (k reply) f)
  end.

Notation "'let*' x ':=' p 'in' q" := (bind p (fun x => q))
  (at level 10, x name, p at level 100, q at level 200).

(** Running a program against a backend: [roundTrip] answers one request in
    a world [W] and gives the world after it. The run returns the program's
    result, the final world and the requests issued, in order. *)
Section Run.
Context {W : Type} (roundTrip : http.Request -> W -> http.Reply * W).

Fixpoint run {A : Type} (p : Prog A) (w : W) : A * W * list http.Request :=
  match p with
  | Ret a => (a, w, [])
  | Do req k =>
      let '(reply, w1) := roundTrip req w in
      let '(a, w2, log) := run (k reply) w1 in
      (a, w2, req :: log)
  end.
End Run.

(** ** What the Go runtime provides

    [net/http] and [encoding/json] are not part of the repository; the code
    is modelled over any behaviour of theirs. *)
Class GoRuntime : Type := {
  (** [http.NewRequestWithContext] fails with this text when it refuses the URL. *)
  url_error : string -> option string;
  (** [json.Marshal] of a route. *)
  json_Marshal : caddyclient.ProxyRoute -> result string;
  (** [json.NewDecoder(body).Decode(&routes)]. *)
  json_DecodeRoutes : string -> result (list caddyclient.ProxyRoute);
  (** [json.NewDecoder(body).Decode(&upstreams)]. *)
  json_DecodeUpstreams : string -> result (list caddyclient.UpstreamStatus)
}.

(** ** The admin-API client *)

Module caddy.
Import caddyclient http.

Record Client : Type := { endpoint : string }.

(** [NewClient]: the endpoint is kept without one trailing slash. *)
Definition NewClient (endpoint : string) : Client :=
  {| caddy.endpoint := TrimSuffix endpoint "/" |}.

Section Client.
Context `{GoRuntime}.

(** [http.NewRequestWithContext(ctx, method, url, body)]. *)
Definition NewRequestWithContext (method : Verb) (url : string)
    (body : option string) : result Request :=
  match url_error url with
  | Some err => Err err
  | None => Ok {| ReqMethod := method; URL := url; ReqBody := body; Header := ∅ |}
  end.

(** [fmt.Sprintf("/config/apps/http/servers/%s/routes", serverName)]. *)
Definition routesPath (serverName : string) : string :=
  "/config/apps/http/servers/" +:+ serverName +:+ "/routes".

(** [fmt.Errorf("caddy API returned status %d: %s", code, body)]. *)
Definition statusError (resp : Response) : string :=
  "caddy API returned status " +:+ pretty (StatusCode resp) +:+ ": " +:+ Body resp.

(** [resp.StatusCode < 200 || resp.StatusCode >= 300]. *)
Definition not2xx (resp : Response) : bool :=
  (StatusCode resp <? 200) || (300 <=? StatusCode resp).

Definition CreateProxyRoute (c : Client) (serverName : string)
    (route : ProxyRoute) : Prog (result string) :=
  let path := routesPath serverName in
  match json_Marshal route with
  | Err err => Ret (Err ("failed to marshal route: " +:+ err))
  | Ok body =>
      match NewRequestWithContext MethodPost (endpoint c +:+ path) (Some body) with
      | Err err => Ret (Err ("failed to create request: " +:+ err))
      | Ok req =>
          let req := Header_Set req "Content-Type" "application/json" in
          Do req (fun reply =>
            match reply with
            | inl err => Ret (Err ("failed to create route: " +:+ err))
            | inr resp =>
                if not2xx resp then Ret (Err (statusError resp))
                else
                  let routeID := generateRouteID route in
                  Ret (Ok routeID)
            end)
      end
  end.

(** The scan of [DeleteProxyRoute]: the index of the first route whose
    identifier is [routeID], counting from [i]; [-1] when there is none. *)
Fixpoint findIndex (routes : list ProxyRoute) (routeID : string) (i : Z) : Z :=
  match routes with
  | [] => -1
  | r :: rest =>
      if String.eqb (generateRouteID r) routeID then i
      else findIndex rest routeID (i + 1)
  end.

Definition DeleteProxyRoute (c : Client) (serverName routeID : string)
    : Prog error :=
  let path := routesPath serverName in
  match NewRequestWithContext MethodGet (endpoint c +:+ path) None with
  | Err err => Ret (Some ("failed to create request: " +:+ err))
  | Ok req =>
      Do req (fun reply =>
        match reply with
        | inl err => Ret (Some ("failed to get routes: " +:+ err))
        | inr resp =>
            if StatusCode resp =? StatusNotFound then Ret None
            else if not2xx resp then Ret (Some (statusError resp))
            else
              match json_DecodeRoutes (Body resp) with
              | Err err => Ret (Some ("failed to decode routes: " +:+ err))
              | Ok routes =>
                  let index := findIndex routes routeID 0 in
                  if index =? -1 then Ret None
                  else
                    let deletePath := path +:+ "/" +:+ pretty index in
                    match NewRequestWithContext MethodDelete
                            (endpoint c +:+ deletePath) None with
                    | Err err =>
                        Ret (Some ("failed to create delete request: " +:+ err))
                    | Ok req =>
                        Do req (fun reply =>
                          match reply with
                          | inl err => Ret (Some ("failed to delete route: " +:+ err))
                          | inr resp =>
                              if not2xx resp then Ret (Some (statusError resp))
                              else Ret None
                          end)
                    end
              end
        end)
  end.

Definition UpdateProxyRoute (c : Client) (serverName routeID : string)
    (route : ProxyRoute) : Prog error :=
  let* err := DeleteProxyRoute c serverName routeID in
  match err with
  | Some err => Ret (Some ("failed to delete old route: " +:+ err))
  | None =>
      let* r := CreateProxyRoute c serverName route in
      match r with
      | Err err => Ret (Some ("failed to create updated route: " +:+ err))
      | Ok _ => Ret None
      end
  end.

(** The scan of [GetProxyRoute]: the first route whose identifier is
    [routeID]. *)
Fixpoint findRoute (routes : list ProxyRoute) (routeID : string)
    : option ProxyRoute :=
  match routes with
  | [] => None
  | r :: rest =>
      if String.eqb (generateRouteID r) routeID then Some r
      else findRoute rest routeID
  end.

Definition GetProxyRoute (c : Client) (serverName routeID : string)
    : Prog (result ProxyRoute) :=
  let path := routesPath serverName in
  match NewRequestWithContext MethodGet (endpoint c +:+ path) None with
  | Err err => Ret (Err ("failed to create request: " +:+ err))
  | Ok req =>
      Do req (fun reply =>
        match reply with
        | inl err => Ret (Err ("failed to get routes: " +:+ err))
        | inr resp =>
            if StatusCode resp =? StatusNotFound then Ret (Err "route not found")
            else if not2xx resp then Ret (Err (statusError resp))
            else
              match json_DecodeRoutes (Body resp) with
              | Err err => Ret (Err ("failed to decode routes: " +:+ err))
              | Ok routes =>
                  match findRoute routes routeID with
                  | Some r => Ret (Ok r)
                  | None => Ret (Err "route not found")
                  end
              end
        end)
  end.

Definition GetUpstreamStatus (c : Client) : Prog (result (list UpstreamStatus)) :=
  let path := "/reverse_proxy/upstreams" in
  match NewRequestWithContext MethodGet (endpoint c +:+ path) None with
  | Err err => Ret (Err ("failed to create request: " +:+ err))
  | Ok req =>
      Do req (fun reply =>
        match reply with
        | inl err => Ret (Err ("failed to get upstream status: " +:+ err))
        | inr resp =>
            if not2xx resp then Ret (Err (statusError resp))
            else
              match json_DecodeUpstreams (Body resp) with
              | Err err => Ret (Err ("failed to decode upstreams: " +:+ err))
              | Ok upstreams => Ret (Ok upstreams)
              end
        end)
  end.

End Client.
End caddy.

(** ** The ProxyRoute controller *)

Module proxyroute.

Definition errNotProxyRoute : string := "managed resource is not a ProxyRoute custom resource".
Definition errCreateRoute : string := "cannot create proxy route".
Definition errUpdateRoute : string := "cannot update proxy route".
Definition errDeleteRoute : string := "cannot delete proxy route".
Definition errGetRoute : string := "cannot get proxy route".

(** A [resource.Managed] is either a ProxyRoute or a resource of another
    kind, on which the type assertion to a ProxyRoute pointer fails. *)
Inductive Managed : Type :=
| IsProxyRoute (cr : v1alpha1.ProxyRoute)
| OtherKind.

(** [managed.ExternalObservation]; the zero value has both flags false. *)
Record ExternalObservation : Type := {
  ResourceExists : bool;
  ResourceUpToDate : bool
}.

Definition noObservation : ExternalObservation :=
  {| ResourceExists := false; ResourceUpToDate := false |}.

Record external : Type := { client : caddy.Client }.

(** [connector.Connect]: the client for the endpoint named in the spec. *)
Definition Connect (mg : Managed) : result external :=
  match mg with
  | OtherKind => Err errNotProxyRoute
  | IsProxyRoute cr =>
      Ok {| client :=
              caddy.NewClient
                (v1alpha1.CaddyEndpoint (v1alpha1.ForProvider (v1alpha1.Spec cr))) |}
  end.

(** [external.Disconnect]: there is nothing to disconnect. *)
Definition Disconnect (e : external) : error := None.

(** One upstream of the desired route, converted. *)
Definition convertUpstream (upstream : v1alpha1.Upstream) : caddyclient.Upstream :=
  {| caddyclient.Dial := v1alpha1.Dial upstream;
     caddyclient.MaxRequests :=
       match v1alpha1.MaxRequests upstream with
       | Some n => n
       | None => 0
       end |}.

Definition deref (o : option string) : string := default "" o.

Definition convertHeaderOps (m : v1alpha1.HeaderManipulation) : caddyclient.HeaderOps :=
  {| caddyclient.Set_ := v1alpha1.Set_ m;
     caddyclient.Add := v1alpha1.Add m;
     caddyclient.Delete := v1alpha1.Delete m |}.

(** [convertToProxyRoute]: the desired route in the client's wire format. *)
Definition convertToProxyRoute (cr : v1alpha1.ProxyRoute) : caddyclient.ProxyRoute :=
  let p := v1alpha1.ForProvider (v1alpha1.Spec cr) in
  let route_Match :=
    match v1alpha1.Match p with
    | Some m =>
        [ {| caddyclient.Host := v1alpha1.Host m;
             caddyclient.Path := v1alpha1.Path m;
             caddyclient.Method := v1alpha1.Method m;
             caddyclient.Header := v1alpha1.Headers m |} ]
    | None => []
    end in
  let handler_Upstreams :=
    fold_left (fun acc upstream => append acc (convertUpstream upstream))
              (v1alpha1.Upstreams p) [] in
  let handler_LoadBalancing :=
    match v1alpha1.LoadBalancing_ p with
    | Some lb =>
        Some {| caddyclient.SelectionPolicy_ :=
                  match v1alpha1.Policy lb with
                  | Some policy => Some {| caddyclient.Policy := policy |}
                  | None => None
                  end;
                caddyclient.TryDuration := deref (v1alpha1.TryDuration lb);
                caddyclient.TryInterval := deref (v1alpha1.TryInterval lb) |}
    | None => None
    end in
  let handler_Headers :=
    match v1alpha1.Headers_ p with
    | Some h =>
        Some {| caddyclient.Request :=
                  match v1alpha1.Request h with
                  | Some m => Some (convertHeaderOps m)
                  | None => None
                  end;
                caddyclient.Response :=
                  match v1alpha1.Response h with
                  | Some m => Some (convertHeaderOps m)
                  | None => None
                  end |}
    | None => None
    end in
  let handler_HealthChecks :=
    match v1alpha1.HealthChecks_ p with
    | Some hc =>
        Some {| caddyclient.Active :=
                  match v1alpha1.Active hc with
                  | Some a =>
                      Some {| caddyclient.ActivePath := deref (v1alpha1.ActivePath a);
                              caddyclient.Interval := deref (v1alpha1.Interval a);
                              caddyclient.Timeout := deref (v1alpha1.Timeout a) |}
                  | None => None
                  end;
                caddyclient.Passive :=
                  match v1alpha1.Passive hc with
                  | Some ps =>
                      Some {| caddyclient.MaxFails := default 0 (v1alpha1.MaxFails ps);
                              caddyclient.UnhealthyLatency :=
                                deref (v1alpha1.UnhealthyLatency ps) |}
                  | None => None
                  end |}
    | None => None
    end in
  let handler_Transport :=
    match v1alpha1.TLS p with
    | Some tls =>
        match v1alpha1.Enabled tls with
        | Some true =>
            Some {| caddyclient.Protocol := "http";
                    caddyclient.TLS :=
                      Some {| caddyclient.ServerName := deref (v1alpha1.TLSServerName tls);
                              caddyclient.InsecureSkipVerify :=
                                default false (v1alpha1.InsecureSkipVerify tls) |} |}
        | _ => None
        end
    | None => None
    end in
  let handler :=
    {| caddyclient.Handler_ := "reverse_proxy";
       caddyclient.Routes := [];
       caddyclient.Upstreams := handler_Upstreams;
       caddyclient.LoadBalancing_ := handler_LoadBalancing;
       caddyclient.Headers_ := handler_Headers;
       caddyclient.HealthChecks_ := handler_HealthChecks;
       caddyclient.Transport_ := handler_Transport |} in
  {| caddyclient.Match := route_Match;
     caddyclient.Handle := [handler];
     caddyclient.Terminal := true |}.

(** [isUpToDate]: the resource is always considered in need of an update. *)
Definition isUpToDate (cr : v1alpha1.ProxyRoute) (route : caddyclient.ProxyRoute) : bool :=
  false.

Definition convertUpstreamStatuses (upstreams : list caddyclient.UpstreamStatus)
    : list v1alpha1.UpstreamStatus :=
  map (fun u => {| v1alpha1.Address := caddyclient.Address u;
                   v1alpha1.Healthy := caddyclient.Healthy u;
                   v1alpha1.NumRequests := caddyclient.NumRequests u |}) upstreams.

(** The server the resource targets: ["srv0"] unless the spec names one. *)
Definition serverNameOf (cr : v1alpha1.ProxyRoute) : string :=
  match v1alpha1.ServerName (v1alpha1.ForProvider (v1alpha1.Spec cr)) with
  | Some s => s
  | None => "srv0"
  end.

Section Controller.
Context `{GoRuntime}.

(** Each entry point returns the managed resource as it leaves it (the Go
    code updates it through the pointer) with its Go result. The
    log line written when the upstream status cannot be fetched does not
    affect either and is left out. *)

Definition Observe (e : external) (mg : Managed)
    : Prog (Managed * result ExternalObservation) :=
  match mg with
  | OtherKind => Ret (mg, Err errNotProxyRoute)
  | IsProxyRoute cr =>
      let routeID := meta.GetExternalName cr in
      if String.eqb routeID "" then
        Ret (IsProxyRoute cr,
             Ok {| ResourceExists := false; ResourceUpToDate := false |})
      else
        let serverName := serverNameOf cr in
        let* r := caddy.GetProxyRoute (client e) serverName routeID in
        match r with
        | Err err =>
            if Contains err "not found" then
              Ret (IsProxyRoute cr,
                   Ok {| ResourceExists := false; ResourceUpToDate := false |})
            else Ret (IsProxyRoute cr, Err (Wrap err errGetRoute))
        | Ok route =>
            let cr := v1alpha1.set_RouteID cr routeID in
            let* u := caddy.GetUpstreamStatus (client e) in
            let cr :=
              match u with
              | Err _ => cr
              | Ok upstreams =>
                  v1alpha1.set_UpstreamStatuses cr (convertUpstreamStatuses upstreams)
              end in
            let upToDate := isUpToDate cr route in
            let cr := v1alpha1.SetConditions cr xpv1.Available in
            Ret (IsProxyRoute cr,
                 Ok {| ResourceExists := true; ResourceUpToDate := upToDate |})
        end
  end.

Definition Create (e : external) (mg : Managed) : Prog (Managed * error) :=
  match mg with
  | OtherKind => Ret (mg, Some errNotProxyRoute)
  | IsProxyRoute cr =>
      let cr := v1alpha1.SetConditions cr xpv1.Creating in
      let serverName := serverNameOf cr in
      let route := convertToProxyRoute cr in
      let* r := caddy.CreateProxyRoute (client e) serverName route in
      match r with
      | Err err => Ret (IsProxyRoute cr, Some (Wrap err errCreateRoute))
      | Ok routeID =>
          let cr := meta.SetExternalName cr routeID in
          Ret (IsProxyRoute cr, None)
      end
  end.

Definition Update (e : external) (mg : Managed) : Prog (Managed * error) :=
  match mg with
  | OtherKind => Ret (mg, Some errNotProxyRoute)
  | IsProxyRoute cr =>
      let serverName := serverNameOf cr in
      let routeID := meta.GetExternalName cr in
      let route := convertToProxyRoute cr in
      let* err := caddy.UpdateProxyRoute (client e) serverName routeID route in
      match err with
      | Some err => Ret (IsProxyRoute cr, Some (Wrap err errUpdateRoute))
      | None => Ret (IsProxyRoute cr, None)
      end
  end.

Definition Delete (e : external) (mg : Managed) : Prog (Managed * error) :=
  match mg with
  | OtherKind => Ret (mg, Some errNotProxyRoute)
  | IsProxyRoute cr =>
      let cr := v1alpha1.SetConditions cr xpv1.Deleting in
      let serverName := serverNameOf cr in
      let routeID := meta.GetExternalName cr in
      if String.eqb routeID "" then Ret (IsProxyRoute cr, None)
      else
        let* err := caddy.DeleteProxyRoute (client e) serverName routeID in
        match err with
        | Some err => Ret (IsProxyRoute cr, Some (Wrap err errDeleteRoute))
        | None => Ret (IsProxyRoute cr, None)
        end
  end.

End Controller.
End proxyroute.

(** ** The identity scheme as the specification words it

    Only the first match set is looked at. Of the three fields host, path
    and method, taken in that order, each non-empty one contributes its tag
    followed by its comma-joined values; the contributions are joined with
    a vertical bar. With no match set, or no contribution, the identifier is
    ["default"]. *)

Module identity.
Import caddyclient.

Definition fields (m : MatchSet) : list (string * list string) :=
  [ ("host:", Host m); ("path:", Path m); ("method:", Method m) ].

Definition nonEmpty (f : string * list string) : bool :=
  match snd f with
  | [] => false
  | _ :: _ => true
  end.

Definition part (f : string * list string) : string :=
  fst f +:+ Join (snd f) ",".

Definition identity_spec (r : ProxyRoute) : string :=
  match Match r with
  | [] => "default"
  | first :: _ =>
      match List.filter nonEmpty (fields first) with
      | [] => "default"
      | present => Join (map part present) "|"
      end
  end.

(** The host, path and method lists of the first match set, if any. *)
Definition firstMatchKey (r : ProxyRoute)
    : option (list string * list string * list string) :=
  match Match r with
  | [] => None
  | m :: _ => Some (Host m, Path m, Method m)
  end.

(** A match set with its header conditions replaced. *)
Definition withHeader (m : MatchSet) (h : gmap string (list string)) : MatchSet :=
  {| Host := Host m; Path := Path m; Method := Method m; Header := h |}.

End identity.

(** ** Presence of fields on the wire

    The client types carry [omitempty] JSON tags: a slice field is written
    only when it is non-empty, a pointer field only when it is not [nil],
    an [int] field only when it is not zero. *)

Module wire.
Import caddyclient.

Definition present_slice {A : Type} (s : list A) : bool :=
  negb (length s =? 0)%nat.
Definition present_ptr {A : Type} (p : option A) : bool :=
  match p with Some _ => true | None => false end.
Definition present_int (n : Z) : bool := negb (n =? 0).

(** [match,omitempty] of [ProxyRoute]. *)
Definition has_match (r : ProxyRoute) : bool := present_slice (Match r).
(** [load_balancing,omitempty], [headers,omitempty],
    [health_checks,omitempty] and [transport,omitempty] of [Handler]. *)
Definition has_load_balancing (h : Handler) : bool := present_ptr (LoadBalancing_ h).
Definition has_headers (h : Handler) : bool := present_ptr (Headers_ h).
Definition has_health_checks (h : Handler) : bool := present_ptr (HealthChecks_ h).
Definition has_transport (h : Handler) : bool := present_ptr (Transport_ h).
(** [max_requests,omitempty] of [Upstream]. *)
Definition has_max_requests (u : Upstream) : bool := present_int (MaxRequests u).

(** A [string] field tagged [omitempty] is written when it is not empty, a
    [bool] field when it is [true]. *)
Definition present_string (s : string) : bool := negb (String.eqb s "").
Definition present_bool (b : bool) : bool := b.

End wire.

Module presence.
Import proxyroute.

Definition nonNil {A : Type} (p : option A) : Prop := p <> None.

(** The presence law as it is claimed: each of the six optional fields is
    on the wire exactly when its source field is not [nil]. *)
Definition law_as_stated (cr : v1alpha1.ProxyRoute) : Prop :=
  let p := v1alpha1.ForProvider (v1alpha1.Spec cr) in
  let route := convertToProxyRoute cr in
  exists h : caddyclient.Handler,
    caddyclient.Handle route = [h] /\
    (wire.has_match route = true <-> nonNil (v1alpha1.Match p)) /\
    (wire.has_load_balancing h = true <-> nonNil (v1alpha1.LoadBalancing_ p)) /\
    (wire.has_headers h = true <-> nonNil (v1alpha1.Headers_ p)) /\
    (wire.has_health_checks h = true <-> nonNil (v1alpha1.HealthChecks_ p)) /\
    (wire.has_transport h = true <-> nonNil (v1alpha1.TLS p)) /\
    Forall2 (fun (u : v1alpha1.Upstream) (w : caddyclient.Upstream) =>
               wire.has_max_requests w = true <-> nonNil (v1alpha1.MaxRequests u))
            (v1alpha1.Upstreams p) (caddyclient.Upstreams h).

(** TLS is switched on: the block is there and its [Enabled] points to
    [true]. *)
Definition tlsEnabled (t : option v1alpha1.UpstreamTLS) : Prop :=
  exists tls, t = Some tls /\ v1alpha1.Enabled tls = Some true.

(** A limit is set and is not zero. *)
Definition nonZero (n : option Z) : Prop :=
  exists k, n = Some k /\ k <> 0.

(** A text is set and is not empty. *)
Definition setNonEmpty (s : option string) : Prop :=
  exists t, s = Some t /\ t <> "".

(** The presence law the translation obeys. *)
Definition law (cr : v1alpha1.ProxyRoute) : Prop :=
  let p := v1alpha1.ForProvider (v1alpha1.Spec cr) in
  let route := convertToProxyRoute cr in
  exists h : caddyclient.Handler,
    caddyclient.Handle route = [h] /\
    (wire.has_match route = true <-> nonNil (v1alpha1.Match p)) /\
    (wire.has_load_balancing h = true <-> nonNil (v1alpha1.LoadBalancing_ p)) /\
    (wire.has_headers h = true <-> nonNil (v1alpha1.Headers_ p)) /\
    (wire.has_health_checks h = true <-> nonNil (v1alpha1.HealthChecks_ p)) /\
    (wire.has_transport h = true <-> tlsEnabled (v1alpha1.TLS p)) /\
    Forall2 (fun (u : v1alpha1.Upstream) (w : caddyclient.Upstream) =>
               caddyclient.Dial w = v1alpha1.Dial u /\
               (wire.has_max_requests w = true <-> nonZero (v1alpha1.MaxRequests u)))
            (v1alpha1.Upstreams p) (caddyclient.Upstreams h).

End presence.

(** ** A reference backend

    The admin API as the client expects it, for one configured server: the
    route array is read with GET, appended to with POST and shortened with
    DELETE at an index. The world is the route array. Every other URL is
    answered 404. A backend can be told to turn every POST down with a
    fixed reply, leaving the array as it is. *)

Module backend.
Import caddyclient http.

Section Reference.
(** The admin endpoint and the configured server. *)
Variable base server : string.
(** The JSON text the backend writes for a route array, and its reading of
    a posted body. *)
Variable encodeRoutes : list ProxyRoute -> string.
Variable decodeRoute : string -> option ProxyRoute.
(** The reply given to every POST when the backend turns them down. *)
Variable rejectPost : option Reply.

Definition routesURL : string :=
  base +:+ caddy.routesPath server.

Definition itemURL (i : nat) : string :=
  base +:+ caddy.routesPath server +:+ "/" +:+ pretty (Z.of_nat i).

Definition status (code : Z) (body : string) : Reply :=
  inr {| StatusCode := code; Body := body |}.

(** The index a DELETE URL names, among the [n] entries of the array. *)
Definition indexOfURL (url : string) (n : nat) : option nat :=
  snd <$> list_find (fun i => url = itemURL i) (seq 0 n).

Definition roundTrip (req : Request) (routes : list ProxyRoute)
    : Reply * list ProxyRoute :=
  match ReqMethod req with
  | MethodGet =>
      if String.eqb (URL req) routesURL
      then (status 200 (encodeRoutes routes), routes)
      else (status 404 "", routes)
  | MethodPost =>
      match rejectPost with
      | Some reply => (reply, routes)
      | None =>
          if String.eqb (URL req) routesURL then
            match ReqBody req ≫= decodeRoute with
            | Some r => (status 200 "", append routes r)
            | None => (status 400 "", routes)
            end
          else (status 404 "", routes)
      end
  | MethodDelete =>
      match indexOfURL (URL req) (length routes) with
      | Some i => (status 200 "", delete i routes)
      | None => (status 404 "", routes)
      end
  end.

End Reference.

(** The reference backend behind a connection that loses the reply to every
    POST: the backend handles the POST as usual, and the client gets a
    transport error in place of the reply. Other requests are answered as
    before. *)
Definition lossyRoundTrip (base server : string)
    (encodeRoutes : list ProxyRoute -> string)
    (decodeRoute : string -> option ProxyRoute)
    (req : Request) (routes : list ProxyRoute) : Reply * list ProxyRoute :=
  let '(reply, routes') :=
    roundTrip base server encodeRoutes decodeRoute None req routes in
  match ReqMethod req with
  | MethodPost => (inl "EOF", routes')
  | _ => (reply, routes')
  end.

(** The array without its first entry identified by [routeID]. *)
Fixpoint removeFirst (routes : list ProxyRoute) (routeID : string) : list ProxyRoute :=
  match routes with
  | [] => []
  | r :: rest =>
      if String.eqb (generateRouteID r) routeID then rest
      else r :: removeFirst rest routeID
  end.

(** How many entries of the array are identified by [routeID]. *)
Fixpoint countID (routes : list ProxyRoute) (routeID : string) : nat :=
  match routes with
  | [] => 0
  | r :: rest =>
      (if String.eqb (generateRouteID r) routeID then 1 else 0) + countID rest routeID
  end%nat.

(** The array holds a route identified by [routeID]. *)
Definition holds (routes : list ProxyRoute) (routeID : string) : Prop :=
  exists r, r ∈ routes /\ generateRouteID r = routeID.

End backend.

(** ** A sample runtime

    For concrete runs the JSON text is abbreviated: a route is written as
    the first host of its first match set and a route array as the
    comma-separated list of its routes. The abbreviation is exact on routes
    that match a single host and have no handler. *)

Module sample.
Import caddyclient.

Definition hostRoute (h : string) : ProxyRoute :=
  {| Match := [ {| Host := [h]; Path := []; Method := []; Header := ∅ |} ];
     Handle := [];
     Terminal := true |}.

Definition hostOf (r : ProxyRoute) : string :=
  match Match r with
  | m :: _ => match Host m with h :: _ => h | [] => "" end
  | [] => ""
  end.

Fixpoint splitOn (sep : ascii) (s : string) : list string :=
  match s with
  | EmptyString => [EmptyString]
  | String c s' =>
      if Ascii.eqb c sep then EmptyString :: splitOn sep s'
      else match splitOn sep s' with
           | w :: ws => String c w :: ws
           | [] => [String c EmptyString]
           end
  end.

Definition encodeRoutes (routes : list ProxyRoute) : string :=
  Join (map hostOf routes) ",".

Definition decodeRoutes (text : string) : list ProxyRoute :=
  if String.eqb text "" then [] else map hostRoute (splitOn "," text).

Definition decodeRoute (text : string) : option ProxyRoute :=
  Some (hostRoute text).

#[local] Instance runtime : GoRuntime := {|
  url_error := fun _ => None;
  json_Marshal := fun r => Ok (hostOf r);
  json_DecodeRoutes := fun text => Ok (decodeRoutes text);
  json_DecodeUpstreams := fun _ => Ok []
|}.

Definition theClient : caddy.Client := {| caddy.endpoint := "http://caddy:2019" |}.
Definition theExternal : proxyroute.external := {| proxyroute.client := theClient |}.

(** The backend behind [theClient], serving ["srv0"]. *)
Definition roundTrip (rejectPost : option http.Reply)
    : http.Request -> list ProxyRoute -> http.Reply * list ProxyRoute :=
  backend.roundTrip "http://caddy:2019" "srv0" encodeRoutes decodeRoute rejectPost.

(** The same backend behind a connection that loses the replies to POSTs. *)
Definition lossyRoundTrip
    : http.Request -> list ProxyRoute -> http.Reply * list ProxyRoute :=
  backend.lossyRoundTrip "http://caddy:2019" "srv0" encodeRoutes decodeRoute.

(** A desired route: requests for host [h] go to upstream ["b:80"]. *)
Definition desired (h : string) (annotations : gmap string string)
    (tls : option v1alpha1.UpstreamTLS) : v1alpha1.ProxyRoute :=
  {| v1alpha1.Annotations := annotations;
     v1alpha1.Spec :=
       {| v1alpha1.ForProvider :=
            {| v1alpha1.CaddyEndpoint := "http://caddy:2019";
               v1alpha1.ServerName := None;
               v1alpha1.Match :=
                 Some {| v1alpha1.Host := [h]; v1alpha1.Path := [];
                         v1alpha1.Method := []; v1alpha1.Headers := ∅ |};
               v1alpha1.Upstreams :=
                 [ {| v1alpha1.Dial := "b:80"; v1alpha1.MaxRequests := None |} ];
               v1alpha1.LoadBalancing_ := None;
               v1alpha1.Headers_ := None;
               v1alpha1.HealthChecks_ := None;
               v1alpha1.TLS := tls |} |};
     v1alpha1.Status :=
       {| v1alpha1.Conditions := [];
          v1alpha1.AtProvider :=
            {| v1alpha1.RouteID := ""; v1alpha1.UpstreamStatuses := [] |} |} |}.

(** A TLS block that is present but does not say whether TLS is enabled. *)
Definition tlsUnset : v1alpha1.UpstreamTLS :=
  {| v1alpha1.Enabled := None;
     v1alpha1.TLSServerName := Some "b.internal";
     v1alpha1.InsecureSkipVerify := None |}.

(** Two routes that agree on host, path and method of the first match set
    and differ in its header conditions, in a further match set, in the
    handlers and in the terminal flag. *)
Definition routeA : ProxyRoute :=
  {| Match := [ {| Host := ["a.com"]; Path := ["/api/*"]; Method := ["GET"];
                   Header := ∅ |} ];
     Handle := [];
     Terminal := true |}.

Definition routeB : ProxyRoute :=
  {| Match := [ {| Host := ["a.com"]; Path := ["/api/*"]; Method := ["GET"];
                   Header := {[ "X-Env" := ["prod"] ]} |};
                {| Host := ["z.com"]; Path := []; Method := []; Header := ∅ |} ];
     Handle := [ {| Handler_ := "reverse_proxy"; Routes := [];
                    Upstreams := [ {| Dial := "b:80"; MaxRequests := 10 |} ];
                    LoadBalancing_ := None; Headers_ := None;
                    HealthChecks_ := None; Transport_ := None |} ];
     Terminal := false |}.

(** A backend that answers every request with the same status and body. *)
Definition answering (code : Z) (body : string)
    : http.Request -> unit -> http.Reply * unit :=
  fun _ w => (inr {| http.StatusCode := code; http.Body := body |}, w).

(** Request and response header operations, and active and passive health
    checks, for a desired route. *)
Definition headerOps : v1alpha1.HeaderOps :=
  {| v1alpha1.Request :=
       Some {| v1alpha1.Set_ := {[ "X-Forwarded-Proto" := ["https"] ]};
               v1alpha1.Add := ∅; v1alpha1.Delete := ["X-Debug"] |};
     v1alpha1.Response := None |}.

(** The desired route for host [h] with its endpoint, load balancing and
    header operations set. *)
Definition desiredWith (h endpoint : string) (lb : option v1alpha1.LoadBalancing)
    (hd : option v1alpha1.HeaderOps) : v1alpha1.ProxyRoute :=
  {| v1alpha1.Annotations := ∅;
     v1alpha1.Spec :=
       {| v1alpha1.ForProvider :=
            {| v1alpha1.CaddyEndpoint := endpoint;
               v1alpha1.ServerName := Some "edge";
               v1alpha1.Match :=
                 Some {| v1alpha1.Host := [h]; v1alpha1.Path := [];
                         v1alpha1.Method := []; v1alpha1.Headers := ∅ |};
               v1alpha1.Upstreams :=
                 [ {| v1alpha1.Dial := "c:8080"; v1alpha1.MaxRequests := Some 5 |};
                   {| v1alpha1.Dial := "d:8080"; v1alpha1.MaxRequests := None |} ];
               v1alpha1.LoadBalancing_ := lb;
               v1alpha1.Headers_ := hd;
               v1alpha1.HealthChecks_ := None;
               v1alpha1.TLS := None |} |};
     v1alpha1.Status :=
       {| v1alpha1.Conditions := [xpv1.Creating];
          v1alpha1.AtProvider :=
            {| v1alpha1.RouteID := ""; v1alpha1.UpstreamStatuses := [] |} |} |}.

(** The annotations of a resource whose external name is [id]. *)
Definition named (id : string) : gmap string string :=
  {[ meta.AnnotationKeyExternalName := id ]}.

End sample.

(** ** The requests the client issues *)

Module requests.
Import http.

(** GET of a server's route array. *)
Definition getRoutes (c : caddy.Client) (serverName : string) : Request :=
  {| ReqMethod := MethodGet;
     URL := caddy.endpoint c +:+ caddy.routesPath serverName;
     ReqBody := None;
     Header := ∅ |}.

(** POST of a route's JSON text to a server's route array. *)
Definition postRoute (c : caddy.Client) (serverName body : string) : Request :=
  {| ReqMethod := MethodPost;
     URL := caddy.endpoint c +:+ caddy.routesPath serverName;
     ReqBody := Some body;
     Header := {[ "Content-Type" := "application/json" ]} |}.

(** DELETE of the entry at [index] of a server's route array. *)
Definition deleteRoute (c : caddy.Client) (serverName : string) (index : nat) : Request :=
  {| ReqMethod := MethodDelete;
     URL := caddy.endpoint c +:+ caddy.routesPath serverName +:+ "/"
              +:+ pretty (Z.of_nat index);
     ReqBody := None;
     Header := ∅ |}.

(** GET of the upstream health snapshot. *)
Definition getUpstreams (c : caddy.Client) : Request :=
  {| ReqMethod := MethodGet;
     URL := caddy.endpoint c +:+ "/reverse_proxy/upstreams";
     ReqBody := None;
     Header := ∅ |}.

End requests.

(** ** Update, as it is claimed to leave the backend *)

Module update.
Import caddyclient http.

(** The claim about a failed update, against a backend whose world is the
    route array: once the delete step has succeeded and the create step has
    failed, the update returns an error and the array holds no route with
    the old identifier and none with the new route's identifier. *)
Definition leaves_route_absent `{GoRuntime}
    (roundTrip : Request -> list ProxyRoute -> Reply * list ProxyRoute)
    (c : caddy.Client) (serverName routeID : string) (route : ProxyRoute)
    (routes : list ProxyRoute) : Prop :=
  forall (routes1 routes2 : list ProxyRoute) (log1 log2 : list Request) (e : string),
    run roundTrip (caddy.DeleteProxyRoute c serverName routeID) routes
      = (None, routes1, log1) ->
    run roundTrip (caddy.CreateProxyRoute c serverName route) routes1
      = (Err e, routes2, log2) ->
    (exists err,
       run roundTrip (caddy.UpdateProxyRoute c serverName routeID route) routes
         = (Some err, routes2, (log1 ++ log2)%list)) /\
    ~ backend.holds routes2 routeID /\
    ~ backend.holds routes2 (generateRouteID route).

End update.

(** ** What a desired route is matched on *)

Module desired.

(** The host, path and method lists of the desired match, if there is one. *)
Definition matchKey (cr : v1alpha1.ProxyRoute)
    : option (list string * list string * list string) :=
  match v1alpha1.Match (v1alpha1.ForProvider (v1alpha1.Spec cr)) with
  | Some m => Some (v1alpha1.Host m, v1alpha1.Path m, v1alpha1.Method m)
  | None => None
  end.

End desired.

(** * Properties *)

(** ** The identity scheme *)

Section Identity.
Import caddyclient.

Example generateRouteID_host_method :
  generateRouteID
    {| Match := [ {| Host := ["a.com"; "b.com"]; Path := [];
                     Method := ["GET"]; Header := ∅ |} ];
       Handle := []; Terminal := true |}
  = "host:a.com,b.com|method:GET".
Proof. reflexivity. Qed.

Example generateRouteID_header_only :
  generateRouteID
    {| Match := [ {| Host := []; Path := []; Method := [];
                     Header := {[ "X-Env" := ["prod"] ]} |} ];
       Handle := []; Terminal := false |}
  = "default".
Proof. reflexivity. Qed.

Lemma generateRouteID_no_match (hs : list Handler) (t : bool) :
  generateRouteID {| Match := []; Handle := hs; Terminal := t |} = "default".
Proof. reflexivity. Qed.

(** The identifier is a function of the first match set's three lists. *)
Lemma generateRouteID_first (r : ProxyRoute) (m : MatchSet) (rest : list MatchSet) :
  Match r = m :: rest ->
  generateRouteID r =
  generateRouteID
    {| Match := [ {| Host := Host m; Path := Path m; Method := Method m;
                     Header := ∅ |} ];
       Handle := []; Terminal := false |}.
Proof.
  intros Hm. unfold generateRouteID. rewrite Hm. reflexivity.
Qed.

(** C1. The identifier of a route is ["default"] when it has no match set;
    otherwise it is built from the first match set only: the parts
    ["host:"], ["path:"], ["method:"], each followed by its comma-joined
    values and kept only when its field is non-empty, joined in that order
    with ["|"]; it is ["default"] again when no part is kept. Replacing the
    header conditions of the first match set never changes it, nor does
    replacing the match sets after the first. *)
Theorem generateRouteID_meets_identity_spec :
  (forall r : ProxyRoute, generateRouteID r = identity.identity_spec r) /\
  (forall (m : MatchSet) (h : gmap string (list string)) (rest : list MatchSet)
          (hs : list Handler) (t : bool),
      generateRouteID {| Match := identity.withHeader m h :: rest;
                         Handle := hs; Terminal := t |}
      = generateRouteID {| Match := m :: rest; Handle := hs; Terminal := t |}) /\
  (forall (m : MatchSet) (rest rest' : list MatchSet) (hs : list Handler) (t : bool),
      generateRouteID {| Match := m :: rest; Handle := hs; Terminal := t |}
      = generateRouteID {| Match := m :: rest'; Handle := hs; Terminal := t |}).
Proof.
  split; [|split].
  - intros [ms hs t]. unfold generateRouteID, identity.identity_spec.
    cbn [Match]. destruct ms as [|[hosts paths methods hdr] rest]; [reflexivity|].
    cbn [Host Path Method identity.fields].
    destruct hosts, paths, methods; reflexivity.
  - intros m h rest hs t. reflexivity.
  - intros m rest rest' hs t. reflexivity.
Qed.

(** C8. Two routes whose first match sets carry the same host, path and
    method lists have the same identifier, whatever else differs. *)
Theorem generateRouteID_same_first_match_key (r1 r2 : ProxyRoute) :
  identity.firstMatchKey r1 = identity.firstMatchKey r2 ->
  generateRouteID r1 = generateRouteID r2.
Proof.
  unfold identity.firstMatchKey. intros Hk.
  destruct (Match r1) as [|m1 rest1] eqn:E1, (Match r2) as [|m2 rest2] eqn:E2;
    try discriminate.
  - unfold generateRouteID. rewrite E1, E2. reflexivity.
  - rewrite (generateRouteID_first r1 m1 rest1 E1),
            (generateRouteID_first r2 m2 rest2 E2).
    injection Hk as -> -> ->. reflexivity.
Qed.

(** Two such routes, and their common identifier. *)
Lemma generateRouteID_same_first_match_key_witness :
  identity.firstMatchKey sample.routeA = identity.firstMatchKey sample.routeB /\
  generateRouteID sample.routeA = generateRouteID sample.routeB /\
  generateRouteID sample.routeA = "host:a.com|path:/api/*|method:GET".
Proof.
  split; [reflexivity|]. split.
  - apply (generateRouteID_same_first_match_key sample.routeA sample.routeB).
    reflexivity.
  - reflexivity.
Defined.

End Identity.

(** ** The translation *)

Section Translation.
Import proxyroute.

(** The loop over the upstreams is a map. *)
Lemma fold_append_map {A B : Type} (f : A -> B) (l : list A) (acc : list B) :
  fold_left (fun acc x => append acc (f x)) l acc = (acc ++ map f l)%list.
Proof.
  revert acc. induction l as [|x l IH]; intros acc; cbn [fold_left map].
  - now rewrite app_nil_r.
  - rewrite IH. unfold append. now rewrite <- app_assoc.
Qed.

Lemma convertToProxyRoute_Upstreams (cr : v1alpha1.ProxyRoute) :
  exists h,
    caddyclient.Handle (convertToProxyRoute cr) = [h] /\
    caddyclient.Upstreams h =
      map convertUpstream (v1alpha1.Upstreams (v1alpha1.ForProvider (v1alpha1.Spec cr))).
Proof.
  eexists. split; [reflexivity|]. cbn [caddyclient.Upstreams].
  now rewrite fold_append_map.
Qed.

Lemma convertUpstream_presence (u : v1alpha1.Upstream) :
  caddyclient.Dial (convertUpstream u) = v1alpha1.Dial u /\
  (wire.has_max_requests (convertUpstream u) = true <->
   presence.nonZero (v1alpha1.MaxRequests u)).
Proof.
  split; [reflexivity|].
  unfold wire.has_max_requests, wire.present_int, presence.nonZero, convertUpstream.
  cbn [caddyclient.MaxRequests].
  destruct (v1alpha1.MaxRequests u) as [n|].
  - rewrite negb_true_iff, Z.eqb_neq. split.
    + intros Hn. exists n. now split.
    + intros (k & Hk & Hne). now injection Hk as ->.
  - cbn. split; [discriminate|]. intros (k & Hk & _). discriminate.
Qed.

Example convertToProxyRoute_sample :
  convertToProxyRoute (sample.desired "a.com" ∅ None) =
  {| caddyclient.Match :=
       [ {| caddyclient.Host := ["a.com"]; caddyclient.Path := [];
            caddyclient.Method := []; caddyclient.Header := ∅ |} ];
     caddyclient.Handle :=
       [ {| caddyclient.Handler_ := "reverse_proxy"; caddyclient.Routes := [];
            caddyclient.Upstreams :=
              [ {| caddyclient.Dial := "b:80"; caddyclient.MaxRequests := 0 |} ];
            caddyclient.LoadBalancing_ := None; caddyclient.Headers_ := None;
            caddyclient.HealthChecks_ := None; caddyclient.Transport_ := None |} ];
     caddyclient.Terminal := true |}.
Proof. reflexivity. Qed.

(** C7, as claimed, fails: a TLS block that is present but does not enable
    TLS produces no transport on the wire. *)
Lemma presence_law_as_stated_fails :
  ~ presence.law_as_stated (sample.desired "a.com" ∅ (Some sample.tlsUnset)).
Proof.
  unfold presence.law_as_stated.
  intros (h & Hh & _ & _ & _ & _ & Htls & _).
  cbn in Hh. injection Hh as <-.
  destruct Htls as [_ Htls]. cbn in Htls.
  assert (Hnn : presence.nonNil (Some sample.tlsUnset)) by discriminate.
  specialize (Htls Hnn). discriminate.
Qed.

(** C7. The translation is a total function: every desired route yields one
    terminal route with exactly one [reverse_proxy] handler. Match, load
    balancing, headers and health checks are on the wire exactly when their
    source field is not [nil]; the transport is on the wire exactly when the
    TLS block is present and enables TLS; each upstream is carried over in
    order, and its [max_requests] is on the wire exactly when the source
    limit is set and not zero. *)
Theorem convertToProxyRoute_presence (cr : v1alpha1.ProxyRoute) :
  presence.law cr /\
  caddyclient.Terminal (convertToProxyRoute cr) = true /\
  (exists h, caddyclient.Handle (convertToProxyRoute cr) = [h] /\
             caddyclient.Handler_ h = "reverse_proxy").
Proof.
  split; [|split; [reflexivity | eexists; split; reflexivity]].
  unfold presence.law.
  destruct (convertToProxyRoute_Upstreams cr) as (h & Hh & Hups).
  exists h. split; [exact Hh|].
  cbn in Hh. injection Hh as <-.
  destruct cr as [ann [p] st]. cbn in *.
  unfold wire.has_match, wire.has_load_balancing, wire.has_headers,
    wire.has_health_checks, wire.has_transport, presence.nonNil,
    presence.tlsEnabled.
  cbn.
  split; [|split; [|split; [|split; [|split]]]].
  - destruct (v1alpha1.Match p); split; try reflexivity; try discriminate;
      intros; congruence.
  - destruct (v1alpha1.LoadBalancing_ p); split; try reflexivity;
      try discriminate; intros; congruence.
  - destruct (v1alpha1.Headers_ p); split; try reflexivity; try discriminate;
      intros; congruence.
  - destruct (v1alpha1.HealthChecks_ p); split; try reflexivity;
      try discriminate; intros; congruence.
  - split.
    + destruct (v1alpha1.TLS p) as [tls|]; [|discriminate].
      destruct (v1alpha1.Enabled tls) as [[|]|] eqn:E; try discriminate.
      intros _. exists tls. now split.
    + intros (tls & -> & ->). reflexivity.
  - clear Hups. rewrite fold_append_map. cbn [app].
    induction (v1alpha1.Upstreams p) as [|u us IH]; cbn [map]; constructor.
    + apply convertUpstream_presence.
    + apply IH.
Qed.

End Translation.

(** ** Running programs *)

Section RunFacts.
Context {W : Type} (roundTrip : http.Request -> W -> http.Reply * W).

Lemma run_Ret {A : Type} (a : A) (w : W) :
  run roundTrip (Ret a) w = (a, w, []).
Proof. reflexivity. Qed.

Lemma run_Do {A : Type} (req : http.Request) (k : http.Reply -> Prog A)
    (w w1 : W) (reply : http.Reply) :
  roundTrip req w = (reply, w1) ->
  run roundTrip (Do req k) w =
  (let '(a, w2, log) := run roundTrip (k reply) w1 in (a, w2, req :: log)).
Proof. intros E. cbn [run]. now rewrite E. Qed.

(** A sequence runs its first part, then the rest in the world the first
    part left, and issues the requests of both in that order. *)
Lemma run_bind {A B : Type} (p : Prog A) (f : A -> Prog B) (w : W) :
  run roundTrip (bind p f) w =
  (let '(a, w1, log1) := run roundTrip p w in
   let '(b, w2, log2) := run roundTrip (f a) w1 in
   (b, w2, (log1 ++ log2)%list)).
Proof.
  revert w. induction p as [a | req k IH]; intros w; cbn [bind run].
  - destruct (run roundTrip (f a) w) as [[b w2] log2]. reflexivity.
  - destruct (roundTrip req w) as [reply w1]. rewrite IH.
    destruct (run roundTrip (k reply) w1) as [[a w2] log1].
    destruct (run roundTrip (f a) w2) as [[b w3] log2]. reflexivity.
Qed.

End RunFacts.

(** ** Substrings *)

(** [HasPrefix] and [Contains] decide what their names say. *)
Lemma HasPrefix_spec (s p : string) :
  HasPrefix s p = true <-> exists b, s = p +:+ b.
Proof.
  revert s. induction p as [|c p IH]; intros s.
  - split; [intros _; now exists s | reflexivity].
  - destruct s as [|d s]; cbn [HasPrefix].
    + split; [discriminate | intros (b & Hb); discriminate].
    + destruct (Ascii.eqb_spec c d) as [->|Hne].
      * rewrite IH. split; intros (b & Hb); exists b.
        -- now rewrite Hb.
        -- now injection Hb.
      * split; [discriminate|]. intros (b & Hb). injection Hb as Hd _. congruence.
Qed.

Lemma Contains_spec (s sub : string) :
  Contains s sub = true <-> exists a b, s = a +:+ sub +:+ b.
Proof.
  induction s as [|c s IH]; cbn [Contains]; rewrite orb_true_iff, HasPrefix_spec.
  - split.
    + intros [(b & Hb)|Hf]; [|discriminate]. now exists "", b.
    + intros (a & b & Hab). left. destruct a; [now exists b | discriminate].
  - rewrite IH. split.
    + intros [(b & Hb)|(a & b & Hab)].
      * now exists "", b.
      * exists (String c a), b. now rewrite Hab.
    + intros (a & b & Hab). destruct a as [|c' a].
      * left. now exists b.
      * right. injection Hab as _ Hs. now exists a, b.
Qed.

Lemma HasPrefix_refl_app (p s : string) : HasPrefix (p +:+ s) p = true.
Proof.
  induction p as [|c p IH]; [reflexivity|].
  change (String c p +:+ s) with (String c (p +:+ s)). cbn [HasPrefix].
  now rewrite Ascii.eqb_refl.
Qed.

Lemma Contains_app_l (a s sub : string) :
  Contains s sub = true -> Contains (a +:+ s) sub = true.
Proof.
  intros Hs. induction a as [|c a IH]; [exact Hs|].
  change (String c a +:+ s) with (String c (a +:+ s)). cbn [Contains].
  rewrite IH. apply orb_true_r.
Qed.

Lemma Contains_self_app (p s : string) : Contains (p +:+ s) p = true.
Proof.
  destruct (p +:+ s) eqn:E; cbn [Contains]; rewrite <- E;
    now rewrite HasPrefix_refl_app.
Qed.

Example Contains_route_not_found : Contains "route not found" "not found" = true.
Proof. reflexivity. Qed.

Example Contains_decode_error :
  Contains "failed to decode routes: unexpected EOF" "not found" = false.
Proof. reflexivity. Qed.

(** ** The client *)

Section ClientFacts.
Import caddyclient http.
Context `{GoRuntime} {W : Type} (roundTrip : Request -> W -> Reply * W).

Lemma not2xx_false_not_404 (resp : Response) :
  caddy.not2xx resp = false -> (StatusCode resp =? StatusNotFound) = false.
Proof.
  unfold caddy.not2xx, StatusNotFound.
  rewrite orb_false_iff, Z.ltb_ge, Z.leb_gt, Z.eqb_neq. lia.
Qed.

(** The loop of [DeleteProxyRoute] finds the first entry with the
    identifier, and [-1] when there is none. *)
Lemma findIndex_list_find (routes : list ProxyRoute) (routeID : string) (k : Z) :
  caddy.findIndex routes routeID k =
  match list_find (fun r => generateRouteID r = routeID) routes with
  | Some (i, _) => k + Z.of_nat i
  | None => -1
  end.
Proof.
  revert k. induction routes as [|r rest IH]; intros k; [reflexivity|].
  cbn [caddy.findIndex list_find].
  destruct (String.eqb_spec (generateRouteID r) routeID) as [E|E].
  - rewrite decide_True by exact E. cbn. lia.
  - rewrite decide_False by exact E. rewrite IH.
    destruct (list_find _ rest) as [[i r']|]; cbn; [lia | reflexivity].
Qed.

(** The loop of [GetProxyRoute] returns that same first entry. *)
Lemma findRoute_list_find (routes : list ProxyRoute) (routeID : string) :
  caddy.findRoute routes routeID =
  snd <$> list_find (fun r => generateRouteID r = routeID) routes.
Proof.
  induction routes as [|r rest IH]; [reflexivity|].
  cbn [caddy.findRoute list_find].
  destruct (String.eqb_spec (generateRouteID r) routeID) as [E|E].
  - now rewrite decide_True by exact E.
  - rewrite decide_False by exact E. rewrite IH.
    now destruct (list_find _ rest) as [[i r']|].
Qed.

(** A successful create returns the identifier computed from the route it
    was given, after exactly one POST of that route answered 2xx. *)
Lemma CreateProxyRoute_Ok (c : caddy.Client) (serverName : string)
    (route : ProxyRoute) (w w' : W) (id : string) (log : list Request) :
  run roundTrip (caddy.CreateProxyRoute c serverName route) w = (Ok id, w', log) ->
  id = generateRouteID route /\
  exists body resp,
    json_Marshal route = Ok body /\
    log = [requests.postRoute c serverName body] /\
    roundTrip (requests.postRoute c serverName body) w = (inr resp, w') /\
    caddy.not2xx resp = false.
Proof.
  unfold caddy.CreateProxyRoute, caddy.NewRequestWithContext.
  destruct (json_Marshal route) as [body|e]; [|cbn; congruence].
  destruct (url_error _) as [e|]; [cbn; congruence|].
  change (Header_Set _ _ _) with (requests.postRoute c serverName body).
  cbn [run].
  destruct (roundTrip _ w) as [[e|resp] w1] eqn:Ert; [cbn; congruence|].
  destruct (caddy.not2xx resp) eqn:Est; cbn [run]; [congruence|].
  intros [= <- <- <-]. split; [reflexivity|].
  exists body, resp. auto.
Qed.

(** A failed create issues at most the one POST, and that POST was not
    answered 2xx. *)
Lemma CreateProxyRoute_Err (c : caddy.Client) (serverName : string)
    (route : ProxyRoute) (w w' : W) (e : string) (log : list Request) :
  run roundTrip (caddy.CreateProxyRoute c serverName route) w = (Err e, w', log) ->
  (log = [] /\ w' = w) \/
  (exists body reply,
     json_Marshal route = Ok body /\
     log = [requests.postRoute c serverName body] /\
     roundTrip (requests.postRoute c serverName body) w = (reply, w') /\
     match reply with
     | inl _ => True
     | inr resp => caddy.not2xx resp = true
     end).
Proof.
  unfold caddy.CreateProxyRoute, caddy.NewRequestWithContext.
  destruct (json_Marshal route) as [body|e']; [|cbn; intros [= <- <- <-]; now left].
  destruct (url_error _) as [e'|]; [cbn; intros [= <- <- <-]; now left|].
  change (Header_Set _ _ _) with (requests.postRoute c serverName body).
  cbn [run].
  destruct (roundTrip _ w) as [reply w1] eqn:Ert.
  destruct reply as [e'|resp]; [|destruct (caddy.not2xx resp) eqn:Est];
    cbn [run]; intros [= <- <- <-]; right; exists body; eexists;
    (split; [reflexivity | split; [reflexivity | split; [exact Ert | ]]]);
    [exact I | exact Est].
Qed.

End ClientFacts.

(** ** The controller *)

Section ControllerFacts.
Import http proxyroute.
Context `{GoRuntime} {W : Type} (roundTrip : Request -> W -> Reply * W).

Lemma GetCondition_SetConditions (cs : list xpv1.Condition) (c : xpv1.Condition) :
  xpv1.GetCondition (xpv1.SetConditions cs c) (xpv1.Type_ c) = Some c.
Proof.
  induction cs as [|c0 cs IH]; cbn [xpv1.SetConditions xpv1.GetCondition].
  - now destruct (xpv1.Type_ c).
  - destruct (xpv1.type_eqb (xpv1.Type_ c0) (xpv1.Type_ c)) eqn:E;
      cbn [xpv1.GetCondition].
    + now destruct (xpv1.Type_ c).
    + now rewrite E.
Qed.

Lemma GetExternalName_SetExternalName (cr : v1alpha1.ProxyRoute) (id : string) :
  meta.GetExternalName (meta.SetExternalName cr id) = id.
Proof.
  unfold meta.GetExternalName, meta.SetExternalName. cbn [v1alpha1.Annotations].
  now rewrite lookup_insert_eq.
Qed.

(** What [Observe] does once the route has been looked up. *)
Lemma run_Observe_named (e : external) (cr : v1alpha1.ProxyRoute) (w : W) :
  meta.GetExternalName cr <> "" ->
  run roundTrip (Observe e (IsProxyRoute cr)) w =
  (let routeID := meta.GetExternalName cr in
   let '(r, w1, log1) :=
     run roundTrip (caddy.GetProxyRoute (client e) (serverNameOf cr) routeID) w in
   match r with
   | Err err =>
       if Contains err "not found"
       then (IsProxyRoute cr, Ok noObservation, w1, log1)
       else (IsProxyRoute cr, Err (Wrap err errGetRoute), w1, log1)
   | Ok route =>
       let cr1 := v1alpha1.set_RouteID cr routeID in
       let '(u, w2, log2) := run roundTrip (caddy.GetUpstreamStatus (client e)) w1 in
       let cr2 :=
         match u with
         | Err _ => cr1
         | Ok upstreams =>
             v1alpha1.set_UpstreamStatuses cr1 (convertUpstreamStatuses upstreams)
         end in
       (IsProxyRoute (v1alpha1.SetConditions cr2 xpv1.Available),
        Ok {| ResourceExists := true; ResourceUpToDate := false |},
        w2, (log1 ++ log2)%list)
   end).
Proof.
  intros Hne. unfold Observe.
  destruct (String.eqb_spec (meta.GetExternalName cr) "") as [E|_]; [contradiction|].
  rewrite run_bind. cbv zeta.
  destruct (run roundTrip (caddy.GetProxyRoute _ _ _) w) as [[[route|err] w1] log1].
  - rewrite run_bind.
    destruct (run roundTrip (caddy.GetUpstreamStatus _) w1) as [[u w2] log2].
    cbn [run]. now rewrite app_nil_r.
  - destruct (Contains err "not found"); cbn [run]; now rewrite app_nil_r.
Qed.

End ControllerFacts.

Section ControllerClaims.
Import http proxyroute.
Context `{GoRuntime} {W : Type} (roundTrip : Request -> W -> Reply * W).

(** C2. When [Create] succeeds, the identifier the client returned, which
    is the one stored as the resource's external name, is the identity
    scheme applied to the translated route, the very route that was
    posted. The resource [Create] leaves is determined by the desired
    route alone: nothing of the backend's answer enters it. *)
Theorem Create_stores_identity_of_posted_route
    (e : external) (cr : v1alpha1.ProxyRoute) (w w' : W) (mg' : Managed)
    (log : list Request) :
  run roundTrip (Create e (IsProxyRoute cr)) w = (mg', None, w', log) ->
  let route := convertToProxyRoute cr in
  run roundTrip (caddy.CreateProxyRoute (client e) (serverNameOf cr) route) w
    = (Ok (caddyclient.generateRouteID route), w', log) /\
  (let cr' := meta.SetExternalName (v1alpha1.SetConditions cr xpv1.Creating)
                                   (caddyclient.generateRouteID route) in
   mg' = IsProxyRoute cr' /\
   meta.GetExternalName cr' = caddyclient.generateRouteID route) /\
  (exists body, json_Marshal route = Ok body /\
                log = [requests.postRoute (client e) (serverNameOf cr) body]).
Proof.
  intros Hrun route. unfold Create in Hrun. rewrite run_bind in Hrun.
  change (convertToProxyRoute (v1alpha1.SetConditions cr xpv1.Creating))
    with route in Hrun.
  change (serverNameOf (v1alpha1.SetConditions cr xpv1.Creating))
    with (serverNameOf cr) in Hrun.
  destruct (run roundTrip (caddy.CreateProxyRoute _ _ _) w)
    as [[[id|err] w1] log1] eqn:Ecreate; cbn [run] in Hrun;
    [|congruence].
  injection Hrun as <- <- <-.
  destruct (CreateProxyRoute_Ok roundTrip _ _ _ _ _ _ _ Ecreate)
    as (-> & body & resp & Hbody & -> & _ & _).
  rewrite app_nil_r. split; [reflexivity|]. split.
  - cbv zeta. split; [reflexivity|]. apply GetExternalName_SetExternalName.
  - exists body. split; [exact Hbody | reflexivity].
Qed.

(** C6. With no external name stored, [Observe] reports that the resource
    does not exist, without error and without issuing a request: its result
    is the same against every backend and every backend state. *)
Theorem Observe_without_external_name (e : external) (cr : v1alpha1.ProxyRoute) :
  meta.GetExternalName cr = "" ->
  Observe e (IsProxyRoute cr) =
    Ret (IsProxyRoute cr, Ok {| ResourceExists := false; ResourceUpToDate := false |}) /\
  forall (V : Type) (backend : Request -> V -> Reply * V) (v : V),
    run backend (Observe e (IsProxyRoute cr)) v =
    (IsProxyRoute cr, Ok {| ResourceExists := false; ResourceUpToDate := false |},
     v, []).
Proof.
  intros Hname.
  assert (Hobs : Observe e (IsProxyRoute cr) =
    Ret (IsProxyRoute cr, Ok {| ResourceExists := false; ResourceUpToDate := false |})).
  { unfold Observe. now rewrite Hname. }
  split; [exact Hobs|]. intros V backend v. now rewrite Hobs.
Qed.

(** C9. Whenever [Observe] finds the route (an external name is stored and
    the client's lookup succeeds), it reports that the resource exists and
    is not up to date, whatever the desired state and the fetched route
    are, and it leaves the resource marked available. *)
Theorem Observe_found_is_never_up_to_date
    (e : external) (cr : v1alpha1.ProxyRoute) (w w1 : W)
    (route : caddyclient.ProxyRoute) (log1 : list Request) :
  meta.GetExternalName cr <> "" ->
  run roundTrip
      (caddy.GetProxyRoute (client e) (serverNameOf cr) (meta.GetExternalName cr)) w
    = (Ok route, w1, log1) ->
  isUpToDate cr route = false /\
  exists cr' w2 log2,
    run roundTrip (Observe e (IsProxyRoute cr)) w =
      (IsProxyRoute cr',
       Ok {| ResourceExists := true; ResourceUpToDate := false |},
       w2, (log1 ++ log2)%list) /\
    v1alpha1.GetCondition cr' xpv1.TypeReady = Some xpv1.Available.
Proof.
  intros Hname Hget. split; [reflexivity|].
  rewrite (run_Observe_named roundTrip e cr w Hname). cbv zeta. rewrite Hget.
  destruct (run roundTrip (caddy.GetUpstreamStatus (client e)) w1)
    as [[u w2] log2].
  eexists _, w2, log2. split; [reflexivity|].
  unfold v1alpha1.GetCondition, v1alpha1.SetConditions.
  cbn [v1alpha1.Status v1alpha1.Conditions].
  apply (GetCondition_SetConditions _ xpv1.Available).
Qed.

(** What the client's lookup returns on a response that is neither 404 nor
    2xx: the status error, which quotes the response body. *)
Lemma GetProxyRoute_status_error (c : caddy.Client) (serverName routeID : string)
    (w w1 : W) (resp : Response) :
  url_error (caddy.endpoint c +:+ caddy.routesPath serverName) = None ->
  roundTrip (requests.getRoutes c serverName) w = (inr resp, w1) ->
  StatusCode resp <> StatusNotFound ->
  caddy.not2xx resp = true ->
  run roundTrip (caddy.GetProxyRoute c serverName routeID) w =
    (Err (caddy.statusError resp), w1, [requests.getRoutes c serverName]).
Proof.
  intros Hurl Hrt H404 Hst.
  unfold caddy.GetProxyRoute, caddy.NewRequestWithContext. rewrite Hurl.
  change {| ReqMethod := MethodGet; URL := _; ReqBody := None; Header := ∅ |}
    with (requests.getRoutes c serverName).
  cbn [run]. rewrite Hrt.
  apply Z.eqb_neq in H404. rewrite H404, Hst. reflexivity.
Qed.

Lemma statusError_Contains (resp : Response) (sub : string) :
  Contains (Body resp) sub = true -> Contains (caddy.statusError resp) sub = true.
Proof.
  intros Hb. unfold caddy.statusError.
  do 3 apply Contains_app_l. exact Hb.
Qed.

(** C10. [Observe] tells a missing route from a fault by the text of the
    error alone, and by nothing else. Whenever the client's lookup fails,
    [Observe] reports that the resource does not exist, without error, if
    ["not found"] occurs anywhere in the message, and otherwise fails with
    the message under the label ["cannot get proxy route"]; so the two
    outcomes are told apart exactly by that occurrence. The lookup's own
    not-found outcome is such a message, and so is the error for a response
    that is neither 2xx nor 404 whose body contains that text. *)
Theorem Observe_classifies_by_substring
    (e : external) (cr : v1alpha1.ProxyRoute) (w w1 : W) :
  meta.GetExternalName cr <> "" ->
  let lookup :=
    caddy.GetProxyRoute (client e) (serverNameOf cr) (meta.GetExternalName cr) in
  let get := requests.getRoutes (client e) (serverNameOf cr) in
  let absent := Ok {| ResourceExists := false; ResourceUpToDate := false |} in
  (forall (msg : string) (log1 : list Request),
     run roundTrip lookup w = (Err msg, w1, log1) ->
     (exists a b, msg = a +:+ "not found" +:+ b) ->
     run roundTrip (Observe e (IsProxyRoute cr)) w
       = (IsProxyRoute cr, absent, w1, log1)) /\
  (forall (msg : string) (log1 : list Request),
     run roundTrip lookup w = (Err msg, w1, log1) ->
     ~ (exists a b, msg = a +:+ "not found" +:+ b) ->
     run roundTrip (Observe e (IsProxyRoute cr)) w
       = (IsProxyRoute cr, Err ("cannot get proxy route: " +:+ msg), w1, log1)) /\
  (forall (msg : string) (log1 : list Request),
     run roundTrip lookup w = (Err msg, w1, log1) ->
     (run roundTrip (Observe e (IsProxyRoute cr)) w
        = (IsProxyRoute cr, absent, w1, log1)
      <-> exists a b, msg = a +:+ "not found" +:+ b)) /\
  (forall log1 : list Request,
     run roundTrip lookup w = (Err "route not found", w1, log1) ->
     run roundTrip (Observe e (IsProxyRoute cr)) w
       = (IsProxyRoute cr, absent, w1, log1)) /\
  (forall resp : Response,
     url_error (URL get) = None ->
     roundTrip get w = (inr resp, w1) ->
     StatusCode resp <> StatusNotFound ->
     caddy.not2xx resp = true ->
     (exists a b, Body resp = a +:+ "not found" +:+ b) ->
     run roundTrip lookup w = (Err (caddy.statusError resp), w1, [get]) /\
     run roundTrip (Observe e (IsProxyRoute cr)) w
       = (IsProxyRoute cr, absent, w1, [get])).
Proof.
  intros Hname lookup get absent.
  assert (Hmain : forall msg log1,
     run roundTrip lookup w = (Err msg, w1, log1) ->
     Contains msg "not found" = true ->
     run roundTrip (Observe e (IsProxyRoute cr)) w
       = (IsProxyRoute cr, absent, w1, log1)).
  { intros msg log1 Hget Hsub.
    rewrite (run_Observe_named roundTrip e cr w Hname). cbv zeta.
    fold lookup. rewrite Hget, Hsub. reflexivity. }
  assert (Hother : forall msg log1,
     run roundTrip lookup w = (Err msg, w1, log1) ->
     Contains msg "not found" = false ->
     run roundTrip (Observe e (IsProxyRoute cr)) w
       = (IsProxyRoute cr, Err ("cannot get proxy route: " +:+ msg), w1, log1)).
  { intros msg log1 Hget Hsub.
    rewrite (run_Observe_named roundTrip e cr w Hname). cbv zeta.
    fold lookup. rewrite Hget, Hsub. reflexivity. }
  assert (Hno : forall msg,
     ~ (exists a b, msg = a +:+ "not found" +:+ b) ->
     Contains msg "not found" = false).
  { intros msg Hn. destruct (Contains msg "not found") eqn:Hc; [|reflexivity].
    destruct Hn. now apply Contains_spec. }
  split; [|split; [|split; [|split]]].
  - intros msg log1 Hget Hsub. apply (Hmain msg log1 Hget).
    now apply Contains_spec.
  - intros msg log1 Hget Hsub. apply (Hother msg log1 Hget). now apply Hno.
  - intros msg log1 Hget. split.
    + intros Hobs. destruct (Contains msg "not found") eqn:Hc.
      * now apply Contains_spec.
      * rewrite (Hother msg log1 Hget Hc) in Hobs. discriminate Hobs.
    + intros Hsub. apply (Hmain msg log1 Hget). now apply Contains_spec.
  - intros log1 Hget. now apply (Hmain _ log1 Hget).
  - intros resp Hurl Hrt H404 Hst Hbody.
    pose proof (GetProxyRoute_status_error (client e) (serverNameOf cr)
                  (meta.GetExternalName cr) w w1 resp Hurl Hrt H404 Hst) as Hget.
    split; [exact Hget|].
    apply (Hmain _ _ Hget), statusError_Contains. now apply Contains_spec.
Qed.

End ControllerClaims.

Section ControllerRuns.
Import http proxyroute.
#[local] Existing Instance sample.runtime.

(** An error whose text lacks ["not found"] is returned under the label
    ["cannot get proxy route"]. *)
Lemma Observe_wraps_other_errors `{GoRuntime} {W : Type}
    (roundTrip : Request -> W -> Reply * W)
    (e : external) (cr : v1alpha1.ProxyRoute) (w w1 : W) (msg : string)
    (log1 : list Request) :
  meta.GetExternalName cr <> "" ->
  run roundTrip
      (caddy.GetProxyRoute (client e) (serverNameOf cr) (meta.GetExternalName cr)) w
    = (Err msg, w1, log1) ->
  Contains msg "not found" = false ->
  run roundTrip (Observe e (IsProxyRoute cr)) w =
    (IsProxyRoute cr, Err ("cannot get proxy route: " +:+ msg), w1, log1).
Proof.
  intros Hname Hget Hsub.
  rewrite (run_Observe_named roundTrip e cr w Hname). cbv zeta.
  rewrite Hget, Hsub. reflexivity.
Qed.

(** A create on the empty reference backend: the route is appended and the
    resource is named ["host:a.com"]. *)
Lemma Create_stores_identity_of_posted_route_witness :
  let cr := sample.desired "a.com" ∅ None in
  let created :=
    meta.SetExternalName (v1alpha1.SetConditions cr xpv1.Creating) "host:a.com" in
  let post := requests.postRoute sample.theClient "srv0" "a.com" in
  run (sample.roundTrip None) (Create sample.theExternal (IsProxyRoute cr)) []
    = (IsProxyRoute created, None, [sample.hostRoute "a.com"], [post]) /\
  meta.GetExternalName created = "host:a.com".
Proof.
  intros cr created post.
  assert (Hrun :
    run (sample.roundTrip None) (Create sample.theExternal (IsProxyRoute cr)) []
    = (IsProxyRoute created, None, [sample.hostRoute "a.com"], [post]))
    by (vm_compute; reflexivity).
  split; [exact Hrun|].
  exact (proj2 (proj1 (proj2
    (Create_stores_identity_of_posted_route (H := sample.runtime)
       (sample.roundTrip None) sample.theExternal cr [] _ _ _ Hrun)))).
Defined.

(** An unnamed resource is reported absent although the backend holds its
    route. *)
Lemma Observe_without_external_name_witness :
  let cr := sample.desired "a.com" ∅ None in
  meta.GetExternalName cr = "" /\
  run (sample.roundTrip None) (Observe sample.theExternal (IsProxyRoute cr))
      [sample.hostRoute "a.com"]
    = (IsProxyRoute cr, Ok {| ResourceExists := false; ResourceUpToDate := false |},
       [sample.hostRoute "a.com"], []).
Proof.
  intros cr.
  assert (Hname : meta.GetExternalName cr = "") by reflexivity.
  split; [exact Hname|].
  exact (proj2 (Observe_without_external_name (H := sample.runtime)
                  sample.theExternal cr Hname) _ (sample.roundTrip None) _).
Defined.

(** A named resource whose route the backend holds. *)
Lemma Observe_found_is_never_up_to_date_witness :
  let cr := sample.desired "a.com" (sample.named "host:a.com") None in
  let store := [sample.hostRoute "a.com"] in
  meta.GetExternalName cr <> "" /\
  run (sample.roundTrip None)
      (caddy.GetProxyRoute sample.theClient "srv0" "host:a.com") store
    = (Ok (sample.hostRoute "a.com"), store,
       [requests.getRoutes sample.theClient "srv0"]) /\
  exists cr' w2 log2,
    run (sample.roundTrip None) (Observe sample.theExternal (IsProxyRoute cr)) store =
      (IsProxyRoute cr',
       Ok {| ResourceExists := true; ResourceUpToDate := false |},
       w2, ([requests.getRoutes sample.theClient "srv0"] ++ log2)%list) /\
    v1alpha1.GetCondition cr' xpv1.TypeReady = Some xpv1.Available.
Proof.
  intros cr store.
  assert (Hname : meta.GetExternalName cr <> "") by (vm_compute; discriminate).
  assert (Hget :
    run (sample.roundTrip None)
        (caddy.GetProxyRoute sample.theClient "srv0" "host:a.com") store
    = (Ok (sample.hostRoute "a.com"), store,
       [requests.getRoutes sample.theClient "srv0"]))
    by (vm_compute; reflexivity).
  split; [exact Hname|]. split; [exact Hget|].
  exact (proj2 (Observe_found_is_never_up_to_date (H := sample.runtime)
                  (sample.roundTrip None) sample.theExternal cr store store
                  (sample.hostRoute "a.com") _ Hname Hget)).
Defined.

(** Two backend faults: one whose body mentions ["not found"], which is
    taken for a missing route, and one whose body does not, which is
    returned as an error. *)
Lemma Observe_classifies_by_substring_witness :
  let cr := sample.desired "a.com" (sample.named "host:a.com") None in
  let get := requests.getRoutes sample.theClient "srv0" in
  meta.GetExternalName cr <> "" /\
  run (sample.answering 500 "upstream not found")
      (caddy.GetProxyRoute sample.theClient "srv0" "host:a.com") tt
    = (Err "caddy API returned status 500: upstream not found", tt, [get]) /\
  run (sample.answering 500 "upstream not found")
      (Observe sample.theExternal (IsProxyRoute cr)) tt
    = (IsProxyRoute cr,
       Ok {| ResourceExists := false; ResourceUpToDate := false |}, tt, [get]) /\
  run (sample.answering 500 "boom")
      (caddy.GetProxyRoute sample.theClient "srv0" "host:a.com") tt
    = (Err "caddy API returned status 500: boom", tt, [get]) /\
  run (sample.answering 500 "boom")
      (Observe sample.theExternal (IsProxyRoute cr)) tt
    = (IsProxyRoute cr,
       Err "cannot get proxy route: caddy API returned status 500: boom", tt, [get]).
Proof.
  intros cr get.
  assert (Hname : meta.GetExternalName cr <> "") by (vm_compute; discriminate).
  assert (Hget :
    run (sample.answering 500 "upstream not found")
        (caddy.GetProxyRoute sample.theClient "srv0" "host:a.com") tt
    = (Err "caddy API returned status 500: upstream not found", tt, [get]))
    by (vm_compute; reflexivity).
  assert (Hget2 :
    run (sample.answering 500 "boom")
        (caddy.GetProxyRoute sample.theClient "srv0" "host:a.com") tt
    = (Err "caddy API returned status 500: boom", tt, [get]))
    by (vm_compute; reflexivity).
  split; [exact Hname|]. split; [exact Hget|]. split; [|split; [exact Hget2|]].
  - refine (proj1 (Observe_classifies_by_substring (H := sample.runtime)
                     (sample.answering 500 "upstream not found")
                     sample.theExternal cr tt tt Hname) _ _ Hget _).
    exists "caddy API returned status 500: upstream ", "". reflexivity.
  - refine (proj1 (proj2 (Observe_classifies_by_substring (H := sample.runtime)
                     (sample.answering 500 "boom")
                     sample.theExternal cr tt tt Hname)) _ _ Hget2 _).
    intros Hsub. apply Contains_spec in Hsub. vm_compute in Hsub.
    discriminate Hsub.
Defined.

(** C5 at a fault. The backend answers the route-array GET with status 500
    and the body ["upstream not found"]. The client's lookup fails with the
    status error, which is not its not-found outcome; yet [Observe] returns
    no error and reports that the resource does not exist, where the error
    should have come back under the label ["cannot get proxy route"]. *)
Theorem Observe_swallows_backend_fault :
  let cr := sample.desired "a.com" (sample.named "host:a.com") None in
  let backend := sample.answering 500 "upstream not found" in
  let get := requests.getRoutes sample.theClient "srv0" in
  let fault := "caddy API returned status 500: upstream not found" in
  run backend (caddy.GetProxyRoute sample.theClient "srv0" "host:a.com") tt
    = (Err fault, tt, [get]) /\
  fault <> "route not found" /\
  run backend (Observe sample.theExternal (IsProxyRoute cr)) tt
    = (IsProxyRoute cr,
       Ok {| ResourceExists := false; ResourceUpToDate := false |}, tt, [get]) /\
  run backend (Observe sample.theExternal (IsProxyRoute cr)) tt
    <> (IsProxyRoute cr, Err (Wrap fault errGetRoute), tt, [get]).
Proof.
  intros cr backend get fault.
  assert (Hobs :
    run backend (Observe sample.theExternal (IsProxyRoute cr)) tt
    = (IsProxyRoute cr,
       Ok {| ResourceExists := false; ResourceUpToDate := false |}, tt, [get]))
    by (vm_compute; reflexivity).
  split; [vm_compute; reflexivity|]. split; [discriminate|].
  split; [exact Hobs|]. rewrite Hobs. discriminate.
Qed.

End ControllerRuns.

(** ** Deleting a route *)

Section DeleteClaims.
Import caddyclient http.
Context `{GoRuntime} {W : Type} (roundTrip : Request -> W -> Reply * W).

(** [DeleteProxyRoute] after its GET has been answered. *)
Lemma run_DeleteProxyRoute_answered (c : caddy.Client) (serverName routeID : string)
    (w w1 : W) (resp : Response) :
  url_error (caddy.endpoint c +:+ caddy.routesPath serverName) = None ->
  roundTrip (requests.getRoutes c serverName) w = (inr resp, w1) ->
  run roundTrip (caddy.DeleteProxyRoute c serverName routeID) w =
  (let get := requests.getRoutes c serverName in
   if StatusCode resp =? StatusNotFound then (None, w1, [get])
   else if caddy.not2xx resp then (Some (caddy.statusError resp), w1, [get])
   else
     match json_DecodeRoutes (Body resp) with
     | Err err => (Some ("failed to decode routes: " +:+ err), w1, [get])
     | Ok routes =>
         match list_find (fun r => generateRouteID r = routeID) routes with
         | None => (None, w1, [get])
         | Some (i, _) =>
             let del := requests.deleteRoute c serverName i in
             match url_error (URL del) with
             | Some err =>
                 (Some ("failed to create delete request: " +:+ err), w1, [get])
             | None =>
                 let '(reply, w2) := roundTrip del w1 in
                 (match reply with
                  | inl err => Some ("failed to delete route: " +:+ err)
                  | inr resp2 =>
                      if caddy.not2xx resp2 then Some (caddy.statusError resp2)
                      else None
                  end, w2, [get; del])
             end
         end
     end).
Proof.
  intros Hurl Hrt. cbv zeta.
  unfold caddy.DeleteProxyRoute at 1. unfold caddy.NewRequestWithContext at 1.
  rewrite Hurl.
  change {| ReqMethod := MethodGet; URL := _; ReqBody := None; Header := ∅ |}
    with (requests.getRoutes c serverName).
  cbn [run]. rewrite Hrt.
  destruct (StatusCode resp =? StatusNotFound); [reflexivity|].
  destruct (caddy.not2xx resp); [reflexivity|].
  destruct (json_DecodeRoutes (Body resp)) as [routes|err]; [|reflexivity].
  rewrite findIndex_list_find.
  destruct (list_find _ routes) as [[i r]|]; [|reflexivity].
  assert (Hi : (0 + Z.of_nat i =? -1) = false) by (apply Z.eqb_neq; lia).
  rewrite Hi. unfold caddy.NewRequestWithContext.
  change (0 + Z.of_nat i) with (Z.of_nat i).
  change (caddy.endpoint c +:+ caddy.routesPath serverName +:+ "/" +:+ pretty (Z.of_nat i))
    with (URL (requests.deleteRoute c serverName i)).
  destruct (url_error (URL (requests.deleteRoute c serverName i))); [reflexivity|].
  change {| ReqMethod := MethodDelete; URL := _; ReqBody := None; Header := ∅ |}
    with (requests.deleteRoute c serverName i).
  cbn [run].
  destruct (roundTrip (requests.deleteRoute c serverName i) w1) as [[err|resp2] w2];
    [reflexivity|].
  destruct (caddy.not2xx resp2); reflexivity.
Qed.

(** C4. [DeleteProxyRoute] returns no error when the GET of the route array
    is answered 404, and when the array it fetched has no entry with the
    identifier; in both cases the GET is the only request. When an entry
    has the identifier, the GET is followed by exactly one DELETE, at the
    index of the first such entry in the fetched array, and the outcome of
    that DELETE is the outcome of the operation. *)
Theorem DeleteProxyRoute_outcomes (c : caddy.Client) (serverName routeID : string)
    (w w1 : W) (resp : Response) :
  url_error (caddy.endpoint c +:+ caddy.routesPath serverName) = None ->
  roundTrip (requests.getRoutes c serverName) w = (inr resp, w1) ->
  let get := requests.getRoutes c serverName in
  let delete := caddy.DeleteProxyRoute c serverName routeID in
  (StatusCode resp = StatusNotFound ->
   run roundTrip delete w = (None, w1, [get])) /\
  (forall routes : list ProxyRoute,
     caddy.not2xx resp = false ->
     json_DecodeRoutes (Body resp) = Ok routes ->
     (Forall (fun r => generateRouteID r <> routeID) routes ->
      run roundTrip delete w = (None, w1, [get])) /\
     (forall (i : nat) (r : ProxyRoute) (reply : Reply) (w2 : W),
        routes !! i = Some r ->
        generateRouteID r = routeID ->
        (forall j r', routes !! j = Some r' -> (j < i)%nat ->
                      generateRouteID r' <> routeID) ->
        url_error (URL (requests.deleteRoute c serverName i)) = None ->
        roundTrip (requests.deleteRoute c serverName i) w1 = (reply, w2) ->
        exists err,
          run roundTrip delete w =
            (err, w2, [get; requests.deleteRoute c serverName i]) /\
          (err = None <->
           exists resp2, reply = inr resp2 /\ caddy.not2xx resp2 = false))).
Proof.
  intros Hurl Hrt get delete. unfold delete.
  rewrite (run_DeleteProxyRoute_answered c serverName routeID w w1 resp Hurl Hrt).
  cbv zeta. split.
  - intros ->. reflexivity.
  - intros routes Hst Hdec.
    rewrite (not2xx_false_not_404 resp Hst), Hst, Hdec. split.
    + intros Hnone.
      assert (Hfind : list_find (fun r => generateRouteID r = routeID) routes = None)
        by (apply list_find_None; exact Hnone).
      now rewrite Hfind.
    + intros i r reply w2 Hi Hr Hfirst Hdel Hrt2.
      assert (Hfind : list_find (fun r => generateRouteID r = routeID) routes
                      = Some (i, r)).
      { apply list_find_Some. split; [exact Hi|]. split; [exact Hr|].
        intros j y Hj Hlt. exact (Hfirst j y Hj Hlt). }
      rewrite Hfind, Hdel, Hrt2.
      eexists. split; [reflexivity|].
      destruct reply as [err|resp2].
      * split; [discriminate|]. intros (resp2 & Hr2 & _). discriminate.
      * destruct (caddy.not2xx resp2) eqn:E2.
        -- split; [discriminate|]. intros (resp3 & [= <-] & Hc). congruence.
        -- split; [|reflexivity]. intros _. exists resp2. now split.
Qed.

End DeleteClaims.

(** ** The reference backend *)

Section BackendFacts.
Import caddyclient http.
Context `{GoRuntime}.
Variables (base server : string)
          (encodeRoutes : list ProxyRoute -> string)
          (decodeRoute : string -> option ProxyRoute)
          (rejectPost : option Reply).

Lemma itemURL_inj (i j : nat) :
  backend.itemURL base server i = backend.itemURL base server j -> i = j.
Proof.
  unfold backend.itemURL. intros E.
  do 3 apply (inj (String.app _)) in E.
  apply (inj pretty) in E. lia.
Qed.

Lemma indexOfURL_itemURL (i n : nat) :
  (i < n)%nat ->
  backend.indexOfURL base server (backend.itemURL base server i) n = Some i.
Proof.
  intros Hi. unfold backend.indexOfURL.
  assert (Hfind :
    list_find (fun k => backend.itemURL base server i = backend.itemURL base server k)
              (seq 0 n) = Some (i, i)).
  { apply list_find_Some. split; [now apply lookup_seq_lt|]. split; [reflexivity|].
    intros j y Hj Hlt Heq. apply lookup_seq in Hj as [-> _].
    apply itemURL_inj in Heq. lia. }
  now rewrite Hfind.
Qed.

Lemma removeFirst_list_find (routes : list ProxyRoute) (routeID : string) :
  backend.removeFirst routes routeID =
  match list_find (fun r => generateRouteID r = routeID) routes with
  | Some (i, _) => delete i routes
  | None => routes
  end.
Proof.
  induction routes as [|r rest IH]; [reflexivity|].
  cbn [backend.removeFirst list_find].
  destruct (String.eqb_spec (generateRouteID r) routeID) as [E|E].
  - now rewrite decide_True by exact E.
  - rewrite decide_False by exact E. rewrite IH.
    now destruct (list_find _ rest) as [[i r']|].
Qed.

Lemma holds_cons (r : ProxyRoute) (rest : list ProxyRoute) (routeID : string) :
  backend.holds (r :: rest) routeID <->
  generateRouteID r = routeID \/ backend.holds rest routeID.
Proof.
  unfold backend.holds. split.
  - intros (r' & Hin & Hid). apply elem_of_cons in Hin as [-> | Hin]; eauto.
  - intros [Hid | (r' & Hin & Hid)].
    + exists r. split; [apply elem_of_cons; now left | exact Hid].
    + exists r'. split; [apply elem_of_cons; now right | exact Hid].
Qed.

Lemma countID_0_not_holds (routes : list ProxyRoute) (routeID : string) :
  backend.countID routes routeID = 0%nat -> ~ backend.holds routes routeID.
Proof.
  induction routes as [|r rest IH]; cbn [backend.countID].
  - intros _ (r' & Hin & _). now apply elem_of_nil in Hin.
  - destruct (String.eqb_spec (generateRouteID r) routeID) as [E|E];
      [discriminate|].
    intros Hc Hh. apply holds_cons in Hh as [Hh|Hh]; [contradiction|].
    now apply IH.
Qed.

(** Removing the only entry with an identifier leaves none. *)
Lemma removeFirst_unique (routes : list ProxyRoute) (routeID : string) :
  (backend.countID routes routeID <= 1)%nat ->
  ~ backend.holds (backend.removeFirst routes routeID) routeID.
Proof.
  induction routes as [|r rest IH]; cbn [backend.countID backend.removeFirst].
  - intros _ (r' & Hin & _). now apply elem_of_nil in Hin.
  - destruct (String.eqb_spec (generateRouteID r) routeID) as [E|E].
    + intros Hc. apply countID_0_not_holds. lia.
    + intros Hc Hh. apply holds_cons in Hh as [Hh|Hh]; [contradiction|].
      apply IH; [lia | exact Hh].
Qed.

(** Routes with another identifier are untouched. *)
Lemma removeFirst_other (routes : list ProxyRoute) (routeID other : string) :
  other <> routeID ->
  backend.holds (backend.removeFirst routes routeID) other <->
  backend.holds routes other.
Proof.
  intros Hne. induction routes as [|r rest IH]; cbn [backend.removeFirst];
    [reflexivity|].
  destruct (String.eqb_spec (generateRouteID r) routeID) as [E|E].
  - rewrite holds_cons. split; [now right|]. intros [Hid|Hh]; [congruence|exact Hh].
  - rewrite !holds_cons, IH. reflexivity.
Qed.

(** On the reference backend a successful delete removes the first entry
    with the identifier, if there is one, and nothing else. *)
Lemma backend_DeleteProxyRoute_None (routes routes1 : list ProxyRoute)
    (routeID : string) (log1 : list Request) :
  json_DecodeRoutes (encodeRoutes routes) = Ok routes ->
  run (backend.roundTrip base server encodeRoutes decodeRoute rejectPost)
      (caddy.DeleteProxyRoute {| caddy.endpoint := base |} server routeID) routes
    = (None, routes1, log1) ->
  routes1 = backend.removeFirst routes routeID.
Proof.
  intros Hdec.
  set (c := {| caddy.endpoint := base |}).
  set (rt := backend.roundTrip base server encodeRoutes decodeRoute rejectPost).
  destruct (url_error (caddy.endpoint c +:+ caddy.routesPath server)) as [e|] eqn:Hurl.
  { unfold caddy.DeleteProxyRoute, caddy.NewRequestWithContext. rewrite Hurl.
    cbn [run]. discriminate. }
  assert (Hrt : rt (requests.getRoutes c server) routes
                = (backend.status 200 (encodeRoutes routes), routes)).
  { unfold rt, backend.roundTrip, requests.getRoutes. cbn [ReqMethod URL].
    change (caddy.endpoint c +:+ caddy.routesPath server)
      with (backend.routesURL base server).
    now rewrite String.eqb_refl. }
  rewrite (run_DeleteProxyRoute_answered rt c server routeID routes routes _ Hurl Hrt).
  cbv zeta. cbn [StatusCode Body].
  change (200 =? StatusNotFound) with false.
  change (caddy.not2xx {| StatusCode := 200; Body := encodeRoutes routes |}) with false.
  cbv iota. rewrite Hdec, removeFirst_list_find.
  destruct (list_find _ routes) as [[i r]|] eqn:Hfind; [|now intros [= <- _]].
  destruct (url_error (URL (requests.deleteRoute c server i))) as [e|];
    [discriminate|].
  assert (Hi : (i < length routes)%nat).
  { apply list_find_Some in Hfind as (Hi & _). now apply lookup_lt_Some in Hi. }
  assert (Hrt2 : rt (requests.deleteRoute c server i) routes
                 = (backend.status 200 "", delete i routes)).
  { unfold rt, backend.roundTrip, requests.deleteRoute. cbn [ReqMethod URL].
    change (caddy.endpoint c +:+ caddy.routesPath server +:+ "/"
              +:+ pretty (Z.of_nat i))
      with (backend.itemURL base server i).
    now rewrite (indexOfURL_itemURL i (length routes) Hi). }
  rewrite Hrt2. unfold backend.status. intros Heq. now inversion Heq.
Qed.

(** On the reference backend a failed create leaves the array as it was. *)
Lemma backend_CreateProxyRoute_Err (routes1 routes2 : list ProxyRoute)
    (serverName : string) (c : caddy.Client) (route : ProxyRoute) (e : string)
    (log2 : list Request) :
  run (backend.roundTrip base server encodeRoutes decodeRoute rejectPost)
      (caddy.CreateProxyRoute c serverName route) routes1
    = (Err e, routes2, log2) ->
  routes2 = routes1.
Proof.
  intros Hrun.
  apply CreateProxyRoute_Err in Hrun
    as [[_ ->] | (body & reply & _ & _ & Hrt & Hreply)]; [reflexivity|].
  unfold backend.roundTrip in Hrt. cbn [ReqMethod requests.postRoute] in Hrt.
  destruct rejectPost as [r|]; [now injection Hrt as _ <-|].
  destruct (String.eqb _ _); [|now injection Hrt as _ <-].
  destruct (_ ≫= decodeRoute); [|now injection Hrt as _ <-].
  injection Hrt as <- _. discriminate Hreply.
Qed.

End BackendFacts.

(** ** Updating a route *)

Section UpdateClaims.
Import caddyclient http.
#[local] Existing Instance sample.runtime.

(** An update runs the delete, and on its success the create, in the world
    the delete left; it issues the requests of both and nothing else. *)
Lemma run_UpdateProxyRoute `{GoRuntime} {W : Type}
    (roundTrip : Request -> W -> Reply * W)
    (c : caddy.Client) (serverName routeID : string) (route : ProxyRoute) (w : W) :
  run roundTrip (caddy.UpdateProxyRoute c serverName routeID route) w =
  (let '(err, w1, log1) :=
     run roundTrip (caddy.DeleteProxyRoute c serverName routeID) w in
   match err with
   | Some err => (Some ("failed to delete old route: " +:+ err), w1, log1)
   | None =>
       let '(r, w2, log2) :=
         run roundTrip (caddy.CreateProxyRoute c serverName route) w1 in
       (match r with
        | Err err => Some ("failed to create updated route: " +:+ err)
        | Ok _ => None
        end, w2, (log1 ++ log2)%list)
   end).
Proof.
  unfold caddy.UpdateProxyRoute. rewrite run_bind.
  destruct (run roundTrip (caddy.DeleteProxyRoute _ _ _) w) as [[[err|] w1] log1].
  - cbn [run]. now rewrite app_nil_r.
  - rewrite run_bind.
    destruct (run roundTrip (caddy.CreateProxyRoute _ _ _) w1) as [[[id|err] w2] log2];
      cbn [run]; now rewrite app_nil_r.
Qed.

(** The backend that turns every POST down with status 500. *)
Example rejecting_backend_run :
  run (sample.roundTrip (Some (backend.status 500 "boom")))
      (caddy.UpdateProxyRoute sample.theClient "srv0" "host:a.com"
         (sample.hostRoute "a.com"))
      [sample.hostRoute "b.com"; sample.hostRoute "a.com"]
  = (Some "failed to create updated route: caddy API returned status 500: boom",
     [sample.hostRoute "b.com"],
     [requests.getRoutes sample.theClient "srv0";
      requests.deleteRoute sample.theClient "srv0" 1;
      requests.postRoute sample.theClient "srv0" "a.com"]).
Proof. vm_compute. reflexivity. Qed.

(** C3, as claimed, fails: when the array holds two entries with the old
    identifier, the delete step removes the first one only, and after the
    failed create the backend still holds a route with that identifier. *)
Lemma update_leaves_route_absent_fails :
  ~ update.leaves_route_absent
      (sample.roundTrip (Some (backend.status 500 "boom")))
      sample.theClient "srv0" "host:a.com" (sample.hostRoute "a.com")
      [sample.hostRoute "a.com"; sample.hostRoute "a.com"].
Proof.
  intros Hclaim.
  destruct (Hclaim [sample.hostRoute "a.com"] [sample.hostRoute "a.com"]
              [requests.getRoutes sample.theClient "srv0";
               requests.deleteRoute sample.theClient "srv0" 0]
              [requests.postRoute sample.theClient "srv0" "a.com"]
              "caddy API returned status 500: boom")
    as (_ & Habsent & _).
  - vm_compute. reflexivity.
  - vm_compute. reflexivity.
  - apply Habsent. exists (sample.hostRoute "a.com").
    split; [apply list_elem_of_singleton; reflexivity | reflexivity].
Qed.

(** The array holds an identifier exactly when it counts at least one
    entry with it. *)
Lemma holds_countID (routes : list ProxyRoute) (routeID : string) :
  backend.holds routes routeID <-> (1 <= backend.countID routes routeID)%nat.
Proof.
  induction routes as [|r rest IH]; cbn [backend.countID].
  - split; [|lia]. intros (r' & Hin & _). now apply elem_of_nil in Hin.
  - rewrite holds_cons, IH.
    destruct (String.eqb_spec (generateRouteID r) routeID) as [E|E].
    + split; [lia | now left].
    + split; [intros [Hid|Hc]; [contradiction | lia] | intros Hc; right; lia].
Qed.

Lemma countID_removeFirst (routes : list ProxyRoute) (routeID : string) :
  backend.countID (backend.removeFirst routes routeID) routeID
  = Nat.pred (backend.countID routes routeID).
Proof.
  induction routes as [|r rest IH]; cbn [backend.removeFirst backend.countID];
    [reflexivity|].
  destruct (String.eqb_spec (generateRouteID r) routeID) as [E|E].
  - reflexivity.
  - cbn [backend.countID].
    destruct (String.eqb_spec (generateRouteID r) routeID) as [E'|_];
      [contradiction|].
    rewrite IH. reflexivity.
Qed.

(** After the first entry with an identifier is removed, none is left
    exactly when there was at most one. *)
Lemma removeFirst_absent_iff (routes : list ProxyRoute) (routeID : string) :
  ~ backend.holds (backend.removeFirst routes routeID) routeID <->
  (backend.countID routes routeID <= 1)%nat.
Proof.
  rewrite holds_countID, countID_removeFirst. lia.
Qed.

(** A delete issues no POST: two backends that answer every other request
    alike run it alike. *)
Lemma run_DeleteProxyRoute_agree `{GoRuntime} {W : Type}
    (rt1 rt2 : Request -> W -> Reply * W)
    (c : caddy.Client) (serverName routeID : string) (w : W) :
  (forall req v, ReqMethod req <> MethodPost -> rt1 req v = rt2 req v) ->
  run rt1 (caddy.DeleteProxyRoute c serverName routeID) w
  = run rt2 (caddy.DeleteProxyRoute c serverName routeID) w.
Proof.
  intros Hag. unfold caddy.DeleteProxyRoute, caddy.NewRequestWithContext.
  destruct (url_error (caddy.endpoint c +:+ caddy.routesPath serverName));
    [reflexivity|].
  cbn [run]. rewrite Hag by (cbn; discriminate).
  destruct (rt2 _ w) as [[e|resp] w1]; [reflexivity|].
  destruct (StatusCode resp =? StatusNotFound); [reflexivity|].
  destruct (caddy.not2xx resp); [reflexivity|].
  destruct (json_DecodeRoutes (Body resp)) as [routes|e]; [|reflexivity].
  destruct (caddy.findIndex routes routeID 0 =? -1); [reflexivity|].
  destruct (url_error _); [reflexivity|].
  cbn [run]. rewrite Hag by (cbn; discriminate).
  destruct (rt2 _ w1) as [[e|resp2] w2]; [reflexivity|].
  destruct (caddy.not2xx resp2); reflexivity.
Qed.

Lemma lossyRoundTrip_agree (base server : string)
    (encodeRoutes : list ProxyRoute -> string)
    (decodeRoute : string -> option ProxyRoute)
    (req : Request) (routes : list ProxyRoute) :
  ReqMethod req <> MethodPost ->
  backend.lossyRoundTrip base server encodeRoutes decodeRoute req routes
  = backend.roundTrip base server encodeRoutes decodeRoute None req routes.
Proof.
  intros Hm. unfold backend.lossyRoundTrip.
  destruct (backend.roundTrip _ _ _ _ _ req routes) as [reply routes'].
  now destruct (ReqMethod req).
Qed.

(** Behind the lossy connection a create whose POST reaches the backend
    fails, and the backend has appended the route all the same. *)
Lemma lossy_CreateProxyRoute `{GoRuntime} (base server : string)
    (encodeRoutes : list ProxyRoute -> string)
    (decodeRoute : string -> option ProxyRoute)
    (route stored : ProxyRoute) (body : string) (routes : list ProxyRoute) :
  json_Marshal route = Ok body ->
  url_error (base +:+ caddy.routesPath server) = None ->
  decodeRoute body = Some stored ->
  run (backend.lossyRoundTrip base server encodeRoutes decodeRoute)
      (caddy.CreateProxyRoute {| caddy.endpoint := base |} server route) routes
  = (Err "failed to create route: EOF", append routes stored,
     [requests.postRoute {| caddy.endpoint := base |} server body]).
Proof.
  intros Hbody Hurl Hstored.
  unfold caddy.CreateProxyRoute, caddy.NewRequestWithContext.
  rewrite Hbody. cbn [caddy.endpoint]. rewrite Hurl.
  change (Header_Set _ _ _)
    with (requests.postRoute {| caddy.endpoint := base |} server body).
  cbn [run].
  assert (Hrt :
    backend.lossyRoundTrip base server encodeRoutes decodeRoute
      (requests.postRoute {| caddy.endpoint := base |} server body) routes
    = (inl "EOF", append routes stored)).
  { unfold backend.lossyRoundTrip, backend.roundTrip.
    cbn [ReqMethod URL ReqBody requests.postRoute caddy.endpoint].
    change (base +:+ caddy.routesPath server) with (backend.routesURL base server).
    rewrite String.eqb_refl. cbn [mbind option_bind]. now rewrite Hstored. }
  now rewrite Hrt.
Qed.

(** C3. An update is the delete of the old identifier followed by the
    create of the new route, and nothing undoes the delete: against every
    backend, when the delete step succeeds and the create step fails, the
    update returns the create's error, labelled as a failed create of the
    updated route, and issues nothing more. What the backend then holds
    depends on the backend. On the reference backend, which leaves the
    array as it is when it turns a POST down, the array is the initial one
    without its first entry with the old identifier: no route with the old
    identifier is left exactly when the array held at most one, and routes
    with any other identifier are held exactly as before. Behind a
    connection that loses the reply to the POST, the update fails in the
    same way although the backend has appended the new route, which it then
    holds. *)
Theorem UpdateProxyRoute_delete_then_create :
  (forall (R : GoRuntime) (W : Type) (roundTrip : Request -> W -> Reply * W)
          (c : caddy.Client) (serverName routeID : string) (route : ProxyRoute)
          (w : W),
     run roundTrip (caddy.UpdateProxyRoute c serverName routeID route) w =
     (let '(err, w1, log1) :=
        run roundTrip (caddy.DeleteProxyRoute c serverName routeID) w in
      match err with
      | Some err => (Some ("failed to delete old route: " +:+ err), w1, log1)
      | None =>
          let '(r, w2, log2) :=
            run roundTrip (caddy.CreateProxyRoute c serverName route) w1 in
          (match r with
           | Err err => Some ("failed to create updated route: " +:+ err)
           | Ok _ => None
           end, w2, (log1 ++ log2)%list)
      end)) /\
  (forall (R : GoRuntime) (base server : string)
          (encodeRoutes : list ProxyRoute -> string)
          (decodeRoute : string -> option ProxyRoute)
          (rejectPost : option Reply)
          (routeID : string) (route : ProxyRoute)
          (routes routes1 routes2 : list ProxyRoute)
          (log1 log2 : list Request) (e : string),
     let c := {| caddy.endpoint := base |} in
     let roundTrip :=
       backend.roundTrip base server encodeRoutes decodeRoute rejectPost in
     json_DecodeRoutes (encodeRoutes routes) = Ok routes ->
     run roundTrip (caddy.DeleteProxyRoute c server routeID) routes
       = (None, routes1, log1) ->
     run roundTrip (caddy.CreateProxyRoute c server route) routes1
       = (Err e, routes2, log2) ->
     run roundTrip (caddy.UpdateProxyRoute c server routeID route) routes
       = (Some ("failed to create updated route: " +:+ e), routes2,
          (log1 ++ log2)%list) /\
     routes2 = backend.removeFirst routes routeID /\
     (~ backend.holds routes2 routeID <->
      (backend.countID routes routeID <= 1)%nat) /\
     (forall other : string, other <> routeID ->
        (backend.holds routes2 other <-> backend.holds routes other))) /\
  (forall (R : GoRuntime) (base server : string)
          (encodeRoutes : list ProxyRoute -> string)
          (decodeRoute : string -> option ProxyRoute)
          (routeID : string) (route stored : ProxyRoute) (body : string)
          (routes routes1 : list ProxyRoute) (log1 : list Request),
     let c := {| caddy.endpoint := base |} in
     let lossy := backend.lossyRoundTrip base server encodeRoutes decodeRoute in
     json_DecodeRoutes (encodeRoutes routes) = Ok routes ->
     run lossy (caddy.DeleteProxyRoute c server routeID) routes
       = (None, routes1, log1) ->
     json_Marshal route = Ok body ->
     decodeRoute body = Some stored ->
     run lossy (caddy.UpdateProxyRoute c server routeID route) routes
       = (Some "failed to create updated route: failed to create route: EOF",
          append (backend.removeFirst routes routeID) stored,
          (log1 ++ [requests.postRoute c server body])%list) /\
     backend.holds (append (backend.removeFirst routes routeID) stored)
                   (generateRouteID stored)).
Proof.
  split; [|split].
  - intros R W roundTrip c serverName routeID route w. apply run_UpdateProxyRoute.
  - intros R base server encodeRoutes decodeRoute rejectPost routeID route
      routes routes1 routes2 log1 log2 e c roundTrip Hdec Hdel Hcreate.
    assert (H1 : routes1 = backend.removeFirst routes routeID)
      by exact (backend_DeleteProxyRoute_None base server encodeRoutes decodeRoute
                  rejectPost routes routes1 routeID log1 Hdec Hdel).
    assert (H2 : routes2 = routes1)
      by exact (backend_CreateProxyRoute_Err base server encodeRoutes decodeRoute
                  rejectPost routes1 routes2 server c route e log2 Hcreate).
    split.
    { rewrite run_UpdateProxyRoute. fold c roundTrip. rewrite Hdel, Hcreate.
      reflexivity. }
    rewrite H2, H1. split; [reflexivity|]. split.
    + apply removeFirst_absent_iff.
    + intros other Hne. now apply removeFirst_other.
  - intros R base server encodeRoutes decodeRoute routeID route stored body
      routes routes1 log1 c lossy Hdec Hdel Hbody Hstored.
    assert (Hurl : url_error (base +:+ caddy.routesPath server) = None).
    { destruct (url_error (base +:+ caddy.routesPath server)) as [bad|] eqn:Hu;
        [|reflexivity].
      unfold caddy.DeleteProxyRoute, caddy.NewRequestWithContext in Hdel.
      cbn [caddy.endpoint c] in Hdel. unfold c in Hdel. cbn [caddy.endpoint] in Hdel.
      rewrite Hu in Hdel. cbn [run] in Hdel. discriminate Hdel. }
    assert (H1 : routes1 = backend.removeFirst routes routeID).
    { unfold lossy in Hdel.
      rewrite (run_DeleteProxyRoute_agree _
                 (backend.roundTrip base server encodeRoutes decodeRoute None))
        in Hdel
        by (intros req v Hm; now apply lossyRoundTrip_agree).
      exact (backend_DeleteProxyRoute_None base server encodeRoutes decodeRoute
               None routes routes1 routeID log1 Hdec Hdel). }
    split.
    + rewrite run_UpdateProxyRoute. fold c lossy. rewrite Hdel.
      unfold lossy, c.
      rewrite (lossy_CreateProxyRoute base server encodeRoutes decodeRoute
                 route stored body routes1 Hbody Hurl Hstored).
      now rewrite H1.
    + exists stored. split; [|reflexivity].
      unfold append. apply elem_of_app. right. apply list_elem_of_singleton.
      reflexivity.
Qed.

(** A failed update on an array that holds the old identifier once: turned
    down by the backend, and behind a connection that loses the reply. *)
Lemma UpdateProxyRoute_delete_then_create_witness :
  let roundTrip := sample.roundTrip (Some (backend.status 500 "boom")) in
  let routes := [sample.hostRoute "b.com"; sample.hostRoute "a.com"] in
  let get := requests.getRoutes sample.theClient "srv0" in
  let del := requests.deleteRoute sample.theClient "srv0" 1 in
  let post := requests.postRoute sample.theClient "srv0" "a.com" in
  let e := "caddy API returned status 500: boom" in
  json_DecodeRoutes (sample.encodeRoutes routes) = Ok routes /\
  run roundTrip (caddy.DeleteProxyRoute sample.theClient "srv0" "host:a.com") routes
    = (None, [sample.hostRoute "b.com"], [get; del]) /\
  run roundTrip (caddy.CreateProxyRoute sample.theClient "srv0"
                   (sample.hostRoute "a.com")) [sample.hostRoute "b.com"]
    = (Err e, [sample.hostRoute "b.com"], [post]) /\
  run roundTrip (caddy.UpdateProxyRoute sample.theClient "srv0" "host:a.com"
                   (sample.hostRoute "a.com")) routes
    = (Some ("failed to create updated route: " +:+ e),
       [sample.hostRoute "b.com"], [get; del; post]) /\
  ~ backend.holds [sample.hostRoute "b.com"] "host:a.com" /\
  run sample.lossyRoundTrip
      (caddy.DeleteProxyRoute sample.theClient "srv0" "host:a.com") routes
    = (None, [sample.hostRoute "b.com"], [get; del]) /\
  run sample.lossyRoundTrip
      (caddy.UpdateProxyRoute sample.theClient "srv0" "host:a.com"
         (sample.hostRoute "a.com")) routes
    = (Some "failed to create updated route: failed to create route: EOF",
       [sample.hostRoute "b.com"; sample.hostRoute "a.com"], [get; del; post]).
Proof.
  intros roundTrip routes get del post e.
  assert (Hdec : json_DecodeRoutes (sample.encodeRoutes routes) = Ok routes)
    by (vm_compute; reflexivity).
  assert (Hdel :
    run roundTrip (caddy.DeleteProxyRoute sample.theClient "srv0" "host:a.com") routes
    = (None, [sample.hostRoute "b.com"], [get; del])) by (vm_compute; reflexivity).
  assert (Hcreate :
    run roundTrip (caddy.CreateProxyRoute sample.theClient "srv0"
                     (sample.hostRoute "a.com")) [sample.hostRoute "b.com"]
    = (Err e, [sample.hostRoute "b.com"], [post])) by (vm_compute; reflexivity).
  assert (Hdel' :
    run (backend.lossyRoundTrip "http://caddy:2019" "srv0" sample.encodeRoutes
           sample.decodeRoute)
        (caddy.DeleteProxyRoute {| caddy.endpoint := "http://caddy:2019" |} "srv0"
           "host:a.com") routes
    = (None, [sample.hostRoute "b.com"], [get; del])) by (vm_compute; reflexivity).
  split; [exact Hdec|]. split; [exact Hdel|]. split; [exact Hcreate|].
  destruct (proj1 (proj2 UpdateProxyRoute_delete_then_create) sample.runtime
              "http://caddy:2019" "srv0" sample.encodeRoutes sample.decodeRoute
              (Some (backend.status 500 "boom")) "host:a.com"
              (sample.hostRoute "a.com") routes _ _ _ _ e Hdec Hdel Hcreate)
    as (Hupd & _ & Habsent & _).
  split; [exact Hupd|]. split; [apply Habsent; vm_compute; lia|].
  split; [exact Hdel'|].
  exact (proj1 (proj2 (proj2 UpdateProxyRoute_delete_then_create) sample.runtime
                  "http://caddy:2019" "srv0" sample.encodeRoutes sample.decodeRoute
                  "host:a.com" (sample.hostRoute "a.com") (sample.hostRoute "a.com")
                  "a.com" routes _ _ Hdec Hdel' eq_refl eq_refl)).
Defined.

(** The two cases of C4 on concrete backends: the GET answered 404, and an
    array whose second entry is the first with the identifier. *)
Lemma DeleteProxyRoute_outcomes_witness :
  let get := requests.getRoutes sample.theClient "srv0" in
  let del := requests.deleteRoute sample.theClient "srv0" 1 in
  let routes := [sample.hostRoute "b.com"; sample.hostRoute "a.com";
                 sample.hostRoute "a.com"] in
  run (sample.answering 404 "")
      (caddy.DeleteProxyRoute sample.theClient "srv0" "host:a.com") tt
    = (None, tt, [get]) /\
  exists err,
    run (sample.roundTrip None)
        (caddy.DeleteProxyRoute sample.theClient "srv0" "host:a.com") routes
      = (err, [sample.hostRoute "b.com"; sample.hostRoute "a.com"], [get; del]) /\
    (err = None <->
     exists resp2, backend.status 200 "" = inr resp2 /\ caddy.not2xx resp2 = false).
Proof.
  intros get del routes. split.
  - refine (proj1 (DeleteProxyRoute_outcomes (H := sample.runtime)
                     (sample.answering 404 "") sample.theClient "srv0" "host:a.com"
                     tt tt {| StatusCode := 404; Body := "" |} _ _) _);
      reflexivity.
  - refine (proj2 (proj2 (DeleteProxyRoute_outcomes (H := sample.runtime)
                     (sample.roundTrip None) sample.theClient "srv0" "host:a.com"
                     routes routes {| StatusCode := 200; Body := "b.com,a.com,a.com" |}
                     _ _) routes _ _)
              1%nat (sample.hostRoute "a.com") (backend.status 200 "")
              [sample.hostRoute "b.com"; sample.hostRoute "a.com"] _ _ _ _ _);
      try (vm_compute; reflexivity).
    intros j r' Hj Hlt. destruct j as [|j]; [|lia].
    injection Hj as <-. vm_compute. discriminate.
Defined.

End UpdateClaims.

(** * Further properties *)

(** ** Suffixes and the client's endpoint *)

Lemma length_append (a b : string) :
  String.length (a +:+ b) = (String.length a + String.length b)%nat.
Proof.
  induction a as [|c a IH]; [reflexivity|].
  change (String c a +:+ b) with (String c (a +:+ b)). cbn [String.length].
  now rewrite IH.
Qed.

Lemma substring_head (a b : string) :
  String.substring 0 (String.length a) (a +:+ b) = a.
Proof.
  induction a as [|c a IH].
  - now destruct b.
  - change (String c a +:+ b) with (String c (a +:+ b)).
    cbn [String.length String.substring]. now rewrite IH.
Qed.

Lemma substring_all (b : string) :
  String.substring 0 (String.length b) b = b.
Proof.
  induction b as [|c b IH]; [reflexivity|].
  cbn [String.length String.substring]. now rewrite IH.
Qed.

Lemma substring_tail (a b : string) :
  String.substring (String.length a) (String.length b) (a +:+ b) = b.
Proof.
  induction a as [|c a IH].
  - apply substring_all.
  - change (String c a +:+ b) with (String c (a +:+ b)).
    cbn [String.length String.substring]. exact IH.
Qed.

(** A string is its first [k] bytes followed by the rest. *)
Lemma substring_split (s : string) (k : nat) :
  (k <= String.length s)%nat ->
  s = String.substring 0 k s +:+ String.substring k (String.length s - k) s.
Proof.
  revert k. induction s as [|c s IH]; intros k Hk.
  - cbn in Hk. assert (k = 0%nat) as -> by lia. reflexivity.
  - destruct k as [|k].
    + rewrite Nat.sub_0_r, substring_all. reflexivity.
    + cbn [String.length] in Hk. cbn [String.length Nat.sub String.substring].
      change (String c ?x +:+ ?y) with (String c (x +:+ y)).
      f_equal. apply IH. lia.
Qed.

Lemma HasSuffix_spec (s suffix : string) :
  HasSuffix s suffix = true <-> exists a, s = a +:+ suffix.
Proof.
  unfold HasSuffix. rewrite andb_true_iff, Nat.leb_le, String.eqb_eq. split.
  - intros [Hlen Hsub].
    exists (String.substring 0 (String.length s - String.length suffix) s).
    pose proof (substring_split s (String.length s - String.length suffix))
      as Hsplit.
    replace (String.length s - (String.length s - String.length suffix))%nat
      with (String.length suffix) in Hsplit by lia.
    rewrite Hsub in Hsplit. apply Hsplit. lia.
  - intros (a & ->). rewrite length_append. split; [lia|].
    replace (String.length a + String.length suffix - String.length suffix)%nat
      with (String.length a) by lia.
    apply substring_tail.
Qed.

Lemma TrimSuffix_append (a suffix : string) :
  TrimSuffix (a +:+ suffix) suffix = a.
Proof.
  unfold TrimSuffix.
  assert (Hs : HasSuffix (a +:+ suffix) suffix = true)
    by (apply HasSuffix_spec; now exists a).
  rewrite Hs, length_append.
  replace (String.length a + String.length suffix - String.length suffix)%nat
    with (String.length a) by lia.
  apply substring_head.
Qed.

Example TrimSuffix_one_slash : TrimSuffix "http://caddy:2019/" "/" = "http://caddy:2019".
Proof. reflexivity. Qed.

Example TrimSuffix_two_slashes : TrimSuffix "http://caddy:2019//" "/" = "http://caddy:2019/".
Proof. reflexivity. Qed.

Section Endpoint.
Import proxyroute.

Lemma append_slash_neq (a : string) : a <> a +:+ "/".
Proof.
  intros Ha. apply (f_equal String.length) in Ha.
  rewrite length_append in Ha. cbn in Ha. lia.
Qed.

(** X1. [NewClient] removes exactly one trailing slash from the endpoint,
    and keeps an endpoint as it is exactly when it has no trailing slash.
    So for two resources whose endpoints differ by one trailing slash,
    [Connect] on the longer one builds the client of the shorter endpoint
    as written, and the two clients are the same exactly when the shorter
    endpoint does not itself end in a slash. [Connect] refuses a resource
    of another kind. *)
Theorem NewClient_trims_one_slash :
  (forall e : string, caddy.endpoint (caddy.NewClient (e +:+ "/")) = e) /\
  (forall e : string,
     caddy.endpoint (caddy.NewClient e) = e <-> (forall a, e <> a +:+ "/")) /\
  (forall cr1 cr2 : v1alpha1.ProxyRoute,
     let e1 := v1alpha1.CaddyEndpoint (v1alpha1.ForProvider (v1alpha1.Spec cr1)) in
     let e2 := v1alpha1.CaddyEndpoint (v1alpha1.ForProvider (v1alpha1.Spec cr2)) in
     e1 = e2 +:+ "/" ->
     Connect (IsProxyRoute cr1) = Ok {| client := {| caddy.endpoint := e2 |} |} /\
     (Connect (IsProxyRoute cr1) = Connect (IsProxyRoute cr2)
      <-> forall a, e2 <> a +:+ "/")) /\
  Connect OtherKind = Err "managed resource is not a ProxyRoute custom resource".
Proof.
  assert (Hkeep : forall e : string,
            TrimSuffix e "/" = e <-> (forall a, e <> a +:+ "/")).
  { intros e. split.
    - intros Ht a Ha. rewrite Ha, TrimSuffix_append in Ht.
      exact (append_slash_neq a Ht).
    - intros Hno. unfold TrimSuffix.
      destruct (HasSuffix e "/") eqn:Hs; [|reflexivity].
      apply HasSuffix_spec in Hs as (a & Ha). now destruct (Hno a). }
  split; [|split; [|split]].
  - intros e. unfold caddy.NewClient. cbn [caddy.endpoint].
    apply TrimSuffix_append.
  - intros e. unfold caddy.NewClient. cbn [caddy.endpoint]. apply Hkeep.
  - intros cr1 cr2 e1 e2 H1. unfold Connect, caddy.NewClient.
    fold e1 e2. rewrite H1, TrimSuffix_append. split; [reflexivity|].
    rewrite <- Hkeep. split.
    + intros [= Heq]. now symmetry.
    + intros ->. reflexivity.
  - reflexivity.
Qed.

End Endpoint.

(** ** More on the identity scheme *)

Section IdentityMore.
Import caddyclient.

Lemma append_assoc (a b c : string) : (a +:+ b) +:+ c = a +:+ (b +:+ c).
Proof.
  induction a as [|x a IH]; [reflexivity|].
  change (String x a +:+ b) with (String x (a +:+ b)).
  change (String x (a +:+ b) +:+ c) with (String x ((a +:+ b) +:+ c)).
  change (String x a +:+ (b +:+ c)) with (String x (a +:+ (b +:+ c))).
  now rewrite IH.
Qed.

Lemma generateRouteID_not_empty (r : ProxyRoute) : generateRouteID r <> "".
Proof.
  destruct r as [ms hs t]. unfold generateRouteID. cbn [Match].
  destruct ms as [|[hosts paths methods hdr] rest]; [discriminate|].
  cbn [Host Path Method].
  destruct hosts, paths, methods; cbn -[String.append Join]; try discriminate;
    unfold Join; cbn [String.concat]; discriminate.
Qed.

(** X3. The identifier does not determine the lists it is built from: one
    host that contains a comma is identified like the two hosts around the
    comma, and a host that contains ["|path:"] like a host with a path. *)
Theorem generateRouteID_separator_collisions :
  (forall (a b : string) (paths methods : list string)
          (hdr : gmap string (list string)) (rest : list MatchSet)
          (hs : list Handler) (t : bool),
     generateRouteID
       {| Match := {| Host := [a +:+ "," +:+ b]; Path := paths; Method := methods;
                      Header := hdr |} :: rest;
          Handle := hs; Terminal := t |}
     = generateRouteID
       {| Match := {| Host := [a; b]; Path := paths; Method := methods;
                      Header := hdr |} :: rest;
          Handle := hs; Terminal := t |}) /\
  (forall (h p : string) (hdr : gmap string (list string)) (rest : list MatchSet)
          (hs : list Handler) (t : bool),
     generateRouteID
       {| Match := {| Host := [h +:+ "|path:" +:+ p]; Path := []; Method := [];
                      Header := hdr |} :: rest;
          Handle := hs; Terminal := t |}
     = generateRouteID
       {| Match := {| Host := [h]; Path := [p]; Method := []; Header := hdr |} :: rest;
          Handle := hs; Terminal := t |}).
Proof.
  split.
  - intros a b paths methods hdr rest hs t. reflexivity.
  - intros h p hdr rest hs t. unfold generateRouteID. cbn -[String.append].
    change ("|path:" +:+ p) with ("|" +:+ "path:" +:+ p).
    now rewrite append_assoc.
Qed.

Example collision_comma :
  generateRouteID (sample.hostRoute "a.com,b.com") = "host:a.com,b.com".
Proof. reflexivity. Qed.

(** X4. The identifier of a translated route is read off the desired
    match alone: it is ["default"] without a match, and two desired routes
    with the same host, path and method lists get the same identifier
    whatever their endpoint, server, upstreams, load balancing, header
    operations, health checks, TLS block, annotations and status are. *)
Theorem convertToProxyRoute_identity (cr1 cr2 : v1alpha1.ProxyRoute) :
  desired.matchKey cr1 = desired.matchKey cr2 ->
  generateRouteID (proxyroute.convertToProxyRoute cr1)
    = generateRouteID (proxyroute.convertToProxyRoute cr2) /\
  (desired.matchKey cr1 = None ->
   generateRouteID (proxyroute.convertToProxyRoute cr1) = "default") /\
  (forall hosts paths methods,
     desired.matchKey cr1 = Some (hosts, paths, methods) ->
     generateRouteID (proxyroute.convertToProxyRoute cr1)
     = generateRouteID
         {| Match := [ {| Host := hosts; Path := paths; Method := methods;
                          Header := ∅ |} ];
            Handle := []; Terminal := false |}).
Proof.
  intros Hk.
  assert (Hone : forall cr hosts paths methods,
     desired.matchKey cr = Some (hosts, paths, methods) ->
     generateRouteID (proxyroute.convertToProxyRoute cr)
     = generateRouteID
         {| Match := [ {| Host := hosts; Path := paths; Method := methods;
                          Header := ∅ |} ];
            Handle := []; Terminal := false |}).
  { intros cr hosts paths methods. unfold desired.matchKey.
    destruct cr as [ann [p] st]. cbn [v1alpha1.Spec v1alpha1.ForProvider].
    destruct (v1alpha1.Match p) as [m|] eqn:Em; [|discriminate].
    intros [= <- <- <-].
    unfold proxyroute.convertToProxyRoute, generateRouteID.
    cbn [v1alpha1.Spec v1alpha1.ForProvider Match]. rewrite Em. reflexivity. }
  assert (Hnone : forall cr,
     desired.matchKey cr = None ->
     generateRouteID (proxyroute.convertToProxyRoute cr) = "default").
  { intros cr. unfold desired.matchKey.
    destruct cr as [ann [p] st]. cbn [v1alpha1.Spec v1alpha1.ForProvider].
    destruct (v1alpha1.Match p) as [m|] eqn:Em; [discriminate|]. intros _.
    unfold proxyroute.convertToProxyRoute, generateRouteID.
    cbn [v1alpha1.Spec v1alpha1.ForProvider Match]. now rewrite Em. }
  split; [|split; [apply Hnone | apply Hone]].
  destruct (desired.matchKey cr1) as [[[hosts paths] methods]|] eqn:E1.
  - rewrite (Hone cr1 _ _ _ E1), (Hone cr2 _ _ _ (eq_sym Hk)). reflexivity.
  - rewrite (Hnone cr1 E1), (Hnone cr2 (eq_sym Hk)). reflexivity.
Qed.

(** Two desired routes for one host that differ in everything else. *)
Lemma convertToProxyRoute_identity_witness :
  let cr1 := sample.desired "a.com" (sample.named "stale") (Some sample.tlsUnset) in
  let cr2 := sample.desiredWith "a.com" "http://other:2019/" None
               (Some sample.headerOps) in
  desired.matchKey cr1 = desired.matchKey cr2 /\
  generateRouteID (proxyroute.convertToProxyRoute cr1) = "host:a.com" /\
  generateRouteID (proxyroute.convertToProxyRoute cr2) = "host:a.com".
Proof.
  intros cr1 cr2.
  assert (Hk : desired.matchKey cr1 = desired.matchKey cr2) by reflexivity.
  split; [exact Hk|].
  pose proof (proj1 (convertToProxyRoute_identity cr1 cr2 Hk)) as Hsame.
  split; [reflexivity|]. rewrite <- Hsame. reflexivity.
Defined.

End IdentityMore.

(** ** Looking a route up *)

Section LookupFacts.
Import caddyclient http.
Context `{GoRuntime} {W : Type} (roundTrip : Request -> W -> Reply * W).

(** [GetProxyRoute], request by request. *)
Lemma run_GetProxyRoute (c : caddy.Client) (serverName routeID : string) (w : W) :
  run roundTrip (caddy.GetProxyRoute c serverName routeID) w =
  (let get := requests.getRoutes c serverName in
   match url_error (URL get) with
   | Some err => (Err ("failed to create request: " +:+ err), w, [])
   | None =>
       let '(reply, w1) := roundTrip get w in
       (match reply with
        | inl err => Err ("failed to get routes: " +:+ err)
        | inr resp =>
            if StatusCode resp =? StatusNotFound then Err "route not found"
            else if caddy.not2xx resp then Err (caddy.statusError resp)
            else
              match json_DecodeRoutes (Body resp) with
              | Err err => Err ("failed to decode routes: " +:+ err)
              | Ok routes =>
                  match caddy.findRoute routes routeID with
                  | Some r => Ok r
                  | None => Err "route not found"
                  end
              end
        end, w1, [get])
   end).
Proof.
  cbv zeta. unfold caddy.GetProxyRoute, caddy.NewRequestWithContext.
  change (caddy.endpoint c +:+ caddy.routesPath serverName)
    with (URL (requests.getRoutes c serverName)).
  destruct (url_error (URL (requests.getRoutes c serverName))); [reflexivity|].
  change {| ReqMethod := MethodGet; URL := _; ReqBody := None; Header := ∅ |}
    with (requests.getRoutes c serverName).
  cbn [run].
  destruct (roundTrip (requests.getRoutes c serverName) w) as [[err|resp] w1];
    [reflexivity|].
  destruct (StatusCode resp =? StatusNotFound); [reflexivity|].
  destruct (caddy.not2xx resp); [reflexivity|].
  destruct (json_DecodeRoutes (Body resp)) as [routes|err]; [|reflexivity].
  destruct (caddy.findRoute routes routeID); reflexivity.
Qed.

(** [GetUpstreamStatus], request by request. *)
Lemma run_GetUpstreamStatus (c : caddy.Client) (w : W) :
  run roundTrip (caddy.GetUpstreamStatus c) w =
  (let get := requests.getUpstreams c in
   match url_error (URL get) with
   | Some err => (Err ("failed to create request: " +:+ err), w, [])
   | None =>
       let '(reply, w1) := roundTrip get w in
       (match reply with
        | inl err => Err ("failed to get upstream status: " +:+ err)
        | inr resp =>
            if caddy.not2xx resp then Err (caddy.statusError resp)
            else
              match json_DecodeUpstreams (Body resp) with
              | Err err => Err ("failed to decode upstreams: " +:+ err)
              | Ok upstreams => Ok upstreams
              end
        end, w1, [get])
   end).
Proof.
  cbv zeta. unfold caddy.GetUpstreamStatus, caddy.NewRequestWithContext.
  change (caddy.endpoint c +:+ "/reverse_proxy/upstreams")
    with (URL (requests.getUpstreams c)).
  destruct (url_error (URL (requests.getUpstreams c))); [reflexivity|].
  change {| ReqMethod := MethodGet; URL := _; ReqBody := None; Header := ∅ |}
    with (requests.getUpstreams c).
  cbn [run].
  destruct (roundTrip (requests.getUpstreams c) w) as [[err|resp] w1];
    [reflexivity|].
  destruct (caddy.not2xx resp); [reflexivity|].
  destruct (json_DecodeUpstreams (Body resp)); reflexivity.
Qed.

(** X5. The two scans agree: the index [DeleteProxyRoute] computes is [-1]
    exactly when [GetProxyRoute] finds no route; otherwise it lies inside
    the array and names the very entry [GetProxyRoute] returns, which
    carries the identifier and is the first to do so. *)
Theorem findIndex_findRoute_agree (routes : list ProxyRoute) (routeID : string) :
  (caddy.findIndex routes routeID 0 = -1 <-> caddy.findRoute routes routeID = None) /\
  -1 <= caddy.findIndex routes routeID 0 < Z.of_nat (length routes) /\
  (forall i : nat,
     caddy.findIndex routes routeID 0 = Z.of_nat i ->
     exists r,
       routes !! i = Some r /\
       caddy.findRoute routes routeID = Some r /\
       generateRouteID r = routeID /\
       (forall j r', routes !! j = Some r' -> (j < i)%nat ->
                     generateRouteID r' <> routeID)).
Proof.
  rewrite findIndex_list_find, findRoute_list_find.
  destruct (list_find (fun r => generateRouteID r = routeID) routes)
    as [[k r]|] eqn:Hfind.
  - apply list_find_Some in Hfind as (Hk & Hid & Hfirst).
    pose proof (lookup_lt_Some _ _ _ Hk) as Hlt.
    split; [split; [lia | discriminate]|]. split; [lia|].
    intros i Hi. assert (i = k) as -> by lia.
    exists r. split; [exact Hk|]. split; [reflexivity|]. split; [exact Hid|].
    intros j r' Hj Hji. exact (Hfirst j r' Hj Hji).
  - split; [now split|]. split; [lia|]. intros i Hi. lia.
Qed.

(** X6. A successful lookup has issued exactly the GET of the route array,
    which was answered 2xx with an array that decodes, and it returns the
    first entry of that array whose identifier is the requested one. *)
Theorem GetProxyRoute_Ok (c : caddy.Client) (serverName routeID : string)
    (w w1 : W) (r : ProxyRoute) (log : list Request) :
  run roundTrip (caddy.GetProxyRoute c serverName routeID) w = (Ok r, w1, log) ->
  generateRouteID r = routeID /\
  log = [requests.getRoutes c serverName] /\
  exists resp routes i,
    roundTrip (requests.getRoutes c serverName) w = (inr resp, w1) /\
    caddy.not2xx resp = false /\
    json_DecodeRoutes (Body resp) = Ok routes /\
    routes !! i = Some r /\
    (forall j r', routes !! j = Some r' -> (j < i)%nat ->
                  generateRouteID r' <> routeID).
Proof.
  rewrite run_GetProxyRoute. cbv zeta.
  destruct (url_error _); [discriminate|].
  destruct (roundTrip _ w) as [[err|resp] w2] eqn:Ert; [discriminate|].
  destruct (StatusCode resp =? StatusNotFound); [discriminate|].
  destruct (caddy.not2xx resp) eqn:Est; [discriminate|].
  destruct (json_DecodeRoutes (Body resp)) as [routes|err] eqn:Edec; [|discriminate].
  destruct (caddy.findRoute routes routeID) as [r0|] eqn:Efind; [|discriminate].
  intros [= <- <- <-].
  rewrite findRoute_list_find in Efind.
  destruct (list_find _ routes) as [[i r1]|] eqn:Hfind; [|discriminate].
  injection Efind as ->.
  apply list_find_Some in Hfind as (Hi & Hid & Hfirst).
  split; [exact Hid|]. split; [reflexivity|].
  exists resp, routes, i.
  do 3 (split; [first [reflexivity | assumption]|]).
  split; [exact Hi|].
  intros j r' Hj Hji. exact (Hfirst j r' Hj Hji).
Qed.

(** X7. The lookup fails with exactly ["route not found"] in two cases and
    no other: the GET was answered 404, or it was answered 2xx with an
    array that decodes and holds no entry with the identifier. *)
Theorem GetProxyRoute_not_found (c : caddy.Client) (serverName routeID : string)
    (w w1 : W) (log : list Request) :
  run roundTrip (caddy.GetProxyRoute c serverName routeID) w
    = (Err "route not found", w1, log) <->
  url_error (URL (requests.getRoutes c serverName)) = None /\
  log = [requests.getRoutes c serverName] /\
  exists resp,
    roundTrip (requests.getRoutes c serverName) w = (inr resp, w1) /\
    (StatusCode resp = StatusNotFound \/
     (caddy.not2xx resp = false /\
      exists routes,
        json_DecodeRoutes (Body resp) = Ok routes /\
        Forall (fun r => generateRouteID r <> routeID) routes)).
Proof.
  rewrite run_GetProxyRoute. cbv zeta. split.
  - destruct (url_error _); [discriminate|].
    destruct (roundTrip _ w) as [[err|resp] w2] eqn:Ert; [discriminate|].
    destruct (StatusCode resp =? StatusNotFound) eqn:E404.
    { intros [= <- <-]. split; [reflexivity|]. split; [reflexivity|].
      exists resp. split; [first [reflexivity | assumption]|]. left.
      now apply Z.eqb_eq. }
    destruct (caddy.not2xx resp) eqn:Est; [discriminate|].
    destruct (json_DecodeRoutes (Body resp)) as [routes|err] eqn:Edec;
      [|discriminate].
    destruct (caddy.findRoute routes routeID) as [r0|] eqn:Efind; [discriminate|].
    intros [= <- <-]. split; [reflexivity|]. split; [reflexivity|].
    exists resp. split; [first [reflexivity | assumption]|]. right.
    split; [first [reflexivity | assumption]|].
    exists routes. split; [first [reflexivity | assumption]|].
    rewrite findRoute_list_find in Efind.
    destruct (list_find _ routes) as [[i r1]|] eqn:Hfind; [discriminate|].
    now apply list_find_None in Hfind.
  - intros (Hurl & -> & resp & Hrt & Hcase). rewrite Hurl, Hrt.
    destruct Hcase as [H404 | (Hst & routes & Hdec & Hnone)].
    + apply Z.eqb_eq in H404. now rewrite H404.
    + rewrite (not2xx_false_not_404 resp Hst), Hst, Hdec, findRoute_list_find.
      assert (Hfind : list_find (fun r => generateRouteID r = routeID) routes = None)
        by (apply list_find_None; exact Hnone).
      now rewrite Hfind.
Qed.

End LookupFacts.

(** ** Which requests are issued *)

Section RequestFacts.
Import caddyclient http proxyroute.
Context `{GoRuntime} {W : Type} (roundTrip : Request -> W -> Reply * W).

(** [DeleteProxyRoute], request by request. *)
Lemma run_DeleteProxyRoute (c : caddy.Client) (serverName routeID : string) (w : W) :
  run roundTrip (caddy.DeleteProxyRoute c serverName routeID) w =
  (let get := requests.getRoutes c serverName in
   match url_error (URL get) with
   | Some err => (Some ("failed to create request: " +:+ err), w, [])
   | None =>
       let '(reply, w1) := roundTrip get w in
       match reply with
       | inl err => (Some ("failed to get routes: " +:+ err), w1, [get])
       | inr resp =>
           if StatusCode resp =? StatusNotFound then (None, w1, [get])
           else if caddy.not2xx resp then (Some (caddy.statusError resp), w1, [get])
           else
             match json_DecodeRoutes (Body resp) with
             | Err err => (Some ("failed to decode routes: " +:+ err), w1, [get])
             | Ok routes =>
                 match list_find (fun r => generateRouteID r = routeID) routes with
                 | None => (None, w1, [get])
                 | Some (i, _) =>
                     let del := requests.deleteRoute c serverName i in
                     match url_error (URL del) with
                     | Some err =>
                         (Some ("failed to create delete request: " +:+ err),
                          w1, [get])
                     | None =>
                         let '(reply2, w2) := roundTrip del w1 in
                         (match reply2 with
                          | inl err => Some ("failed to delete route: " +:+ err)
                          | inr resp2 =>
                              if caddy.not2xx resp2
                              then Some (caddy.statusError resp2)
                              else None
                          end, w2, [get; del])
                     end
                 end
             end
       end
   end).
Proof.
  cbv zeta.
  destruct (url_error (URL (requests.getRoutes c serverName))) as [e|] eqn:Hurl.
  - unfold caddy.DeleteProxyRoute, caddy.NewRequestWithContext.
    change (caddy.endpoint c +:+ caddy.routesPath serverName)
      with (URL (requests.getRoutes c serverName)).
    now rewrite Hurl.
  - destruct (roundTrip (requests.getRoutes c serverName) w) as [[err|resp] w1]
      eqn:Hrt.
    + unfold caddy.DeleteProxyRoute, caddy.NewRequestWithContext.
      change (caddy.endpoint c +:+ caddy.routesPath serverName)
        with (URL (requests.getRoutes c serverName)).
      rewrite Hurl.
      change {| ReqMethod := MethodGet; URL := _; ReqBody := None; Header := ∅ |}
        with (requests.getRoutes c serverName).
      cbn [run]. now rewrite Hrt.
    + rewrite (run_DeleteProxyRoute_answered roundTrip c serverName routeID
                 w w1 resp Hurl Hrt).
      reflexivity.
Qed.

(** X8. [Observe] only reads: against every backend and for every
    resource it issues at most two requests, and each of them is a GET. *)
Theorem Observe_only_reads (e : external) (mg : Managed) (w : W) :
  let log := snd (run roundTrip (Observe e mg) w) in
  (length log <= 2)%nat /\
  Forall (fun req => ReqMethod req = MethodGet) log.
Proof.
  destruct mg as [cr|]; [|cbn; split; [lia | constructor]].
  destruct (String.eqb_spec (meta.GetExternalName cr) "") as [Hname|Hname].
  { unfold Observe.
    rewrite (proj2 (String.eqb_eq _ _) Hname).
    cbn. split; [lia | constructor]. }
  rewrite (run_Observe_named roundTrip e cr w Hname). cbv zeta.
  assert (Hup : forall w1,
    let log2 := snd (run roundTrip (caddy.GetUpstreamStatus (client e)) w1) in
    (length log2 <= 1)%nat /\ Forall (fun req => ReqMethod req = MethodGet) log2).
  { intros w1. rewrite run_GetUpstreamStatus. cbv zeta.
    destruct (url_error _); [cbn; split; [lia | constructor]|].
    destruct (roundTrip _ w1) as [reply w2]. cbn [snd length].
    split; [lia|]. repeat constructor. }
  assert (Hget :
    let log1 := snd (run roundTrip
                       (caddy.GetProxyRoute (client e) (serverNameOf cr)
                          (meta.GetExternalName cr)) w) in
    (length log1 <= 1)%nat /\ Forall (fun req => ReqMethod req = MethodGet) log1).
  { rewrite run_GetProxyRoute. cbv zeta.
    destruct (url_error _); [cbn; split; [lia | constructor]|].
    destruct (roundTrip _ w) as [reply w1]. cbn [snd length].
    split; [lia|]. repeat constructor. }
  cbv zeta in Hget.
  destruct (run roundTrip (caddy.GetProxyRoute _ _ _) w) as [[[route|err] w1] log1].
  - specialize (Hup w1). cbv zeta in Hup.
    destruct (run roundTrip (caddy.GetUpstreamStatus (client e)) w1)
      as [[u w2] log2].
    cbn [snd] in *. destruct Hup as [Hlen2 Hget2]. destruct Hget as [Hlen1 Hget1].
    split; [rewrite length_app; lia | now apply Forall_app].
  - destruct (Contains err "not found"); cbn [snd] in *;
      (split; [lia | apply Hget]).
Qed.

(** X9. [DeleteProxyRoute] issues a DELETE only for an index inside the
    array it has just fetched and decoded, whose entry carries the
    identifier; it issues nothing after that DELETE, and nothing but the
    GET otherwise. When it issues no request at all it fails and leaves
    the backend as it was. *)
Theorem DeleteProxyRoute_requests (c : caddy.Client) (serverName routeID : string)
    (w w' : W) (err : error) (log : list Request) :
  run roundTrip (caddy.DeleteProxyRoute c serverName routeID) w = (err, w', log) ->
  let get := requests.getRoutes c serverName in
  (log = [] /\ w' = w /\ err <> None) \/
  (log = [get] /\ exists reply, roundTrip get w = (reply, w')) \/
  (exists (resp : Response) (w1 : W) (routes : list ProxyRoute) (i : nat)
          (r : ProxyRoute) (reply2 : Reply),
     log = [get; requests.deleteRoute c serverName i] /\
     roundTrip get w = (inr resp, w1) /\
     caddy.not2xx resp = false /\
     json_DecodeRoutes (Body resp) = Ok routes /\
     (i < length routes)%nat /\
     routes !! i = Some r /\
     generateRouteID r = routeID /\
     roundTrip (requests.deleteRoute c serverName i) w1 = (reply2, w')).
Proof.
  rewrite run_DeleteProxyRoute. cbv zeta.
  destruct (url_error (URL (requests.getRoutes c serverName))).
  { intros [= <- <- <-]. left. now repeat split. }
  destruct (roundTrip (requests.getRoutes c serverName) w) as [[e|resp] w1] eqn:Hrt.
  { intros [= <- <- <-]. right; left. eauto. }
  destruct (StatusCode resp =? StatusNotFound).
  { intros [= <- <- <-]. right; left. eauto. }
  destruct (caddy.not2xx resp) eqn:Hst.
  { intros [= <- <- <-]. right; left. eauto. }
  destruct (json_DecodeRoutes (Body resp)) as [routes|e] eqn:Hdec.
  2: { intros [= <- <- <-]. right; left. eauto. }
  destruct (list_find _ routes) as [[i r]|] eqn:Hfind.
  2: { intros [= <- <- <-]. right; left. eauto. }
  destruct (url_error (URL (requests.deleteRoute c serverName i))).
  { intros [= <- <- <-]. right; left. eauto. }
  destruct (roundTrip (requests.deleteRoute c serverName i) w1)
    as [reply2 w2] eqn:Hrt2.
  intros [= <- <- <-]. right; right.
  apply list_find_Some in Hfind as (Hi & Hid & _).
  exists resp, w1, routes, i, r, reply2.
  do 4 (split; [first [reflexivity | assumption]|]).
  split; [now apply lookup_lt_Some in Hi|].
  split; [exact Hi|]. split; [exact Hid | first [reflexivity | assumption]].
Qed.

(** X10. [CreateProxyRoute] returns an identifier exactly when the route
    could be marshalled, the request could be built and its one POST was
    answered 2xx; the identifier is then the one computed from the route. *)
Theorem CreateProxyRoute_Ok_iff (c : caddy.Client) (serverName : string)
    (route : ProxyRoute) (w w' : W) (id : string) (log : list Request) :
  run roundTrip (caddy.CreateProxyRoute c serverName route) w = (Ok id, w', log) <->
  id = generateRouteID route /\
  exists body resp,
    json_Marshal route = Ok body /\
    url_error (URL (requests.postRoute c serverName body)) = None /\
    log = [requests.postRoute c serverName body] /\
    roundTrip (requests.postRoute c serverName body) w = (inr resp, w') /\
    caddy.not2xx resp = false.
Proof.
  unfold caddy.CreateProxyRoute, caddy.NewRequestWithContext. split.
  - destruct (json_Marshal route) as [body|e]; [|cbn; congruence].
    change (caddy.endpoint c +:+ caddy.routesPath serverName)
      with (URL (requests.postRoute c serverName body)).
    destruct (url_error _) as [e|] eqn:Hurl; [cbn; congruence|].
    change (Header_Set _ _ _) with (requests.postRoute c serverName body).
    cbn [run].
    destruct (roundTrip _ w) as [[e|resp] w1] eqn:Ert; [cbn; congruence|].
    destruct (caddy.not2xx resp) eqn:Est; cbn [run]; [congruence|].
    intros [= <- <- <-]. split; [reflexivity|].
    exists body, resp. auto.
  - intros (-> & body & resp & Hbody & Hurl & -> & Hrt & Hst).
    rewrite Hbody.
    change (caddy.endpoint c +:+ caddy.routesPath serverName)
      with (URL (requests.postRoute c serverName body)).
    rewrite Hurl.
    change (Header_Set _ _ _) with (requests.postRoute c serverName body).
    cbn [run]. now rewrite Hrt, Hst.
Qed.

(** A create that succeeded had its URL accepted. *)
Lemma CreateProxyRoute_Ok_url (c : caddy.Client) (serverName : string)
    (route : ProxyRoute) (w w' : W) (id : string) (log : list Request) :
  run roundTrip (caddy.CreateProxyRoute c serverName route) w = (Ok id, w', log) ->
  url_error (caddy.endpoint c +:+ caddy.routesPath serverName) = None.
Proof.
  unfold caddy.CreateProxyRoute, caddy.NewRequestWithContext.
  destruct (json_Marshal route) as [body|e]; [|cbn; congruence].
  destruct (url_error _) as [e|]; [cbn; congruence | reflexivity].
Qed.

End RequestFacts.

(** ** The entry points and the resource *)

Section EntryPoints.
Import caddyclient http proxyroute.
Context `{GoRuntime} {W : Type} (roundTrip : Request -> W -> Reply * W).

(** [Create], step by step. *)
Lemma run_Create (e : external) (cr : v1alpha1.ProxyRoute) (w : W) :
  run roundTrip (Create e (IsProxyRoute cr)) w =
  (let creating := v1alpha1.SetConditions cr xpv1.Creating in
   let '(r, w1, log) :=
     run roundTrip
       (caddy.CreateProxyRoute (client e) (serverNameOf cr) (convertToProxyRoute cr)) w in
   match r with
   | Err err =>
       (IsProxyRoute creating, Some ("cannot create proxy route: " +:+ err), w1, log)
   | Ok routeID =>
       (IsProxyRoute (meta.SetExternalName creating routeID), None, w1, log)
   end).
Proof.
  unfold Create. rewrite run_bind. cbv zeta.
  change (convertToProxyRoute (v1alpha1.SetConditions cr xpv1.Creating))
    with (convertToProxyRoute cr).
  change (serverNameOf (v1alpha1.SetConditions cr xpv1.Creating))
    with (serverNameOf cr).
  destruct (run roundTrip (caddy.CreateProxyRoute _ _ _) w) as [[[id|err] w1] log];
    cbn [run]; now rewrite app_nil_r.
Qed.

(** [Update], step by step. *)
Lemma run_Update (e : external) (cr : v1alpha1.ProxyRoute) (w : W) :
  run roundTrip (Update e (IsProxyRoute cr)) w =
  (let '(err, w1, log) :=
     run roundTrip
       (caddy.UpdateProxyRoute (client e) (serverNameOf cr)
          (meta.GetExternalName cr) (convertToProxyRoute cr)) w in
   (IsProxyRoute cr,
    match err with
    | Some err => Some ("cannot update proxy route: " +:+ err)
    | None => None
    end, w1, log)).
Proof.
  unfold Update. rewrite run_bind.
  destruct (run roundTrip (caddy.UpdateProxyRoute _ _ _ _) w) as [[[err|] w1] log];
    cbn [run]; now rewrite app_nil_r.
Qed.

(** [Delete] of a named resource, step by step. *)
Lemma run_Delete_named (e : external) (cr : v1alpha1.ProxyRoute) (w : W) :
  meta.GetExternalName cr <> "" ->
  run roundTrip (Delete e (IsProxyRoute cr)) w =
  (let '(err, w1, log) :=
     run roundTrip
       (caddy.DeleteProxyRoute (client e) (serverNameOf cr)
          (meta.GetExternalName cr)) w in
   (IsProxyRoute (v1alpha1.SetConditions cr xpv1.Deleting),
    match err with
    | Some err => Some ("cannot delete proxy route: " +:+ err)
    | None => None
    end, w1, log)).
Proof.
  intros Hname. unfold Delete.
  change (meta.GetExternalName (v1alpha1.SetConditions cr xpv1.Deleting))
    with (meta.GetExternalName cr).
  change (serverNameOf (v1alpha1.SetConditions cr xpv1.Deleting))
    with (serverNameOf cr).
  destruct (String.eqb_spec (meta.GetExternalName cr) "") as [E|_]; [contradiction|].
  rewrite run_bind.
  destruct (run roundTrip (caddy.DeleteProxyRoute _ _ _) w) as [[[err|] w1] log];
    cbn [run]; now rewrite app_nil_r.
Qed.

(** X11. [Update] never changes the resource: whatever the backend does,
    the resource it leaves is the one it was given, so the stored external
    name stays even when the translated route has another identifier. When
    the client's delete step fails, [Update] fails with that error under
    both labels and issues nothing after the delete step's requests. *)
Theorem Update_keeps_resource (e : external) (cr : v1alpha1.ProxyRoute) (w : W) :
  fst (fst (fst (run roundTrip (Update e (IsProxyRoute cr)) w))) = IsProxyRoute cr /\
  (forall (err : string) (w1 : W) (log1 : list Request),
     run roundTrip
         (caddy.DeleteProxyRoute (client e) (serverNameOf cr)
            (meta.GetExternalName cr)) w
       = (Some err, w1, log1) ->
     run roundTrip (Update e (IsProxyRoute cr)) w =
       (IsProxyRoute cr,
        Some ("cannot update proxy route: failed to delete old route: " +:+ err),
        w1, log1)).
Proof.
  split.
  - rewrite run_Update.
    now destruct (run roundTrip (caddy.UpdateProxyRoute _ _ _ _) w) as [[err w1] log].
  - intros err w1 log1 Hdel. rewrite run_Update.
    unfold caddy.UpdateProxyRoute. rewrite run_bind, Hdel. cbn [run].
    rewrite app_nil_r.
    change ("cannot update proxy route: failed to delete old route: " +:+ err)
      with ("cannot update proxy route: " +:+ "failed to delete old route: " +:+ err).
    reflexivity.
Qed.

(** X12. [Delete] of a resource without an external name succeeds without
    issuing a request. In every case [Delete] leaves the resource with its
    annotations and spec untouched and its [Ready] condition set to
    deleting. *)
Theorem Delete_resource (e : external) (cr : v1alpha1.ProxyRoute) :
  (meta.GetExternalName cr = "" ->
   Delete e (IsProxyRoute cr) =
     Ret (IsProxyRoute (v1alpha1.SetConditions cr xpv1.Deleting), None)) /\
  (forall w : W,
     exists cr',
       fst (fst (fst (run roundTrip (Delete e (IsProxyRoute cr)) w)))
         = IsProxyRoute cr' /\
       v1alpha1.Annotations cr' = v1alpha1.Annotations cr /\
       v1alpha1.Spec cr' = v1alpha1.Spec cr /\
       v1alpha1.GetCondition cr' xpv1.TypeReady = Some xpv1.Deleting).
Proof.
  assert (Hunnamed : meta.GetExternalName cr = "" ->
    Delete e (IsProxyRoute cr) =
      Ret (IsProxyRoute (v1alpha1.SetConditions cr xpv1.Deleting), None)).
  { intros Hname. unfold Delete.
    change (meta.GetExternalName (v1alpha1.SetConditions cr xpv1.Deleting))
      with (meta.GetExternalName cr).
    now rewrite Hname. }
  split; [exact Hunnamed|].
  intros w. exists (v1alpha1.SetConditions cr xpv1.Deleting).
  split; [|split; [reflexivity | split; [reflexivity|]]].
  - destruct (String.eqb_spec (meta.GetExternalName cr) "") as [Hname|Hname].
    + now rewrite (Hunnamed Hname).
    + rewrite (run_Delete_named e cr w Hname).
      now destruct (run roundTrip (caddy.DeleteProxyRoute _ _ _) w)
        as [[err w1] log].
  - unfold v1alpha1.GetCondition, v1alpha1.SetConditions.
    cbn [v1alpha1.Status v1alpha1.Conditions].
    apply (GetCondition_SetConditions _ xpv1.Deleting).
Qed.

(** X13. A failed [Create] stores no external name: the resource keeps its
    annotations and spec, its [Ready] condition is set to creating, and the
    client's error comes back under the label ["cannot create proxy
    route"]. So a resource without an external name is still reported
    absent by the next [Observe], which issues no request. *)
Theorem Create_failure (e : external) (cr : v1alpha1.ProxyRoute) (w w' : W)
    (mg' : Managed) (err : string) (log : list Request) :
  run roundTrip (Create e (IsProxyRoute cr)) w = (mg', Some err, w', log) ->
  exists (cr' : v1alpha1.ProxyRoute) (cause : string),
    mg' = IsProxyRoute cr' /\
    run roundTrip
        (caddy.CreateProxyRoute (client e) (serverNameOf cr) (convertToProxyRoute cr)) w
      = (Err cause, w', log) /\
    err = "cannot create proxy route: " +:+ cause /\
    v1alpha1.Annotations cr' = v1alpha1.Annotations cr /\
    v1alpha1.Spec cr' = v1alpha1.Spec cr /\
    v1alpha1.GetCondition cr' xpv1.TypeReady = Some xpv1.Creating /\
    (meta.GetExternalName cr = "" ->
     Observe e mg' =
       Ret (mg', Ok {| ResourceExists := false; ResourceUpToDate := false |})).
Proof.
  rewrite run_Create. cbv zeta.
  destruct (run roundTrip (caddy.CreateProxyRoute _ _ _) w) as [[[id|cause] w1] log1];
    [discriminate|].
  intros [= <- <- <- <-].
  exists (v1alpha1.SetConditions cr xpv1.Creating), cause.
  split; [reflexivity|]. split; [reflexivity|]. split; [reflexivity|].
  split; [reflexivity|]. split; [reflexivity|]. split.
  - unfold v1alpha1.GetCondition, v1alpha1.SetConditions.
    cbn [v1alpha1.Status v1alpha1.Conditions].
    apply (GetCondition_SetConditions _ xpv1.Creating).
  - intros Hname. unfold Observe.
    change (meta.GetExternalName (v1alpha1.SetConditions cr xpv1.Creating))
      with (meta.GetExternalName cr).
    now rewrite Hname.
Qed.

(** X14. When [Observe] finds the route it writes the external name into
    the status and leaves annotations and spec untouched. The upstream
    health snapshot is best effort: when its fetch succeeds the status
    holds one entry per upstream reported, in order; when it fails in any
    way the status keeps the entries it had, and [Observe] succeeds all the
    same. *)
Theorem Observe_writes_status
    (e : external) (cr : v1alpha1.ProxyRoute) (w w1 w2 : W)
    (route : ProxyRoute) (u : result (list UpstreamStatus))
    (log1 log2 : list Request) :
  meta.GetExternalName cr <> "" ->
  run roundTrip
      (caddy.GetProxyRoute (client e) (serverNameOf cr) (meta.GetExternalName cr)) w
    = (Ok route, w1, log1) ->
  run roundTrip (caddy.GetUpstreamStatus (client e)) w1 = (u, w2, log2) ->
  exists cr',
    run roundTrip (Observe e (IsProxyRoute cr)) w =
      (IsProxyRoute cr',
       Ok {| ResourceExists := true; ResourceUpToDate := false |},
       w2, (log1 ++ log2)%list) /\
    v1alpha1.RouteID (v1alpha1.AtProvider (v1alpha1.Status cr'))
      = meta.GetExternalName cr /\
    v1alpha1.Annotations cr' = v1alpha1.Annotations cr /\
    v1alpha1.Spec cr' = v1alpha1.Spec cr /\
    match u with
    | Ok upstreams =>
        let statuses :=
          v1alpha1.UpstreamStatuses (v1alpha1.AtProvider (v1alpha1.Status cr')) in
        length statuses = length upstreams /\
        forall i s, upstreams !! i = Some s ->
          statuses !! i =
            Some {| v1alpha1.Address := Address s;
                    v1alpha1.Healthy := Healthy s;
                    v1alpha1.NumRequests := NumRequests s |}
    | Err _ =>
        v1alpha1.UpstreamStatuses (v1alpha1.AtProvider (v1alpha1.Status cr'))
        = v1alpha1.UpstreamStatuses (v1alpha1.AtProvider (v1alpha1.Status cr))
    end.
Proof.
  intros Hname Hget Hup.
  rewrite (run_Observe_named roundTrip e cr w Hname). cbv zeta.
  rewrite Hget, Hup.
  eexists. split; [reflexivity|].
  destruct u as [upstreams|err]; cbn.
  - repeat (split; [reflexivity|]). unfold convertUpstreamStatuses. split.
    + apply length_map.
    + intros i s Hi. now rewrite list_lookup_fmap, Hi.
  - now repeat (split; [reflexivity|]).
Qed.

End EntryPoints.

(** ** Life cycles on the reference backend *)

Section BackendMore.
Import caddyclient http proxyroute.
Context `{GoRuntime}.
Variables (base server : string)
          (encodeRoutes : list ProxyRoute -> string)
          (decodeRoute : string -> option ProxyRoute).

Lemma backend_get (rejectPost : option Reply) (routes : list ProxyRoute) :
  backend.roundTrip base server encodeRoutes decodeRoute rejectPost
    (requests.getRoutes {| caddy.endpoint := base |} server) routes
  = (backend.status 200 (encodeRoutes routes), routes).
Proof.
  unfold backend.roundTrip, requests.getRoutes. cbn [ReqMethod URL caddy.endpoint].
  change (base +:+ caddy.routesPath server) with (backend.routesURL base server).
  now rewrite String.eqb_refl.
Qed.

(** A lookup on the reference backend scans the array the backend holds. *)
Lemma backend_GetProxyRoute (rejectPost : option Reply)
    (routes : list ProxyRoute) (routeID : string) :
  url_error (base +:+ caddy.routesPath server) = None ->
  json_DecodeRoutes (encodeRoutes routes) = Ok routes ->
  run (backend.roundTrip base server encodeRoutes decodeRoute rejectPost)
      (caddy.GetProxyRoute {| caddy.endpoint := base |} server routeID) routes
  = (match caddy.findRoute routes routeID with
     | Some r => Ok r
     | None => Err "route not found"
     end, routes, [requests.getRoutes {| caddy.endpoint := base |} server]).
Proof.
  intros Hurl Hdec. rewrite run_GetProxyRoute. cbv zeta.
  change (URL (requests.getRoutes {| caddy.endpoint := base |} server))
    with (base +:+ caddy.routesPath server).
  rewrite Hurl, backend_get. unfold backend.status. cbn [StatusCode Body].
  change (200 =? StatusNotFound) with false.
  change (caddy.not2xx {| StatusCode := 200; Body := encodeRoutes routes |}) with false.
  cbv iota. now rewrite Hdec.
Qed.

(** A successful create on a backend that turns no POST down appended the
    backend's reading of the posted body. *)
Lemma backend_CreateProxyRoute_Ok (routes routes2 : list ProxyRoute)
    (route : ProxyRoute) (id : string) (log : list Request) :
  run (backend.roundTrip base server encodeRoutes decodeRoute None)
      (caddy.CreateProxyRoute {| caddy.endpoint := base |} server route) routes
    = (Ok id, routes2, log) ->
  id = generateRouteID route /\
  exists body stored,
    json_Marshal route = Ok body /\
    log = [requests.postRoute {| caddy.endpoint := base |} server body] /\
    decodeRoute body = Some stored /\
    routes2 = append routes stored.
Proof.
  intros Hrun.
  apply CreateProxyRoute_Ok in Hrun as (-> & body & resp & Hbody & -> & Hrt & Hst).
  split; [reflexivity|]. exists body.
  unfold backend.roundTrip in Hrt.
  cbn [ReqMethod URL ReqBody requests.postRoute caddy.endpoint] in Hrt.
  change (base +:+ caddy.routesPath server)
    with (backend.routesURL base server) in Hrt.
  rewrite String.eqb_refl in Hrt. cbn [mbind option_bind] in Hrt.
  destruct (decodeRoute body) as [stored|] eqn:Hstored.
  - injection Hrt as _ <-. now exists stored.
  - injection Hrt as <- _. discriminate Hst.
Qed.

Lemma countID_append (routes : list ProxyRoute) (r : ProxyRoute) (routeID : string) :
  backend.countID (append routes r) routeID =
  (backend.countID routes routeID +
   if String.eqb (generateRouteID r) routeID then 1 else 0)%nat.
Proof.
  unfold append. induction routes as [|r0 rest IH]; cbn [app backend.countID].
  - lia.
  - rewrite IH. lia.
Qed.

Lemma findRoute_append_is_Some (routes : list ProxyRoute) (r : ProxyRoute) :
  exists found,
    caddy.findRoute (append routes r) (generateRouteID r) = Some found /\
    generateRouteID found = generateRouteID r.
Proof.
  unfold append. induction routes as [|r0 rest IH]; cbn [app caddy.findRoute].
  - rewrite String.eqb_refl. now exists r.
  - destruct (String.eqb_spec (generateRouteID r0) (generateRouteID r)) as [E|E].
    + now exists r0.
    + exact IH.
Qed.

Lemma findRoute_None_not_holds (routes : list ProxyRoute) (routeID : string) :
  caddy.findRoute routes routeID = None <-> ~ backend.holds routes routeID.
Proof.
  induction routes as [|r rest IH]; cbn [caddy.findRoute].
  - split; [|reflexivity]. intros _ (r' & Hin & _). now apply elem_of_nil in Hin.
  - rewrite holds_cons.
    destruct (String.eqb_spec (generateRouteID r) routeID) as [E|E].
    + split; [discriminate|]. intros Hn. destruct Hn. now left.
    + rewrite IH. split.
      * intros Hn [Hid|Hh]; [contradiction | now apply Hn].
      * intros Hn Hh. apply Hn. now right.
Qed.

(** X15. Create, then observe, on the reference backend. When the backend
    reads the posted body as a route with the same identifier, a successful
    [Create] appends that route, whether or not a route with its identifier
    is already held (their number grows by one), and names the resource
    after it; the [Observe] that follows finds a route with that identifier
    and reports the resource as existing. *)
Theorem Create_then_Observe (cr : v1alpha1.ProxyRoute)
    (routes routes2 : list ProxyRoute) (mg' : Managed) (log : list Request) :
  let e := {| client := {| caddy.endpoint := base |} |} in
  let roundTrip :=
    backend.roundTrip base server encodeRoutes decodeRoute None in
  let id := generateRouteID (convertToProxyRoute cr) in
  serverNameOf cr = server ->
  (forall body stored,
     json_Marshal (convertToProxyRoute cr) = Ok body ->
     decodeRoute body = Some stored ->
     generateRouteID stored = id) ->
  json_DecodeRoutes (encodeRoutes routes2) = Ok routes2 ->
  run roundTrip (Create e (IsProxyRoute cr)) routes = (mg', None, routes2, log) ->
  (exists stored,
     routes2 = append routes stored /\ generateRouteID stored = id) /\
  backend.countID routes2 id = S (backend.countID routes id) /\
  exists mg'' w3 log3,
    run roundTrip (Observe e mg') routes2 =
      (mg'', Ok {| ResourceExists := true; ResourceUpToDate := false |}, w3,
       (requests.getRoutes (client e) server :: log3)).
Proof.
  intros e roundTrip id Hserver Hread Hdec Hrun.
  rewrite run_Create in Hrun. cbv zeta in Hrun. rewrite Hserver in Hrun.
  destruct (run _ (caddy.CreateProxyRoute _ _ _) routes)
    as [[[id'|err] w1] log1] eqn:Hcreate; [|discriminate].
  injection Hrun as <- <- <-.
  pose proof (CreateProxyRoute_Ok_url _ _ _ _ _ _ _ _ Hcreate) as Hurl.
  apply backend_CreateProxyRoute_Ok in Hcreate
    as (-> & body & stored & Hbody & -> & Hstored & ->).
  pose proof (Hread body stored Hbody Hstored) as Hid. fold id in Hid |- *.
  split; [now exists stored|]. split.
  { rewrite countID_append, Hid, String.eqb_refl. lia. }
  set (named := meta.SetExternalName (v1alpha1.SetConditions cr xpv1.Creating) id).
  assert (Hname : meta.GetExternalName named = id)
    by apply GetExternalName_SetExternalName.
  assert (Hne : meta.GetExternalName named <> "")
    by (rewrite Hname; apply generateRouteID_not_empty).
  rewrite (run_Observe_named roundTrip e named _ Hne). cbv zeta.
  change (serverNameOf named) with (serverNameOf cr). rewrite Hserver, Hname.
  unfold e at 1. cbn [client].
  unfold roundTrip at 1.
  rewrite (backend_GetProxyRoute None (append routes stored) id Hurl Hdec).
  destruct (findRoute_append_is_Some routes stored) as (found & Hfound & _).
  rewrite Hid in Hfound. rewrite Hfound.
  destruct (run roundTrip (caddy.GetUpstreamStatus _) (append routes stored))
    as [[u w3] log3].
  now eexists _, w3, log3.
Qed.

End BackendMore.

Section BackendCycles.
Import caddyclient http proxyroute.
Context `{GoRuntime}.
Variables (base server : string)
          (encodeRoutes : list ProxyRoute -> string)
          (decodeRoute : string -> option ProxyRoute).

(** Setting the same condition twice is setting it once. *)
Lemma SetConditions_idem (cs : list xpv1.Condition) (c : xpv1.Condition) :
  xpv1.SetConditions (xpv1.SetConditions cs c) c = xpv1.SetConditions cs c.
Proof.
  induction cs as [|c0 cs IH]; cbn [xpv1.SetConditions].
  - now destruct (xpv1.Type_ c).
  - destruct (xpv1.type_eqb (xpv1.Type_ c0) (xpv1.Type_ c)) eqn:E;
      cbn [xpv1.SetConditions].
    + now destruct (xpv1.Type_ c).
    + now rewrite E, IH.
Qed.

(** A delete that returned no error had its GET URL accepted. *)
Lemma DeleteProxyRoute_None_url {W : Type} (roundTrip : Request -> W -> Reply * W)
    (c : caddy.Client) (serverName routeID : string) (w w' : W)
    (log : list Request) :
  run roundTrip (caddy.DeleteProxyRoute c serverName routeID) w = (None, w', log) ->
  url_error (caddy.endpoint c +:+ caddy.routesPath serverName) = None.
Proof.
  rewrite run_DeleteProxyRoute. cbv zeta.
  change (URL (requests.getRoutes c serverName))
    with (caddy.endpoint c +:+ caddy.routesPath serverName).
  destruct (url_error _); [discriminate | reflexivity].
Qed.

(** A delete on the reference backend of an identifier the array does not
    hold only reads the array. *)
Lemma backend_DeleteProxyRoute_absent (rejectPost : option Reply)
    (routes : list ProxyRoute) (routeID : string) :
  url_error (base +:+ caddy.routesPath server) = None ->
  json_DecodeRoutes (encodeRoutes routes) = Ok routes ->
  ~ backend.holds routes routeID ->
  run (backend.roundTrip base server encodeRoutes decodeRoute rejectPost)
      (caddy.DeleteProxyRoute {| caddy.endpoint := base |} server routeID) routes
  = (None, routes, [requests.getRoutes {| caddy.endpoint := base |} server]).
Proof.
  intros Hurl Hdec Habsent. rewrite run_DeleteProxyRoute. cbv zeta.
  change (URL (requests.getRoutes {| caddy.endpoint := base |} server))
    with (base +:+ caddy.routesPath server).
  rewrite Hurl, backend_get. unfold backend.status. cbn [StatusCode Body].
  change (200 =? StatusNotFound) with false.
  change (caddy.not2xx {| StatusCode := 200; Body := encodeRoutes routes |}) with false.
  cbv iota. rewrite Hdec.
  apply findRoute_None_not_holds in Habsent. rewrite findRoute_list_find in Habsent.
  now destruct (list_find _ routes) as [[i r]|].
Qed.

(** X16. Delete, then observe, on the reference backend. After a
    successful [Delete] of a resource whose identifier the array held at
    most once, the array holds no route with that identifier: the
    [Observe] that follows reports the resource as not existing, without
    error, and a second [Delete] succeeds after reading the array, without
    issuing a DELETE. *)
Theorem Delete_then_Observe (rejectPost : option Reply) (cr : v1alpha1.ProxyRoute)
    (routes routes1 : list ProxyRoute) (mg' : Managed) (log : list Request) :
  let e := {| client := {| caddy.endpoint := base |} |} in
  let roundTrip :=
    backend.roundTrip base server encodeRoutes decodeRoute rejectPost in
  let id := meta.GetExternalName cr in
  let get := requests.getRoutes (client e) server in
  serverNameOf cr = server ->
  id <> "" ->
  (backend.countID routes id <= 1)%nat ->
  json_DecodeRoutes (encodeRoutes routes) = Ok routes ->
  json_DecodeRoutes (encodeRoutes routes1) = Ok routes1 ->
  run roundTrip (Delete e (IsProxyRoute cr)) routes = (mg', None, routes1, log) ->
  routes1 = backend.removeFirst routes id /\
  ~ backend.holds routes1 id /\
  run roundTrip (Observe e mg') routes1 =
    (mg', Ok {| ResourceExists := false; ResourceUpToDate := false |}, routes1,
     [get]) /\
  run roundTrip (Delete e mg') routes1 = (mg', None, routes1, [get]).
Proof.
  intros e roundTrip id get Hserver Hname Hcount Hdec Hdec1 Hrun.
  rewrite (run_Delete_named roundTrip e cr routes Hname) in Hrun.
  rewrite Hserver in Hrun. fold id in Hrun.
  destruct (run roundTrip (caddy.DeleteProxyRoute _ _ _) routes)
    as [[[err|] w1] log1] eqn:Hdel; [discriminate|].
  injection Hrun as <- <- <-.
  pose proof (DeleteProxyRoute_None_url _ _ _ _ _ _ _ Hdel) as Hurl.
  cbn [client caddy.endpoint] in Hurl.
  pose proof (backend_DeleteProxyRoute_None base server encodeRoutes decodeRoute
                rejectPost routes w1 id log1 Hdec Hdel) as ->.
  pose proof (removeFirst_unique routes id Hcount) as Habsent.
  split; [reflexivity|]. split; [exact Habsent|].
  set (deleting := v1alpha1.SetConditions cr xpv1.Deleting).
  assert (Hname' : meta.GetExternalName deleting <> "") by exact Hname.
  split.
  - rewrite (run_Observe_named roundTrip e deleting _ Hname'). cbv zeta.
    change (serverNameOf deleting) with (serverNameOf cr).
    change (meta.GetExternalName deleting) with id. rewrite Hserver.
    unfold e at 1. cbn [client]. unfold roundTrip at 1.
    rewrite (backend_GetProxyRoute base server encodeRoutes decodeRoute rejectPost
               _ id Hurl Hdec1).
    apply findRoute_None_not_holds in Habsent. rewrite Habsent.
    reflexivity.
  - rewrite (run_Delete_named roundTrip e deleting _ Hname').
    change (serverNameOf deleting) with (serverNameOf cr).
    change (meta.GetExternalName deleting) with id. rewrite Hserver.
    unfold e at 1. cbn [client]. unfold roundTrip at 1.
    rewrite (backend_DeleteProxyRoute_absent rejectPost _ id Hurl Hdec1 Habsent).
    unfold deleting, v1alpha1.SetConditions.
    cbn [v1alpha1.Status v1alpha1.Conditions v1alpha1.Annotations v1alpha1.Spec
         v1alpha1.AtProvider].
    now rewrite SetConditions_idem.
Qed.

End BackendCycles.

Section BackendDrift.
Import caddyclient http proxyroute.
Context `{GoRuntime}.
Variables (base server : string)
          (encodeRoutes : list ProxyRoute -> string)
          (decodeRoute : string -> option ProxyRoute).

Lemma holds_append (routes : list ProxyRoute) (r : ProxyRoute) (routeID : string) :
  backend.holds (append routes r) routeID <->
  backend.holds routes routeID \/ generateRouteID r = routeID.
Proof.
  unfold append. induction routes as [|r0 rest IH]; cbn [app].
  - rewrite holds_cons. split.
    + intros [Hid|(r' & Hin & _)]; [now right | now apply elem_of_nil in Hin].
    + intros [(r' & Hin & _)|Hid]; [now apply elem_of_nil in Hin | now left].
  - rewrite !holds_cons, IH. tauto.
Qed.

(** X17. Update does not rename. On the reference backend, when the
    translated route's identifier differs from the stored external name, a
    successful [Update] removes the route stored under the old name and
    appends the new one, but leaves the resource named as before: the
    backend then holds a route with the new identifier and none with the
    stored name, and the [Observe] that follows reports the resource as not
    existing. *)
Theorem Update_then_Observe (cr : v1alpha1.ProxyRoute)
    (routes routes2 : list ProxyRoute) (mg' : Managed) (log : list Request) :
  let e := {| client := {| caddy.endpoint := base |} |} in
  let roundTrip :=
    backend.roundTrip base server encodeRoutes decodeRoute None in
  let name := meta.GetExternalName cr in
  let id := generateRouteID (convertToProxyRoute cr) in
  serverNameOf cr = server ->
  name <> "" ->
  id <> name ->
  (backend.countID routes name <= 1)%nat ->
  (forall body stored,
     json_Marshal (convertToProxyRoute cr) = Ok body ->
     decodeRoute body = Some stored ->
     generateRouteID stored = id) ->
  json_DecodeRoutes (encodeRoutes routes) = Ok routes ->
  json_DecodeRoutes (encodeRoutes routes2) = Ok routes2 ->
  run roundTrip (Update e (IsProxyRoute cr)) routes = (mg', None, routes2, log) ->
  mg' = IsProxyRoute cr /\
  (exists stored,
     routes2 = append (backend.removeFirst routes name) stored /\
     generateRouteID stored = id) /\
  backend.holds routes2 id /\
  ~ backend.holds routes2 name /\
  run roundTrip (Observe e mg') routes2 =
    (mg', Ok {| ResourceExists := false; ResourceUpToDate := false |}, routes2,
     [requests.getRoutes (client e) server]).
Proof.
  intros e roundTrip name id Hserver Hname Hdiff Hcount Hread Hdec Hdec2 Hrun.
  rewrite run_Update, run_UpdateProxyRoute in Hrun.
  rewrite Hserver in Hrun. fold name in Hrun.
  destruct (run roundTrip (caddy.DeleteProxyRoute _ _ _) routes)
    as [[[err|] w1] log1] eqn:Hdel; [discriminate|].
  destruct (run roundTrip (caddy.CreateProxyRoute _ _ _) w1)
    as [[[id'|err] w2] log2] eqn:Hcreate; [|discriminate].
  injection Hrun as <- <- <-.
  pose proof (DeleteProxyRoute_None_url _ _ _ _ _ _ _ Hdel) as Hurl.
  cbn [client caddy.endpoint] in Hurl.
  pose proof (backend_DeleteProxyRoute_None base server encodeRoutes decodeRoute
                None routes w1 name log1 Hdec Hdel) as ->.
  apply backend_CreateProxyRoute_Ok in Hcreate
    as (-> & body & stored & Hbody & -> & Hstored & ->).
  pose proof (Hread body stored Hbody Hstored) as Hid. fold id in Hid.
  assert (Habsent :
    ~ backend.holds (append (backend.removeFirst routes name) stored) name).
  { rewrite holds_append. intros [Hh|Hs].
    - exact (removeFirst_unique routes name Hcount Hh).
    - apply Hdiff. now rewrite <- Hid. }
  split; [reflexivity|]. split; [now exists stored|]. split.
  { apply holds_append. now right. }
  split; [exact Habsent|].
  rewrite (run_Observe_named roundTrip e cr _ Hname). cbv zeta.
  rewrite Hserver. fold name. unfold e at 1. cbn [client]. unfold roundTrip at 1.
  rewrite (backend_GetProxyRoute base server encodeRoutes decodeRoute None
             _ name Hurl Hdec2).
  apply findRoute_None_not_holds in Habsent. rewrite Habsent.
  reflexivity.
Qed.

End BackendDrift.

(** ** Naming and the nested fields *)

Section Naming.
Import caddyclient http proxyroute.
Context `{GoRuntime} {W : Type} (roundTrip : Request -> W -> Reply * W).

(** X2. The identifier is never the empty string; so the external name a
    successful [Create] stores is not empty, and the resource is not taken
    for one that was never created. *)
Theorem Create_names_resource :
  (forall r : ProxyRoute, generateRouteID r <> "") /\
  (forall (e : external) (cr : v1alpha1.ProxyRoute) (w w' : W) (mg' : Managed)
          (log : list Request),
     run roundTrip (Create e (IsProxyRoute cr)) w = (mg', None, w', log) ->
     exists cr', mg' = IsProxyRoute cr' /\ meta.GetExternalName cr' <> "").
Proof.
  split; [exact generateRouteID_not_empty|].
  intros e cr w w' mg' log. rewrite run_Create. cbv zeta.
  destruct (run roundTrip (caddy.CreateProxyRoute _ _ _) w) as [[[id|err] w1] log1]
    eqn:Hcreate; [|discriminate].
  intros [= <- <- <-]. eexists. split; [reflexivity|].
  rewrite GetExternalName_SetExternalName.
  apply CreateProxyRoute_Ok in Hcreate as (-> & _).
  apply generateRouteID_not_empty.
Qed.

End Naming.

Section NestedPresence.
Import proxyroute.

Lemma present_string_deref (o : option string) :
  wire.present_string (deref o) = true <-> presence.setNonEmpty o.
Proof.
  unfold wire.present_string, presence.setNonEmpty, deref.
  rewrite negb_true_iff, String.eqb_neq. destruct o as [t|]; cbn [default].
  - split; [intros Ht; now exists t | intros (t' & [= <-] & Ht); exact Ht].
  - split; [congruence | intros (t & Ht & _); discriminate].
Qed.

Lemma present_int_default (o : option Z) :
  wire.present_int (default 0 o) = true <-> presence.nonZero o.
Proof.
  unfold wire.present_int, presence.nonZero.
  rewrite negb_true_iff, Z.eqb_neq. destruct o as [n|]; cbn [default].
  - split; [intros Hn; now exists n | intros (k & [= <-] & Hk); exact Hk].
  - split; [congruence | intros (k & Hk & _); discriminate].
Qed.

Lemma present_ptr_nonNil {A B : Type} (o : option A) (f : A -> B) :
  wire.present_ptr (match o with Some a => Some (f a) | None => None end) = true
  <-> presence.nonNil o.
Proof.
  unfold presence.nonNil. destruct o; cbn; split; congruence.
Qed.

(** X18. Inside the blocks the translation produces, a nested block
    (selection policy, request and response header operations, active and
    passive health checks) is on the wire exactly when its source is not
    [nil]; a text or number is on the wire exactly when its source is set
    and is not empty or zero; a transport always says protocol ["http"] and
    carries a TLS block, whose [insecure_skip_verify] is on the wire
    exactly when the source is set to [true]. The handler never has
    subroutes. *)
Theorem convertToProxyRoute_nested_presence (cr : v1alpha1.ProxyRoute) :
  let p := v1alpha1.ForProvider (v1alpha1.Spec cr) in
  exists h : caddyclient.Handler,
    caddyclient.Handle (convertToProxyRoute cr) = [h] /\
    caddyclient.Routes h = [] /\
    (forall lb, v1alpha1.LoadBalancing_ p = Some lb ->
       exists lb', caddyclient.LoadBalancing_ h = Some lb' /\
         (wire.present_ptr (caddyclient.SelectionPolicy_ lb') = true
            <-> presence.nonNil (v1alpha1.Policy lb)) /\
         (wire.present_string (caddyclient.TryDuration lb') = true
            <-> presence.setNonEmpty (v1alpha1.TryDuration lb)) /\
         (wire.present_string (caddyclient.TryInterval lb') = true
            <-> presence.setNonEmpty (v1alpha1.TryInterval lb))) /\
    (forall hd, v1alpha1.Headers_ p = Some hd ->
       exists hd', caddyclient.Headers_ h = Some hd' /\
         (wire.present_ptr (caddyclient.Request hd') = true
            <-> presence.nonNil (v1alpha1.Request hd)) /\
         (wire.present_ptr (caddyclient.Response hd') = true
            <-> presence.nonNil (v1alpha1.Response hd))) /\
    (forall hc, v1alpha1.HealthChecks_ p = Some hc ->
       exists hc', caddyclient.HealthChecks_ h = Some hc' /\
         (wire.present_ptr (caddyclient.Active hc') = true
            <-> presence.nonNil (v1alpha1.Active hc)) /\
         (wire.present_ptr (caddyclient.Passive hc') = true
            <-> presence.nonNil (v1alpha1.Passive hc)) /\
         (forall a, v1alpha1.Active hc = Some a ->
            exists a', caddyclient.Active hc' = Some a' /\
              (wire.present_string (caddyclient.ActivePath a') = true
                 <-> presence.setNonEmpty (v1alpha1.ActivePath a)) /\
              (wire.present_string (caddyclient.Interval a') = true
                 <-> presence.setNonEmpty (v1alpha1.Interval a)) /\
              (wire.present_string (caddyclient.Timeout a') = true
                 <-> presence.setNonEmpty (v1alpha1.Timeout a))) /\
         (forall ps, v1alpha1.Passive hc = Some ps ->
            exists ps', caddyclient.Passive hc' = Some ps' /\
              (wire.present_int (caddyclient.MaxFails ps') = true
                 <-> presence.nonZero (v1alpha1.MaxFails ps)) /\
              (wire.present_string (caddyclient.UnhealthyLatency ps') = true
                 <-> presence.setNonEmpty (v1alpha1.UnhealthyLatency ps)))) /\
    (forall t, caddyclient.Transport_ h = Some t ->
       caddyclient.Protocol t = "http" /\
       exists tls c,
         v1alpha1.TLS p = Some tls /\
         caddyclient.TLS t = Some c /\
         (wire.present_string (caddyclient.ServerName c) = true
            <-> presence.setNonEmpty (v1alpha1.TLSServerName tls)) /\
         (wire.present_bool (caddyclient.InsecureSkipVerify c) = true
            <-> v1alpha1.InsecureSkipVerify tls = Some true)).
Proof.
  intros p. eexists. split; [reflexivity|]. split; [reflexivity|].
  cbn [caddyclient.LoadBalancing_ caddyclient.Headers_ caddyclient.HealthChecks_
       caddyclient.Transport_].
  fold p. split; [|split; [|split]].
  - intros lb ->. eexists. split; [reflexivity|].
    cbn [caddyclient.SelectionPolicy_ caddyclient.TryDuration caddyclient.TryInterval].
    split; [apply present_ptr_nonNil|].
    split; apply present_string_deref.
  - intros hd ->. eexists. split; [reflexivity|].
    cbn [caddyclient.Request caddyclient.Response].
    split; apply present_ptr_nonNil.
  - intros hc ->. eexists. split; [reflexivity|].
    cbn [caddyclient.Active caddyclient.Passive].
    split; [apply present_ptr_nonNil|]. split; [apply present_ptr_nonNil|]. split.
    + intros a ->. eexists. split; [reflexivity|].
      cbn [caddyclient.ActivePath caddyclient.Interval caddyclient.Timeout].
      split; [|split]; apply present_string_deref.
    + intros ps ->. eexists. split; [reflexivity|].
      cbn [caddyclient.MaxFails caddyclient.UnhealthyLatency].
      split; [apply present_int_default | apply present_string_deref].
  - intros t. destruct (v1alpha1.TLS p) as [tls|]; [|discriminate].
    destruct (v1alpha1.Enabled tls) as [[|]|]; try discriminate.
    intros [= <-]. split; [reflexivity|].
    eexists tls, _. split; [reflexivity|]. split; [reflexivity|].
    cbn [caddyclient.ServerName caddyclient.InsecureSkipVerify].
    split; [apply present_string_deref|].
    unfold wire.present_bool.
    destruct (v1alpha1.InsecureSkipVerify tls) as [[|]|]; cbn; split; congruence.
Qed.

End NestedPresence.

(** ** Concrete runs of the further properties *)

Section Runs.
Import caddyclient http proxyroute.
#[local] Existing Instance sample.runtime.

(** An endpoint with one, with no and with two trailing slashes. *)
Lemma NewClient_trims_one_slash_witness :
  caddy.endpoint (caddy.NewClient "http://caddy:2019/") = "http://caddy:2019" /\
  caddy.endpoint (caddy.NewClient "http://caddy:2019") = "http://caddy:2019" /\
  caddy.endpoint (caddy.NewClient "http://caddy:2019//") = "http://caddy:2019/" /\
  caddy.endpoint (caddy.NewClient "http://caddy:2019/") <> "http://caddy:2019/".
Proof.
  split; [|split; [|split]].
  - exact (proj1 NewClient_trims_one_slash "http://caddy:2019").
  - apply (proj2 (proj1 (proj2 NewClient_trims_one_slash) "http://caddy:2019")).
    intros a Ha.
    assert (Hs : HasSuffix "http://caddy:2019" "/" = true)
      by (apply HasSuffix_spec; now exists a).
    discriminate Hs.
  - exact (proj1 NewClient_trims_one_slash "http://caddy:2019/").
  - intros Hkept.
    exact (proj1 (proj1 (proj2 NewClient_trims_one_slash) "http://caddy:2019/")
             Hkept "http://caddy:2019" eq_refl).
Defined.

(** A create on the empty reference backend names the resource. *)
Lemma Create_names_resource_witness :
  let cr := sample.desired "a.com" ∅ None in
  let created :=
    meta.SetExternalName (v1alpha1.SetConditions cr xpv1.Creating) "host:a.com" in
  run (sample.roundTrip None) (Create sample.theExternal (IsProxyRoute cr)) []
    = (IsProxyRoute created, None, [sample.hostRoute "a.com"],
       [requests.postRoute sample.theClient "srv0" "a.com"]) /\
  exists cr', IsProxyRoute created = IsProxyRoute cr' /\
              meta.GetExternalName cr' <> "".
Proof.
  intros cr created.
  assert (Hrun :
    run (sample.roundTrip None) (Create sample.theExternal (IsProxyRoute cr)) []
    = (IsProxyRoute created, None, [sample.hostRoute "a.com"],
       [requests.postRoute sample.theClient "srv0" "a.com"]))
    by (vm_compute; reflexivity).
  split; [exact Hrun|].
  exact (proj2 (Create_names_resource (sample.roundTrip None))
           sample.theExternal cr [] _ _ _ Hrun).
Defined.

(** An array whose second entry is the first with the identifier. *)
Lemma findIndex_findRoute_agree_witness :
  let routes := [sample.hostRoute "b.com"; sample.hostRoute "a.com";
                 sample.hostRoute "a.com"] in
  caddy.findIndex routes "host:a.com" 0 = Z.of_nat 1 /\
  exists r,
    routes !! 1%nat = Some r /\
    caddy.findRoute routes "host:a.com" = Some r /\
    generateRouteID r = "host:a.com" /\
    (forall j r', routes !! j = Some r' -> (j < 1)%nat ->
                  generateRouteID r' <> "host:a.com").
Proof.
  intros routes.
  assert (Hi : caddy.findIndex routes "host:a.com" 0 = Z.of_nat 1) by reflexivity.
  split; [exact Hi|].
  exact (proj2 (proj2 (findIndex_findRoute_agree routes "host:a.com")) 1%nat Hi).
Defined.

(** A lookup that finds the second entry. *)
Lemma GetProxyRoute_Ok_witness :
  let routes := [sample.hostRoute "b.com"; sample.hostRoute "a.com"] in
  let get := requests.getRoutes sample.theClient "srv0" in
  run (sample.roundTrip None)
      (caddy.GetProxyRoute sample.theClient "srv0" "host:a.com") routes
    = (Ok (sample.hostRoute "a.com"), routes, [get]) /\
  generateRouteID (sample.hostRoute "a.com") = "host:a.com".
Proof.
  intros routes get.
  assert (Hrun :
    run (sample.roundTrip None)
        (caddy.GetProxyRoute sample.theClient "srv0" "host:a.com") routes
    = (Ok (sample.hostRoute "a.com"), routes, [get])) by (vm_compute; reflexivity).
  split; [exact Hrun|].
  exact (proj1 (GetProxyRoute_Ok (sample.roundTrip None) sample.theClient "srv0"
                  "host:a.com" routes routes _ _ Hrun)).
Defined.

(** A delete that removes the second entry. *)
Lemma DeleteProxyRoute_requests_witness :
  let routes := [sample.hostRoute "b.com"; sample.hostRoute "a.com"] in
  let get := requests.getRoutes sample.theClient "srv0" in
  let del := requests.deleteRoute sample.theClient "srv0" 1 in
  run (sample.roundTrip None)
      (caddy.DeleteProxyRoute sample.theClient "srv0" "host:a.com") routes
    = (None, [sample.hostRoute "b.com"], [get; del]) /\
  (([get; del] = [] /\ [sample.hostRoute "b.com"] = routes /\ None <> @None string) \/
   ([get; del] = [get] /\
    exists reply, sample.roundTrip None get routes
                  = (reply, [sample.hostRoute "b.com"])) \/
   (exists (resp : Response) (w1 : list ProxyRoute) (fetched : list ProxyRoute)
           (i : nat) (r : ProxyRoute) (reply2 : Reply),
      [get; del] = [get; requests.deleteRoute sample.theClient "srv0" i] /\
      sample.roundTrip None get routes = (inr resp, w1) /\
      caddy.not2xx resp = false /\
      json_DecodeRoutes (Body resp) = Ok fetched /\
      (i < length fetched)%nat /\
      fetched !! i = Some r /\
      generateRouteID r = "host:a.com" /\
      sample.roundTrip None (requests.deleteRoute sample.theClient "srv0" i) w1
        = (reply2, [sample.hostRoute "b.com"]))).
Proof.
  intros routes get del.
  assert (Hrun :
    run (sample.roundTrip None)
        (caddy.DeleteProxyRoute sample.theClient "srv0" "host:a.com") routes
    = (None, [sample.hostRoute "b.com"], [get; del])) by (vm_compute; reflexivity).
  split; [exact Hrun|].
  exact (DeleteProxyRoute_requests (sample.roundTrip None) sample.theClient "srv0"
           "host:a.com" routes _ _ _ Hrun).
Defined.

(** An update whose delete step meets a backend fault. *)
Lemma Update_keeps_resource_witness :
  let cr := sample.desired "c.com" (sample.named "host:a.com") None in
  let backend := sample.answering 500 "boom" in
  let get := requests.getRoutes sample.theClient "srv0" in
  run backend (caddy.DeleteProxyRoute sample.theClient "srv0" "host:a.com") tt
    = (Some "caddy API returned status 500: boom", tt, [get]) /\
  run backend (Update sample.theExternal (IsProxyRoute cr)) tt =
    (IsProxyRoute cr,
     Some ("cannot update proxy route: failed to delete old route: "
             +:+ "caddy API returned status 500: boom"),
     tt, [get]).
Proof.
  intros cr backend get.
  assert (Hdel :
    run backend (caddy.DeleteProxyRoute sample.theClient "srv0" "host:a.com") tt
    = (Some "caddy API returned status 500: boom", tt, [get]))
    by (vm_compute; reflexivity).
  split; [exact Hdel|].
  exact (proj2 (Update_keeps_resource backend sample.theExternal cr tt) _ _ _ Hdel).
Defined.

(** A delete of a resource that was never created. *)
Lemma Delete_resource_witness :
  let cr := sample.desired "a.com" ∅ None in
  meta.GetExternalName cr = "" /\
  Delete sample.theExternal (IsProxyRoute cr) =
    Ret (IsProxyRoute (v1alpha1.SetConditions cr xpv1.Deleting), None).
Proof.
  intros cr.
  assert (Hname : meta.GetExternalName cr = "") by reflexivity.
  split; [exact Hname|].
  exact (proj1 (Delete_resource (sample.roundTrip None) sample.theExternal cr) Hname).
Defined.

(** A create that the backend turns down. *)
Lemma Create_failure_witness :
  let cr := sample.desired "a.com" ∅ None in
  let backend := sample.roundTrip (Some (backend.status 500 "boom")) in
  let creating := v1alpha1.SetConditions cr xpv1.Creating in
  run backend (Create sample.theExternal (IsProxyRoute cr)) []
    = (IsProxyRoute creating,
       Some "cannot create proxy route: caddy API returned status 500: boom",
       [], [requests.postRoute sample.theClient "srv0" "a.com"]) /\
  exists (cr' : v1alpha1.ProxyRoute) (cause : string),
    IsProxyRoute creating = IsProxyRoute cr' /\
    run backend
        (caddy.CreateProxyRoute (client sample.theExternal) (serverNameOf cr)
           (convertToProxyRoute cr)) []
      = (Err cause, [], [requests.postRoute sample.theClient "srv0" "a.com"]) /\
    "cannot create proxy route: caddy API returned status 500: boom"
      = "cannot create proxy route: " +:+ cause /\
    v1alpha1.Annotations cr' = v1alpha1.Annotations cr /\
    v1alpha1.Spec cr' = v1alpha1.Spec cr /\
    v1alpha1.GetCondition cr' xpv1.TypeReady = Some xpv1.Creating /\
    (meta.GetExternalName cr = "" ->
     Observe sample.theExternal (IsProxyRoute creating) =
       Ret (IsProxyRoute creating,
            Ok {| ResourceExists := false; ResourceUpToDate := false |})).
Proof.
  intros cr backend creating.
  assert (Hrun :
    run backend (Create sample.theExternal (IsProxyRoute cr)) []
    = (IsProxyRoute creating,
       Some "cannot create proxy route: caddy API returned status 500: boom",
       [], [requests.postRoute sample.theClient "srv0" "a.com"]))
    by (vm_compute; reflexivity).
  split; [exact Hrun|].
  exact (Create_failure backend sample.theExternal cr [] _ _ _ _ Hrun).
Defined.

End Runs.

Section CycleRuns.
Import caddyclient http proxyroute.
#[local] Existing Instance sample.runtime.

(** An observation whose upstream-health fetch is answered 404. *)
Lemma Observe_writes_status_witness :
  let cr := sample.desired "a.com" (sample.named "host:a.com") None in
  let store := [sample.hostRoute "a.com"] in
  let get := requests.getRoutes sample.theClient "srv0" in
  let ups := requests.getUpstreams sample.theClient in
  meta.GetExternalName cr <> "" /\
  run (sample.roundTrip None)
      (caddy.GetProxyRoute sample.theClient "srv0" "host:a.com") store
    = (Ok (sample.hostRoute "a.com"), store, [get]) /\
  run (sample.roundTrip None) (caddy.GetUpstreamStatus sample.theClient) store
    = (Err "caddy API returned status 404: ", store, [ups]) /\
  exists cr',
    run (sample.roundTrip None) (Observe sample.theExternal (IsProxyRoute cr)) store
      = (IsProxyRoute cr',
         Ok {| ResourceExists := true; ResourceUpToDate := false |},
         store, [get; ups]) /\
    v1alpha1.RouteID (v1alpha1.AtProvider (v1alpha1.Status cr')) = "host:a.com" /\
    v1alpha1.UpstreamStatuses (v1alpha1.AtProvider (v1alpha1.Status cr')) = [].
Proof.
  intros cr store get ups.
  assert (Hname : meta.GetExternalName cr <> "") by (vm_compute; discriminate).
  assert (Hget :
    run (sample.roundTrip None)
        (caddy.GetProxyRoute (client sample.theExternal) (serverNameOf cr)
           (meta.GetExternalName cr)) store
    = (Ok (sample.hostRoute "a.com"), store, [get])) by (vm_compute; reflexivity).
  assert (Hup :
    run (sample.roundTrip None) (caddy.GetUpstreamStatus (client sample.theExternal))
        store
    = (Err "caddy API returned status 404: ", store, [ups]))
    by (vm_compute; reflexivity).
  split; [exact Hname|]. split; [exact Hget|]. split; [exact Hup|].
  destruct (Observe_writes_status (sample.roundTrip None) sample.theExternal cr
              store store store _ _ _ _ Hname Hget Hup)
    as (cr' & Hrun & Hid & _ & _ & Hst).
  exists cr'. split; [exact Hrun|]. split; [exact Hid | exact Hst].
Defined.

(** Create, then observe, starting from an empty array. *)
Lemma Create_then_Observe_witness :
  let cr := sample.desired "a.com" ∅ None in
  let created :=
    meta.SetExternalName (v1alpha1.SetConditions cr xpv1.Creating) "host:a.com" in
  let routes2 := [sample.hostRoute "a.com"] in
  serverNameOf cr = "srv0" /\
  json_DecodeRoutes (sample.encodeRoutes routes2) = Ok routes2 /\
  run (sample.roundTrip None) (Create sample.theExternal (IsProxyRoute cr)) []
    = (IsProxyRoute created, None, routes2,
       [requests.postRoute sample.theClient "srv0" "a.com"]) /\
  backend.countID routes2 "host:a.com" = 1%nat /\
  exists mg'' w3 log3,
    run (sample.roundTrip None) (Observe sample.theExternal (IsProxyRoute created))
        routes2
    = (mg'', Ok {| ResourceExists := true; ResourceUpToDate := false |}, w3,
       requests.getRoutes sample.theClient "srv0" :: log3).
Proof.
  intros cr created routes2.
  assert (Hserver : serverNameOf cr = "srv0") by reflexivity.
  assert (Hread : forall body stored,
    json_Marshal (convertToProxyRoute cr) = Ok body ->
    sample.decodeRoute body = Some stored ->
    generateRouteID stored = generateRouteID (convertToProxyRoute cr)).
  { intros body stored [= <-] [= <-]. reflexivity. }
  assert (Hdec : json_DecodeRoutes (sample.encodeRoutes routes2) = Ok routes2)
    by (vm_compute; reflexivity).
  assert (Hrun :
    run (backend.roundTrip "http://caddy:2019" "srv0" sample.encodeRoutes
           sample.decodeRoute None)
        (Create {| client := {| caddy.endpoint := "http://caddy:2019" |} |}
           (IsProxyRoute cr)) []
    = (IsProxyRoute created, None, routes2,
       [requests.postRoute sample.theClient "srv0" "a.com"]))
    by (vm_compute; reflexivity).
  split; [exact Hserver|]. split; [exact Hdec|]. split; [exact Hrun|].
  destruct (Create_then_Observe "http://caddy:2019" "srv0" sample.encodeRoutes
              sample.decodeRoute cr [] routes2 _ _ Hserver Hread Hdec Hrun)
    as (_ & Hcount & Hobs).
  split; [exact Hcount | exact Hobs].
Defined.

(** Delete, then observe, on an array that holds the route once. *)
Lemma Delete_then_Observe_witness :
  let cr := sample.desired "a.com" (sample.named "host:a.com") None in
  let deleting := v1alpha1.SetConditions cr xpv1.Deleting in
  let routes := [sample.hostRoute "b.com"; sample.hostRoute "a.com"] in
  let routes1 := [sample.hostRoute "b.com"] in
  let get := requests.getRoutes sample.theClient "srv0" in
  (backend.countID routes "host:a.com" <= 1)%nat /\
  run (sample.roundTrip None) (Delete sample.theExternal (IsProxyRoute cr)) routes
    = (IsProxyRoute deleting, None, routes1,
       [get; requests.deleteRoute sample.theClient "srv0" 1]) /\
  run (sample.roundTrip None) (Observe sample.theExternal (IsProxyRoute deleting))
      routes1
    = (IsProxyRoute deleting,
       Ok {| ResourceExists := false; ResourceUpToDate := false |}, routes1, [get]) /\
  run (sample.roundTrip None) (Delete sample.theExternal (IsProxyRoute deleting))
      routes1
    = (IsProxyRoute deleting, None, routes1, [get]).
Proof.
  intros cr deleting routes routes1 get.
  assert (Hserver : serverNameOf cr = "srv0") by reflexivity.
  assert (Hname : meta.GetExternalName cr <> "") by (vm_compute; discriminate).
  assert (Hcount : (backend.countID routes (meta.GetExternalName cr) <= 1)%nat)
    by (vm_compute; lia).
  assert (Hdec : json_DecodeRoutes (sample.encodeRoutes routes) = Ok routes)
    by (vm_compute; reflexivity).
  assert (Hdec1 : json_DecodeRoutes (sample.encodeRoutes routes1) = Ok routes1)
    by (vm_compute; reflexivity).
  assert (Hrun :
    run (backend.roundTrip "http://caddy:2019" "srv0" sample.encodeRoutes
           sample.decodeRoute None)
        (Delete {| client := {| caddy.endpoint := "http://caddy:2019" |} |}
           (IsProxyRoute cr)) routes
    = (IsProxyRoute deleting, None, routes1,
       [get; requests.deleteRoute sample.theClient "srv0" 1]))
    by (vm_compute; reflexivity).
  split; [exact Hcount|]. split; [exact Hrun|].
  destruct (Delete_then_Observe "http://caddy:2019" "srv0" sample.encodeRoutes
              sample.decodeRoute None cr routes routes1 _ _
              Hserver Hname Hcount Hdec Hdec1 Hrun)
    as (_ & _ & Hobs & Hdel).
  split; [exact Hobs | exact Hdel].
Defined.

(** An update that changes the host from a.com to c.com. *)
Lemma Update_then_Observe_witness :
  let cr := sample.desired "c.com" (sample.named "host:a.com") None in
  let routes := [sample.hostRoute "a.com"] in
  let routes2 := [sample.hostRoute "c.com"] in
  let get := requests.getRoutes sample.theClient "srv0" in
  generateRouteID (convertToProxyRoute cr) = "host:c.com" /\
  meta.GetExternalName cr = "host:a.com" /\
  run (sample.roundTrip None) (Update sample.theExternal (IsProxyRoute cr)) routes
    = (IsProxyRoute cr, None, routes2,
       [get; requests.deleteRoute sample.theClient "srv0" 0;
        requests.postRoute sample.theClient "srv0" "c.com"]) /\
  backend.holds routes2 "host:c.com" /\
  ~ backend.holds routes2 "host:a.com" /\
  run (sample.roundTrip None) (Observe sample.theExternal (IsProxyRoute cr)) routes2
    = (IsProxyRoute cr,
       Ok {| ResourceExists := false; ResourceUpToDate := false |}, routes2, [get]).
Proof.
  intros cr routes routes2 get.
  assert (Hserver : serverNameOf cr = "srv0") by reflexivity.
  assert (Hname : meta.GetExternalName cr <> "") by (vm_compute; discriminate).
  assert (Hdiff : generateRouteID (convertToProxyRoute cr) <> meta.GetExternalName cr)
    by (vm_compute; discriminate).
  assert (Hcount : (backend.countID routes (meta.GetExternalName cr) <= 1)%nat)
    by (vm_compute; lia).
  assert (Hread : forall body stored,
    json_Marshal (convertToProxyRoute cr) = Ok body ->
    sample.decodeRoute body = Some stored ->
    generateRouteID stored = generateRouteID (convertToProxyRoute cr)).
  { intros body stored [= <-] [= <-]. reflexivity. }
  assert (Hdec : json_DecodeRoutes (sample.encodeRoutes routes) = Ok routes)
    by (vm_compute; reflexivity).
  assert (Hdec2 : json_DecodeRoutes (sample.encodeRoutes routes2) = Ok routes2)
    by (vm_compute; reflexivity).
  assert (Hrun :
    run (backend.roundTrip "http://caddy:2019" "srv0" sample.encodeRoutes
           sample.decodeRoute None)
        (Update {| client := {| caddy.endpoint := "http://caddy:2019" |} |}
           (IsProxyRoute cr)) routes
    = (IsProxyRoute cr, None, routes2,
       [get; requests.deleteRoute sample.theClient "srv0" 0;
        requests.postRoute sample.theClient "srv0" "c.com"]))
    by (vm_compute; reflexivity).
  split; [reflexivity|]. split; [reflexivity|]. split; [exact Hrun|].
  destruct (Update_then_Observe "http://caddy:2019" "srv0" sample.encodeRoutes
              sample.decodeRoute cr routes routes2 _ _
              Hserver Hname Hdiff Hcount Hread Hdec Hdec2 Hrun)
    as (_ & _ & Hnew & Hold & Hobs).
  split; [exact Hnew|]. split; [exact Hold | exact Hobs].
Defined.

End CycleRuns.

(** ** The upstream health snapshot *)

Section UpstreamFacts.
Import caddyclient http.
Context `{GoRuntime} {W : Type} (roundTrip : Request -> W -> Reply * W).

(** X19. [GetUpstreamStatus] returns a list exactly when its one GET, of a
    URL that does not depend on any server or route, was answered 2xx with
    a body that decodes; the list is the decoded one. A 404 has no special
    meaning here: it is an error that quotes status and body, like every
    other answer outside 2xx. *)
Theorem GetUpstreamStatus_outcomes (c : caddy.Client) (w w' : W) :
  let get := requests.getUpstreams c in
  (forall (upstreams : list UpstreamStatus) (log : list Request),
     run roundTrip (caddy.GetUpstreamStatus c) w = (Ok upstreams, w', log) <->
     url_error (URL get) = None /\
     log = [get] /\
     exists resp,
       roundTrip get w = (inr resp, w') /\
       caddy.not2xx resp = false /\
       json_DecodeUpstreams (Body resp) = Ok upstreams) /\
  (forall resp : Response,
     url_error (URL get) = None ->
     roundTrip get w = (inr resp, w') ->
     StatusCode resp = StatusNotFound ->
     run roundTrip (caddy.GetUpstreamStatus c) w =
       (Err ("caddy API returned status 404: " +:+ Body resp), w', [get])).
Proof.
  intros get. split.
  - intros upstreams log. rewrite run_GetUpstreamStatus. cbv zeta. fold get. split.
    + destruct (url_error (URL get)); [discriminate|].
      destruct (roundTrip get w) as [[err|resp] w1]; [discriminate|].
      destruct (caddy.not2xx resp) eqn:Hst; [discriminate|].
      destruct (json_DecodeUpstreams (Body resp)) as [ups|err] eqn:Hdec;
        [|discriminate].
      intros [= <- <- <-]. split; [reflexivity|]. split; [reflexivity|].
      now exists resp.
    + intros (Hurl & -> & resp & Hrt & Hst & Hdec).
      now rewrite Hurl, Hrt, Hst, Hdec.
  - intros resp Hurl Hrt H404. rewrite run_GetUpstreamStatus. cbv zeta. fold get.
    rewrite Hurl, Hrt.
    assert (Hst : caddy.not2xx resp = true).
    { unfold caddy.not2xx. rewrite H404. reflexivity. }
    rewrite Hst. unfold caddy.statusError. now rewrite H404.
Qed.

End UpstreamFacts.
